(** * Drywall and Insulation Estimator: shallow embedding and verified properties

    The program is [Drywall_and_Insulation_Estimator.py]: two Streamlit
    estimators, [run_drywall_estimator] and [run_insulation_estimator].  Each
    reads its inputs from form widgets and then evaluates closed-form
    arithmetic.  The embedding takes the widget values as an input record and
    follows the arithmetic statement by statement.

    Number model.  The file has two of them.

    - Areas, costs and totals are followed over the real numbers ([R]): a
      Python [float] is idealised as the real it stands for, so a statement
      about these quantities holds of the program up to the rounding of its
      floating-point operations.  Python [int] values ([math.ceil] results,
      counts, the integer widgets) are [Z], injected into [R] by [IZR] where
      Python mixes them with floats.  This model carries the formulas, the
      case distinctions and the orderings of the two estimators.

    - Where an integer is read off a float (the [math.ceil] of a quotient) or
      a float is compared with another to clamp a difference, rounding
      decides the answer.  Those blocks (the "Areas" block, the takeoff
      quantities, the bag counts) are followed a second time in binary64,
      bit for bit, in the last part of the file.

    Python's [/] raises [ZeroDivisionError] on a zero divisor and a dict
    lookup raises [KeyError] on a missing key; both are kept, through a small
    error monad.  The duplicate-key exception that Streamlit raises when the
    two estimators run in one script is followed in the part on the script. *)

From Stdlib Require Import Reals Lra Lia List ZArith String Bool.
Import ListNotations.
Local Open Scope R_scope.

(** ** Python primitives used by the program *)

Module Py.

Inductive exn : Type :=
| ZeroDivisionError
| KeyError.

Inductive result (A : Type) : Type :=
| Ok (a : A)
| Raise (e : exn).

Arguments Ok {A} a.
Arguments Raise {A} e.

Definition bind {A B : Type} (c : result A) (k : A -> result B) : result B :=
  match c with
  | Ok a => k a
  | Raise e => Raise e
  end.

(** [x / y] on numbers with a divisor that is a variable. *)
Definition truediv (x y : R) : result R :=
  if Req_dec_T y 0 then Raise ZeroDivisionError else Ok (x / y).

(** Comparisons as the booleans Python computes. *)
Definition gt (x y : R) : bool := if Rgt_dec x y then true else false.

(** Truthiness of a number: [if x] holds when [x] is not zero. *)
Definition truthy (x : R) : bool := if Req_dec_T x 0 then false else true.

(** [max(a, b)]: the first argument is kept unless the second is greater. *)
Definition max (a b : R) : R := if Rgt_dec b a then b else a.

(** [max(a, b)] on integers. *)
Definition maxz (a b : Z) : Z := if (b >? a)%Z then b else a.

(** [sum(xs)]: left to right, from 0. *)
Definition sum (xs : list R) : R := fold_left Rplus xs 0.

(** [math.ceil], [math.floor] and [math.sqrt]. *)
Definition ceil (x : R) : Z := Zceil x.
Definition floor (x : R) : Z := Zfloor x.
Definition sqrt (x : R) : R := R_sqrt.sqrt x.

(** [math.ceil(x / rate) if rate > 0 else 0] *)
Definition ceil_div_guarded (x rate : R) : result Z :=
  if gt rate 0
  then bind (truediv x rate) (fun q => Ok (ceil q))
  else Ok 0%Z.

(** [math.ceil(x / rate) if rate else 0] *)
Definition ceil_div_truthy (x rate : R) : result Z :=
  if truthy rate
  then bind (truediv x rate) (fun q => Ok (ceil q))
  else Ok 0%Z.

(** [d[k]] on a dict kept as its items in insertion order. *)
Fixpoint getitem {K V : Type} (eqb : K -> K -> bool) (d : list (K * V)) (k : K)
  : result V :=
  match d with
  | [] => Raise KeyError
  | (k', v) :: rest => if eqb k' k then Ok v else getitem eqb rest k
  end.

(** A list comprehension whose element expression may raise. *)
Fixpoint comprehension {A B : Type} (f : A -> result B) (xs : list A)
  : result (list B) :=
  match xs with
  | [] => Ok []
  | x :: rest =>
    match f x with
    | Ok y =>
      match comprehension f rest with
      | Ok ys => Ok (y :: ys)
      | Raise e => Raise e
      end
    | Raise e => Raise e
    end
  end.

End Py.

Import Py.

Declare Scope py_scope.
Delimit Scope py_scope with py.
Notation "x <- c ;; k" := (Py.bind c (fun x => k))
  (at level 61, c at next level, right associativity) : py_scope.
Local Open Scope py_scope.

(** [FT2_TO_M2 = 0.09290304] *)
Definition FT2_TO_M2 : R := 0.09290304.

(** ** Drywall estimator *)

Module Room.

(** What the form collects for one room.  [windows] and [doors] hold
    (width, height) pairs in feet, as appended by the form loops. *)
Record t : Type := mk {
  name : string;
  length : R;
  width : R;
  height : R;
  include_ceiling : bool;
  windows : list (R * R);
  doors : list (R * R)
}.

End Room.

Module Drywall.

(** The two entries of the "Sheet size" select box. *)
Inductive SheetSize : Type :=
| Sheet4x8
| Sheet4x12.

(** The two entries of the "RC spacing (in)" select box. *)
Inductive RCSpacing : Type :=
| RC16
| RC24.

Definition rc_spacing_value (s : RCSpacing) : R :=
  match s with
  | RC16 => 16
  | RC24 => 24
  end.

(** One dict of [rooms_data]. *)
Record RoomRow : Type := mkRoomRow {
  room : string;
  length_ft : R;
  width_ft : R;
  height_ft : R;
  perimeter_ft : R;
  wall_area_net_ft2 : R;
  ceiling_area_ft2 : R;
  total_area_ft2 : R;
  total_with_waste_ft2 : R
}.

(** The widget values read before the summary is computed. *)
Record Inputs : Type := mkInputs {
  include_waste : bool;
  waste_pct_input : R;
  mud_gal_per_1000 : R;
  mud_pail_gal : R;
  tape_sqft_per_roll : R;
  screws_per_sqft : R;
  screws_per_box : Z;
  corner_bead_lf_per_1000 : R;
  corner_bead_piece_len_ft : R;
  sheet_size : SheetSize;
  include_resilient_channel : bool;
  rc_spacing_in : RCSpacing;
  rc_piece_length_ft : R;
  cost_per_sheet : R;
  cost_mud_pail : R;
  cost_tape_roll : R;
  cost_screws_box : R;
  cost_corner_bead_piece : R;
  cost_rc_piece : R;
  pot_light_count : Z;
  pot_light_cost : R;
  labour_rate_sqft : R;
  labour_rate_sqm : R;
  tax_pct : R;
  labour_high_part_flat : R;
  labour_high_part_rate_sqft : R;
  rooms : list Room.t;
  high_parts : list (R * R)
}.

(** [waste_pct = st.number_input(...) if include_waste else 0.0] *)
Definition waste_pct (inp : Inputs) : R :=
  if include_waste inp then waste_pct_input inp else 0.

(** [sum(w * h for w, h in openings)] *)
Definition openings_sum (openings : list (R * R)) : R :=
  Py.sum (map (fun wh => fst wh * snd wh) openings).

(** The "Areas" block of the room loop. *)
Definition room_areas (waste_pct : R) (r : Room.t) : RoomRow :=
  let perimeter := 2 * (Room.length r + Room.width r) in
  let wall_area_gross := perimeter * Room.height r in
  let openings_area := openings_sum (Room.windows r) + openings_sum (Room.doors r) in
  let wall_area_net := Py.max (wall_area_gross - openings_area) 0 in
  let ceiling_area :=
    if Room.include_ceiling r then Room.length r * Room.width r else 0 in
  let total_area_ft2 := wall_area_net + ceiling_area in
  let waste_multiplier := 1 + waste_pct / 100 in
  let total_with_waste_ft2 := total_area_ft2 * waste_multiplier in
  {| room := Room.name r;
     length_ft := Room.length r;
     width_ft := Room.width r;
     height_ft := Room.height r;
     perimeter_ft := perimeter;
     wall_area_net_ft2 := wall_area_net;
     ceiling_area_ft2 := ceiling_area;
     total_area_ft2 := total_area_ft2;
     total_with_waste_ft2 := total_with_waste_ft2 |}.

(** The "RC LF (if enabled)" block: the running [rc_total_lf]. *)
Definition rc_step (inp : Inputs) (r : Room.t) (rc_total_lf : R) : result R :=
  if include_resilient_channel inp && Room.include_ceiling r
     && Py.gt (Room.width r) 0 && Py.gt (Room.length r) 0
  then
    q <- Py.truediv (Room.width r * 12) (rc_spacing_value (rc_spacing_in inp)) ;;
    let rows := (Py.floor q + 1)%Z in
    Ok (rc_total_lf + IZR rows * Room.length r)
  else Ok rc_total_lf.

(** One iteration of the room loop on the pair ([rooms_data], [rc_total_lf]). *)
Definition room_body (inp : Inputs) (r : Room.t) (st : list RoomRow * R)
  : result (list RoomRow * R) :=
  let row := room_areas (waste_pct inp) r in
  rc <- rc_step inp r (snd st) ;;
  Ok (fst st ++ [row], rc).

Fixpoint room_loop (inp : Inputs) (rs : list Room.t) (st : list RoomRow * R)
  : result (list RoomRow * R) :=
  match rs with
  | [] => Ok st
  | r :: rest => st' <- room_body inp r st ;; room_loop inp rest st'
  end.

(** The body of the high-parts loop on the pair
    ([qualifying_hp_area_ft2], [qualifying_hp_count]); a part is the pair
    ([hp_height], [hp_area]). *)
Definition high_part_step (st : R * Z) (hp : R * R) : R * Z :=
  if Py.gt (fst hp) 10 && Py.gt (snd hp) 64
  then (fst st + snd hp, (snd st + 1)%Z)
  else st.

Definition high_parts_loop (hps : list (R * R)) : R * Z :=
  fold_left high_part_step hps (0, 0%Z).

(** A row of [df]: the room dict and the two columns added in m^2. *)
Record DfRow : Type := mkDfRow {
  row : RoomRow;
  total_area_m2 : R;
  total_with_waste_m2 : R
}.

Definition make_df (rooms_data : list RoomRow) : list DfRow :=
  map (fun r => {| row := r;
                   total_area_m2 := total_area_ft2 r * FT2_TO_M2;
                   total_with_waste_m2 := total_with_waste_ft2 r * FT2_TO_M2 |})
      rooms_data.

(** The quantities of the "Material Takeoff" block. *)
Record Takeoff : Type := mkTakeoff {
  sheets : Z;
  mud_gal : R;
  mud_pails : Z;
  tape_rolls : Z;
  screws_qty : Z;
  screws_boxes : Z;
  corner_bead_lf : R;
  corner_bead_pcs : Z;
  rc_pieces : Z;
  rc_total_lf : R
}.

(** [sheet_area = 32.0 if "4x8" in sheet_size else 48.0] *)
Definition sheet_area (s : SheetSize) : R :=
  match s with
  | Sheet4x8 => 32
  | Sheet4x12 => 48
  end.

Definition material_takeoff (inp : Inputs) (n_rows : nat) (total_waste_ft2 : R)
  : result Takeoff :=
  let sheet_area := sheet_area (sheet_size inp) in
  sheets <- Py.ceil_div_guarded total_waste_ft2 sheet_area ;;
  let mud_gal := (total_waste_ft2 / 1000) * mud_gal_per_1000 inp in
  mud_pails <- Py.ceil_div_guarded mud_gal (mud_pail_gal inp) ;;
  tape_rolls <- Py.ceil_div_guarded total_waste_ft2 (tape_sqft_per_roll inp) ;;
  let screws_qty := Py.ceil (total_waste_ft2 * screws_per_sqft inp) in
  screws_boxes <-
    (if (screws_per_box inp >? 0)%Z
     then q <- Py.truediv (IZR screws_qty) (IZR (screws_per_box inp)) ;;
          Ok (Py.ceil q)
     else Ok 0%Z) ;;
  let corner_bead_lf := (total_waste_ft2 / 1000) * corner_bead_lf_per_1000 inp in
  corner_bead_pcs <- Py.ceil_div_guarded corner_bead_lf (corner_bead_piece_len_ft inp) ;;
  let rc_pieces := 0%Z in
  (* rc_total_lf = 0.0 if len(df) == 0 else sum([]) *)
  let rc_total_lf := if Nat.eqb n_rows 0 then 0 else Py.sum [] in
  Ok {| sheets := sheets;
        mud_gal := mud_gal;
        mud_pails := mud_pails;
        tape_rolls := tape_rolls;
        screws_qty := screws_qty;
        screws_boxes := screws_boxes;
        corner_bead_lf := corner_bead_lf;
        corner_bead_pcs := corner_bead_pcs;
        rc_pieces := rc_pieces;
        rc_total_lf := rc_total_lf |}.

(** The figures of the "Costs and Pricing" block. *)
Record Pricing : Type := mkPricing {
  materials_breakdown : list (string * Z * R);
  material_subtotal : R;
  charge_area_ft2 : R;
  charge_area_m2 : R;
  labour_area_cost : R;
  labour_high_parts_cost : R;
  labour_subtotal : R;
  subtotal_no_tax : R;
  total_with_tax : R;
  cash_price : R
}.

(** The [if]/[elif]/[else] that selects the area labour cost. *)
Definition area_labour (inp : Inputs) (charge_area_ft2 charge_area_m2 : R) : R :=
  if Py.gt (labour_rate_sqft inp) 0 then charge_area_ft2 * labour_rate_sqft inp
  else if Py.gt (labour_rate_sqm inp) 0 then charge_area_m2 * labour_rate_sqm inp
  else 0.

(** High-parts labour: flat per part when set, else per ft^2 of qualifying
    area.  No widget carries the key [labour_high_part_flat] or
    [labour_high_part_rate_sqft], so the two session-state lookups fall back
    to the local values. *)
Definition high_parts_labour (inp : Inputs) (qualifying_hp_area_ft2 : R)
  (qualifying_hp_count : Z) : R :=
  if (qualifying_hp_count >? 0)%Z && Py.gt (labour_high_part_flat inp) 0
  then IZR qualifying_hp_count * labour_high_part_flat inp
  else qualifying_hp_area_ft2 * labour_high_part_rate_sqft inp.

Definition pricing (inp : Inputs) (t : Takeoff) (total_waste_ft2 : R)
  (qualifying_hp_area_ft2 : R) (qualifying_hp_count : Z) : Pricing :=
  let mat_board_cost := IZR (sheets t) * cost_per_sheet inp in
  let mat_mud_cost := IZR (mud_pails t) * cost_mud_pail inp in
  let mat_tape_cost := IZR (tape_rolls t) * cost_tape_roll inp in
  let mat_screws_cost := IZR (screws_boxes t) * cost_screws_box inp in
  let mat_corner_cost := IZR (corner_bead_pcs t) * cost_corner_bead_piece inp in
  let mat_pot_lights_cost := IZR (pot_light_count inp) * pot_light_cost inp in
  let materials_breakdown :=
    [ ("Board (sheets)"%string, sheets t, mat_board_cost);
      ("Mud (pails)"%string, mud_pails t, mat_mud_cost);
      ("Tape (rolls)"%string, tape_rolls t, mat_tape_cost);
      ("Screws (boxes)"%string, screws_boxes t, mat_screws_cost);
      ("Corner bead (pieces)"%string, corner_bead_pcs t, mat_corner_cost);
      ("Pot lights (qty)"%string, pot_light_count inp, mat_pot_lights_cost) ] in
  let material_subtotal := Py.sum (map snd materials_breakdown) in
  let charge_area_ft2 := total_waste_ft2 + qualifying_hp_area_ft2 in
  let charge_area_m2 := charge_area_ft2 * FT2_TO_M2 in
  let labour_area_cost := area_labour inp charge_area_ft2 charge_area_m2 in
  let labour_high_parts_cost :=
    high_parts_labour inp qualifying_hp_area_ft2 qualifying_hp_count in
  let labour_subtotal := labour_area_cost + labour_high_parts_cost in
  let subtotal_no_tax := material_subtotal + labour_subtotal in
  let tax_pct_val := tax_pct inp in
  let total_with_tax :=
    if Py.gt tax_pct_val 0
    then subtotal_no_tax * (1 + tax_pct_val / 100)
    else subtotal_no_tax in
  {| materials_breakdown := materials_breakdown;
     material_subtotal := material_subtotal;
     charge_area_ft2 := charge_area_ft2;
     charge_area_m2 := charge_area_m2;
     labour_area_cost := labour_area_cost;
     labour_high_parts_cost := labour_high_parts_cost;
     labour_subtotal := labour_subtotal;
     subtotal_no_tax := subtotal_no_tax;
     total_with_tax := total_with_tax;
     cash_price := subtotal_no_tax |}.

(** Everything the summary shows and the two downloads contain. *)
Record Report : Type := mkReport {
  df : list DfRow;
  total_ft2 : R;
  total_m2 : R;
  total_waste_ft2 : R;
  total_waste_m2 : R;
  takeoff : Takeoff;
  prices : Pricing;
  qualifying_hp_count : Z;
  qualifying_hp_area_ft2 : R
}.

(** The function: [None] is the branch that only asks for a room. *)
Definition run_drywall_estimator (inp : Inputs) : result (option Report) :=
  st <- room_loop inp (rooms inp) ([], 0) ;;
  let rooms_data := fst st in
  let hp := high_parts_loop (high_parts inp) in
  let qualifying_hp_area_ft2 := fst hp in
  let qualifying_hp_count := snd hp in
  match rooms_data with
  | [] => Ok None
  | _ :: _ =>
    let df := make_df rooms_data in
    let total_ft2 := Py.sum (map (fun d => total_area_ft2 (row d)) df) in
    let total_m2 := total_ft2 * FT2_TO_M2 in
    let total_waste_ft2 := Py.sum (map (fun d => total_with_waste_ft2 (row d)) df) in
    let total_waste_m2 := total_waste_ft2 * FT2_TO_M2 in
    t <- material_takeoff inp (List.length df) total_waste_ft2 ;;
    let p := pricing inp t total_waste_ft2 qualifying_hp_area_ft2 qualifying_hp_count in
    Ok (Some {| df := df;
                total_ft2 := total_ft2;
                total_m2 := total_m2;
                total_waste_ft2 := total_waste_ft2;
                total_waste_m2 := total_waste_m2;
                takeoff := t;
                prices := p;
                qualifying_hp_count := qualifying_hp_count;
                qualifying_hp_area_ft2 := qualifying_hp_area_ft2 |})
  end.

End Drywall.

(** ** Insulation estimator *)

Module Insulation.

(** An innermost dict of [MATERIAL_SPECS]. *)
Record MaterialSpec : Type := mkSpec {
  coverage_per_bag : R;
  pieces_per_bag : Z
}.

(** [MATERIAL_SPECS[r]['widths']] is the list paired with [r]. *)
Definition MATERIAL_SPECS : list (string * list (Z * MaterialSpec)) :=
  [ ("R12"%string, [ (15%Z, mkSpec 100.0 20); (23%Z, mkSpec 153.3 20) ]);
    ("R14"%string, [ (15%Z, mkSpec 78.3 16); (23%Z, mkSpec 120.1 16) ]);
    ("R20"%string, [ (15%Z, mkSpec 80.0 16); (23%Z, mkSpec 122.7 16) ]);
    ("R22"%string, [ (15%Z, mkSpec 49.0 10); (23%Z, mkSpec 75.1 10) ]);
    ("R28"%string, [ (16%Z, mkSpec 53.3 10); (24%Z, mkSpec 80.0 10) ]);
    ("R31"%string, [ (16%Z, mkSpec 42.7 8); (24%Z, mkSpec 64.0 8) ]);
    ("R40"%string, [ (16%Z, mkSpec 32.0 6); (24%Z, mkSpec 48.0 6) ]) ].

(** [MATERIAL_SPECS[r_value]['widths'][width]] *)
Definition lookup_spec (r_value : string) (width : Z) : result MaterialSpec :=
  widths <- Py.getitem String.eqb MATERIAL_SPECS r_value ;;
  Py.getitem Z.eqb widths width.

(** The entries of the two spacing select boxes, [16] and [24]. *)
Inductive Spacing : Type :=
| Spacing16
| Spacing24.

Definition spacing_value (s : Spacing) : Z :=
  match s with
  | Spacing16 => 16
  | Spacing24 => 24
  end.

(** The widget values.  A cathedral section is the tuple
    ([length], [base_width], [height_above]); the form builds one per
    [range(int(num_cat))], so [num_cat] is the number of sections. *)
Record Inputs : Type := mkInputs {
  wall_r_value : string;
  wall_width : Z;
  wall_price_per_bag : R;
  cat_r_value : string;
  cat_width : Z;
  cat_price_per_bag : R;
  ceiling_cov_per_bag : R;
  ceiling_price_per_bag : R;
  wall_linear_feet : R;
  wall_height : R;
  wall_stud_spacing : Spacing;
  cat_sections : list (R * R * R);
  cat_spacing_in : Spacing;
  blow_sq : Z;
  vault_sq : Z;
  wall_labour_rate : R;
  ceiling_hourly : R;
  ceiling_hours : R;
  ceiling_flat_srchg : R;
  cathedral_hourly : R;
  cathedral_hours : R;
  cathedral_flat : R;
  run_estimate : bool
}.

Definition num_cat (inp : Inputs) : Z := Z.of_nat (List.length (cat_sections inp)).

(** The body of the loop over [cat_sections], on [total_cat_area]. *)
Definition cat_area_step (total_cat_area : R) (s : R * R * R) : R :=
  let '(length, bw, rise) := s in
  let slope := Py.sqrt (Py.max ((bw / 2) ^ 2 + rise ^ 2) 0) in
  total_cat_area + 2 * slope * length.

Definition cat_area_loop (sections : list (R * R * R)) : R :=
  fold_left cat_area_step sections 0.

(** [math.ceil(x / (spacing / 12)) if spacing else 0] *)
Definition batt_count (x : R) (spacing : Spacing) : result Z :=
  if negb (spacing_value spacing =? 0)%Z
  then q <- Py.truediv x (IZR (spacing_value spacing) / 12) ;; Ok (Py.ceil q)
  else Ok 0%Z.

(** The values computed when "Run Estimate" is pressed. *)
Record Report : Type := mkReport {
  wall_area : R;
  wall_bags : Z;
  wall_pieces : Z;
  wall_cost : R;
  total_cat_area : R;
  cat_bags : Z;
  cat_pieces : Z;
  cat_cost : R;
  ceiling_area : Z;
  ceiling_bags : Z;
  ceiling_mat_cost : R;
  wall_batts : Z;
  cat_batts : list Z;
  wall_lab : R;
  area_lab : R;
  ceil_lab : R;
  cat_surch : R;
  mat_total : R;
  lab_total : R;
  total_tax : R;
  total_buf : R
}.

(** The body of [if st.button("Run Estimate")], for the selected specs. *)
Definition estimate (inp : Inputs) (wp cp : MaterialSpec) : result Report :=
  (* Materials *)
  let wall_area := wall_linear_feet inp * wall_height inp in
  let wb_cov := coverage_per_bag wp in
  let wb_pcs := pieces_per_bag wp in
  wall_bags <- Py.ceil_div_guarded wall_area wb_cov ;;
  let wall_pieces := (wall_bags * wb_pcs)%Z in
  let wall_cost := IZR wall_bags * wall_price_per_bag inp in
  (* Cathedrals (slope-based) *)
  let cs_cov := coverage_per_bag cp in
  let cs_pcs := pieces_per_bag cp in
  let total_cat_area := cat_area_loop (cat_sections inp) in
  let buffered_cov := if Py.gt cs_cov 0 then cs_cov * 1.10 else 0 in
  cat_bags <- Py.ceil_div_guarded total_cat_area buffered_cov ;;
  let cat_pieces := (cat_bags * cs_pcs)%Z in
  let cat_cost := IZR cat_bags * cat_price_per_bag inp in
  (* Ceiling *)
  let ceiling_area := Py.maxz (blow_sq inp - vault_sq inp) 0 in
  ceiling_bags <- Py.ceil_div_truthy (IZR ceiling_area) (ceiling_cov_per_bag inp) ;;
  let ceiling_mat_cost := IZR ceiling_bags * ceiling_price_per_bag inp in
  (* Batt counts *)
  wall_batts <- batt_count (wall_linear_feet inp) (wall_stud_spacing inp) ;;
  cat_batts <-
    Py.comprehension (fun s => batt_count (snd (fst s)) (cat_spacing_in inp))
                     (cat_sections inp) ;;
  (* Labour & surcharges *)
  let wall_lab := wall_area * wall_labour_rate inp in
  let area_lab := (wall_area + total_cat_area) * wall_labour_rate inp in
  let ceil_lab := ceiling_hourly inp * ceiling_hours inp + ceiling_flat_srchg inp in
  let cat_surch :=
    ((cathedral_hourly inp * cathedral_hours inp) + cathedral_flat inp)
    * IZR (num_cat inp) in
  (* Totals *)
  let mat_total := wall_cost + cat_cost + ceiling_mat_cost in
  let lab_total := wall_lab + area_lab + ceil_lab + cat_surch in
  let total_tax := (mat_total + lab_total) * 1.05 in
  let total_buf := total_tax * 1.10 in
  Ok {| wall_area := wall_area;
        wall_bags := wall_bags;
        wall_pieces := wall_pieces;
        wall_cost := wall_cost;
        total_cat_area := total_cat_area;
        cat_bags := cat_bags;
        cat_pieces := cat_pieces;
        cat_cost := cat_cost;
        ceiling_area := ceiling_area;
        ceiling_bags := ceiling_bags;
        ceiling_mat_cost := ceiling_mat_cost;
        wall_batts := wall_batts;
        cat_batts := cat_batts;
        wall_lab := wall_lab;
        area_lab := area_lab;
        ceil_lab := ceil_lab;
        cat_surch := cat_surch;
        mat_total := mat_total;
        lab_total := lab_total;
        total_tax := total_tax;
        total_buf := total_buf |}.

(** The function: the two spec lookups of the "Materials" tab, then the
    estimate when the button is pressed ([None] otherwise). *)
Definition run_insulation_estimator (inp : Inputs) : result (option Report) :=
  wp <- lookup_spec (wall_r_value inp) (wall_width inp) ;;
  cp <- lookup_spec (cat_r_value inp) (cat_width inp) ;;
  if run_estimate inp
  then rep <- estimate inp wp cp ;; Ok (Some rep)
  else Ok None.

End Insulation.


(** ** Specification vocabulary and sample inputs *)

(** Openings with non-negative sides, as the form's number inputs give. *)
Definition nonneg_openings (l : list (R * R)) : Prop :=
  Forall (fun wh => 0 <= fst wh /\ 0 <= snd wh) l.

(** The rows the room loop produces and their with-waste total. *)
Definition rows_of (inp : Drywall.Inputs) : list Drywall.RoomRow :=
  map (Drywall.room_areas (Drywall.waste_pct inp)) (Drywall.rooms inp).

Definition total_waste_of (inp : Drywall.Inputs) : R :=
  Py.sum (map Drywall.total_with_waste_ft2 (rows_of inp)).

(** A high part qualifies: height above 10 ft and area above 64 ft^2. *)
Definition qualifies (hp : R * R) : Prop := fst hp > 10 /\ snd hp > 64.

(** Two drywall inputs agree on every field except the four
    resilient-channel settings. *)
Definition same_outside_rc (a b : Drywall.Inputs) : Prop :=
  Drywall.include_waste a = Drywall.include_waste b
  /\ Drywall.waste_pct_input a = Drywall.waste_pct_input b
  /\ Drywall.mud_gal_per_1000 a = Drywall.mud_gal_per_1000 b
  /\ Drywall.mud_pail_gal a = Drywall.mud_pail_gal b
  /\ Drywall.tape_sqft_per_roll a = Drywall.tape_sqft_per_roll b
  /\ Drywall.screws_per_sqft a = Drywall.screws_per_sqft b
  /\ Drywall.screws_per_box a = Drywall.screws_per_box b
  /\ Drywall.corner_bead_lf_per_1000 a = Drywall.corner_bead_lf_per_1000 b
  /\ Drywall.corner_bead_piece_len_ft a = Drywall.corner_bead_piece_len_ft b
  /\ Drywall.sheet_size a = Drywall.sheet_size b
  /\ Drywall.cost_per_sheet a = Drywall.cost_per_sheet b
  /\ Drywall.cost_mud_pail a = Drywall.cost_mud_pail b
  /\ Drywall.cost_tape_roll a = Drywall.cost_tape_roll b
  /\ Drywall.cost_screws_box a = Drywall.cost_screws_box b
  /\ Drywall.cost_corner_bead_piece a = Drywall.cost_corner_bead_piece b
  /\ Drywall.pot_light_count a = Drywall.pot_light_count b
  /\ Drywall.pot_light_cost a = Drywall.pot_light_cost b
  /\ Drywall.labour_rate_sqft a = Drywall.labour_rate_sqft b
  /\ Drywall.labour_rate_sqm a = Drywall.labour_rate_sqm b
  /\ Drywall.tax_pct a = Drywall.tax_pct b
  /\ Drywall.labour_high_part_flat a = Drywall.labour_high_part_flat b
  /\ Drywall.labour_high_part_rate_sqft a = Drywall.labour_high_part_rate_sqft b
  /\ Drywall.rooms a = Drywall.rooms b
  /\ Drywall.high_parts a = Drywall.high_parts b.

(** The inputs [inp] with the four resilient-channel settings replaced. *)
Definition set_rc (inp : Drywall.Inputs) (flag : bool) (spacing : Drywall.RCSpacing)
  (piece_length cost : R) : Drywall.Inputs :=
  {| Drywall.include_waste := Drywall.include_waste inp;
     Drywall.waste_pct_input := Drywall.waste_pct_input inp;
     Drywall.mud_gal_per_1000 := Drywall.mud_gal_per_1000 inp;
     Drywall.mud_pail_gal := Drywall.mud_pail_gal inp;
     Drywall.tape_sqft_per_roll := Drywall.tape_sqft_per_roll inp;
     Drywall.screws_per_sqft := Drywall.screws_per_sqft inp;
     Drywall.screws_per_box := Drywall.screws_per_box inp;
     Drywall.corner_bead_lf_per_1000 := Drywall.corner_bead_lf_per_1000 inp;
     Drywall.corner_bead_piece_len_ft := Drywall.corner_bead_piece_len_ft inp;
     Drywall.sheet_size := Drywall.sheet_size inp;
     Drywall.include_resilient_channel := flag;
     Drywall.rc_spacing_in := spacing;
     Drywall.rc_piece_length_ft := piece_length;
     Drywall.cost_per_sheet := Drywall.cost_per_sheet inp;
     Drywall.cost_mud_pail := Drywall.cost_mud_pail inp;
     Drywall.cost_tape_roll := Drywall.cost_tape_roll inp;
     Drywall.cost_screws_box := Drywall.cost_screws_box inp;
     Drywall.cost_corner_bead_piece := Drywall.cost_corner_bead_piece inp;
     Drywall.cost_rc_piece := cost;
     Drywall.pot_light_count := Drywall.pot_light_count inp;
     Drywall.pot_light_cost := Drywall.pot_light_cost inp;
     Drywall.labour_rate_sqft := Drywall.labour_rate_sqft inp;
     Drywall.labour_rate_sqm := Drywall.labour_rate_sqm inp;
     Drywall.tax_pct := Drywall.tax_pct inp;
     Drywall.labour_high_part_flat := Drywall.labour_high_part_flat inp;
     Drywall.labour_high_part_rate_sqft := Drywall.labour_high_part_rate_sqft inp;
     Drywall.rooms := Drywall.rooms inp;
     Drywall.high_parts := Drywall.high_parts inp |}.

(** The slope area of a cathedral section ([length], [base_width], [rise]):
    2 x sqrt((base_width / 2)^2 + rise^2) x length. *)
Definition spec_slope_area (s : R * R * R) : R :=
  2 * R_sqrt.sqrt ((snd (fst s) / 2) ^ 2 + (snd s) ^ 2) * fst (fst s).



(** A room 10 x 10 ft, 8 ft high, with its ceiling and no openings. *)
Definition sample_room : Room.t :=
  Room.mk "Room 1" 10 10 8 true [] [].

(** A room of length 0 and width 5 ft, 8 ft high. *)
Definition zero_length_room : Room.t :=
  Room.mk "Room 2" 0 5 8 true [] [].

(** A room of length 0 and width 0 with one window. *)
Definition empty_room : Room.t :=
  Room.mk "Room 3" 0 0 8 true [(3, 4)] [].

(** The form's default factors, one room, two high parts, a labour rate. *)
Definition sample_drywall : Drywall.Inputs :=
  {| Drywall.include_waste := true;
     Drywall.waste_pct_input := 25;
     Drywall.mud_gal_per_1000 := 9.5;
     Drywall.mud_pail_gal := 4.5;
     Drywall.tape_sqft_per_roll := 1200;
     Drywall.screws_per_sqft := 1.25;
     Drywall.screws_per_box := 1000;
     Drywall.corner_bead_lf_per_1000 := 50;
     Drywall.corner_bead_piece_len_ft := 8;
     Drywall.sheet_size := Drywall.Sheet4x8;
     Drywall.include_resilient_channel := false;
     Drywall.rc_spacing_in := Drywall.RC16;
     Drywall.rc_piece_length_ft := 12;
     Drywall.cost_per_sheet := 15;
     Drywall.cost_mud_pail := 20;
     Drywall.cost_tape_roll := 5;
     Drywall.cost_screws_box := 10;
     Drywall.cost_corner_bead_piece := 4;
     Drywall.cost_rc_piece := 0;
     Drywall.pot_light_count := 0;
     Drywall.pot_light_cost := 0;
     Drywall.labour_rate_sqft := 2;
     Drywall.labour_rate_sqm := 0;
     Drywall.tax_pct := 13;
     Drywall.labour_high_part_flat := 0;
     Drywall.labour_high_part_rate_sqft := 0;
     Drywall.rooms := [sample_room];
     Drywall.high_parts := [(11, 70); (11, 50)] |}.

(** The spec selected by R12 at 15 in. *)
Definition sample_spec : Insulation.MaterialSpec := Insulation.mkSpec 100.0 20.

(** Walls 40 ft x 8 ft, one cathedral section 10 x 8 ft rising 3 ft. *)
Definition sample_insulation : Insulation.Inputs :=
  {| Insulation.wall_r_value := "R12";
     Insulation.wall_width := 15;
     Insulation.wall_price_per_bag := 50;
     Insulation.cat_r_value := "R12";
     Insulation.cat_width := 15;
     Insulation.cat_price_per_bag := 60;
     Insulation.ceiling_cov_per_bag := 40;
     Insulation.ceiling_price_per_bag := 30;
     Insulation.wall_linear_feet := 40;
     Insulation.wall_height := 8;
     Insulation.wall_stud_spacing := Insulation.Spacing16;
     Insulation.cat_sections := [(10, 8, 3)];
     Insulation.cat_spacing_in := Insulation.Spacing24;
     Insulation.blow_sq := 500;
     Insulation.vault_sq := 100;
     Insulation.wall_labour_rate := 1;
     Insulation.ceiling_hourly := 40;
     Insulation.ceiling_hours := 2;
     Insulation.ceiling_flat_srchg := 25;
     Insulation.cathedral_hourly := 45;
     Insulation.cathedral_hours := 3;
     Insulation.cathedral_flat := 100;
     Insulation.run_estimate := true |}.

(** ** The door select box of the drywall form *)

Module Doors.

(** [DOOR_PRESETS]: (label, width, height) in feet; [None] is Python's
    [None], carried by the "Custom" entry. *)
Definition DOOR_PRESETS : list (string * option R * option R) :=
  [ ("24 x 80 in"%string, Some (24 / 12), Some (80 / 12));
    ("28 x 80 in"%string, Some (28 / 12), Some (80 / 12));
    ("30 x 80 in"%string, Some (30 / 12), Some (80 / 12));
    ("32 x 80 in"%string, Some (32 / 12), Some (80 / 12));
    ("36 x 80 in"%string, Some (36 / 12), Some (80 / 12));
    ("Custom"%string, None, None) ].

(** [choice_labels = [label for label, _, _ in DOOR_PRESETS]] *)
Definition choice_labels : list string :=
  map (fun p => fst (fst p)) DOOR_PRESETS.

(** [next(p for p in presets if p[0] == door_choice)]; [None] stands for the
    [StopIteration] raised when no preset has the label. *)
Fixpoint next_preset (presets : list (string * option R * option R))
  (door_choice : string) : option (string * option R * option R) :=
  match presets with
  | [] => None
  | p :: rest =>
    if String.eqb (fst (fst p)) door_choice then Some p
    else next_preset rest door_choice
  end.

(** The pair ([d_w], [d_h]) appended to [doors] for one door: the custom
    inches divided by 12, or the two dimensions of the chosen preset. *)
Definition door_size (door_choice : string) (d_w_in d_h_in : R)
  : option (option R * option R) :=
  if String.eqb door_choice "Custom"
  then Some (Some (d_w_in / 12), Some (d_h_in / 12))
  else
    match next_preset DOOR_PRESETS door_choice with
    | Some preset => Some (snd (fst preset), snd preset)
    | None => None
    end.

End Doors.

(** ** The select boxes of the insulation form *)

Module InsulationForm.

(** [list(MATERIAL_SPECS.keys())] *)
Definition r_value_options : list string := map fst Insulation.MATERIAL_SPECS.

(** [list(MATERIAL_SPECS[r_value]['widths'])] *)
Definition width_options (r_value : string) : result (list Z) :=
  widths <- Py.getitem String.eqb Insulation.MATERIAL_SPECS r_value ;;
  Ok (map fst widths).

End InsulationForm.

(** ** What the insulation estimator draws and exports *)

Module Output.

(** What a drawing helper leaves on the page: the notice shown when
    matplotlib is missing, the bars handed to [ax.bar], or the polyline
    handed to [ax.plot] with the two axis ranges. *)
Inductive Drawn : Type :=
| Info (msg : string)
| BarChart (labels : list string) (values : list R)
| LinePlot (x y : list R) (xlim ylim : R * R).

(** [draw_cost_breakdown_chart(costs)]; [plt] tells whether matplotlib was
    imported, [costs] is the dict as its items in insertion order. *)
Definition draw_cost_breakdown_chart (plt : bool) (costs : list (string * R))
  : Drawn :=
  if negb plt
  then Info "Chart unavailable (matplotlib not installed). Add matplotlib to requirements.txt."
  else
    let labels := map fst costs in
    let values := map snd costs in
    BarChart labels values.

(** [draw_cathedral_diagram(base_width, rise)] *)
Definition draw_cathedral_diagram (plt : bool) (base_width rise : R) : Drawn :=
  if negb plt
  then Info "Diagram unavailable (matplotlib not installed)."
  else
    let x := [0; base_width / 2; base_width] in
    let y := [0; rise; 0] in
    LinePlot x y (0, Py.max base_width 0.1) (0, Py.max rise 0.1).

(** The dict passed to [draw_cost_breakdown_chart] by the estimate. *)
Definition cost_breakdown (rep : Insulation.Report) : list (string * R) :=
  [ ("Wall Mat"%string, Insulation.wall_cost rep);
    ("Cat Mat"%string, Insulation.cat_cost rep);
    ("Ceil Mat"%string, Insulation.ceiling_mat_cost rep);
    ("Wall Labour"%string, Insulation.wall_lab rep);
    ("Area Labour"%string, Insulation.area_lab rep);
    ("Ceil Labour"%string, Insulation.ceil_lab rep);
    ("Cat Surcharge"%string, Insulation.cat_surch rep) ].

(** [for _, bw, rise in cat_sections: draw_cathedral_diagram(bw, rise)] *)
Definition diagrams (plt : bool) (sections : list (R * R * R)) : list Drawn :=
  map (fun s => draw_cathedral_diagram plt (snd (fst s)) (snd s)) sections.

End Output.

(** ** The PDF export of the insulation estimator *)

Module Pdf.

Section Canvas.

(** A line of text is a sequence of characters; [line[:95]] keeps the first
    95 of them. *)
Variable char : Type.

(** The calls made on the canvas, in order. *)
Inductive CanvasOp : Type :=
| SetFont (name : string) (size : Z)
| DrawString (x y : R) (s : list char)
| ShowPage
| Save.

(** The body of [for line in summary_text.split(...)], on the pair of the
    running [y] and the calls made so far. *)
Definition line_step (height : R) (st : R * list CanvasOp) (line : list char)
  : R * list CanvasOp :=
  let y := fst st in
  let ops := snd st ++ [DrawString 50 y (firstn 95 line)] in
  let y := y - 20 in
  if Rlt_dec y 50
  then (height - 50, ops ++ [ShowPage; SetFont "Helvetica" 12])
  else (y, ops).

(** The export branch: [None] is the warning shown when reportlab is
    missing; [letter] is the page size (width, height) it provides. *)
Definition export_pdf (rl_canvas : bool) (letter : option (R * R))
  (title : list char) (lines : list (list char)) : option (list CanvasOp) :=
  match rl_canvas, letter with
  | true, Some (width, height) =>
    let y := height - 50 in
    let ops := [SetFont "Helvetica-Bold" 16; DrawString 50 y title] in
    let y := y - 30 in
    let ops := ops ++ [SetFont "Helvetica" 12] in
    let st := fold_left (line_step height) lines (y, ops) in
    Some (snd st ++ [Save])
  | _, _ => None
  end.

(** The vertical positions and texts of the strings a list of calls draws. *)
Fixpoint drawn (ops : list CanvasOp) : list (R * list char) :=
  match ops with
  | [] => []
  | DrawString _ y s :: rest => (y, s) :: drawn rest
  | _ :: rest => drawn rest
  end.

(** The number of [showPage] calls. *)
Fixpoint page_breaks (ops : list CanvasOp) : nat :=
  match ops with
  | [] => 0
  | ShowPage :: rest => S (page_breaks rest)
  | _ :: rest => page_breaks rest
  end.

End Canvas.

Arguments SetFont {char} name size.
Arguments DrawString {char} x y s.
Arguments ShowPage {char}.
Arguments Save {char}.
Arguments line_step {char} height st line.
Arguments export_pdf {char} rl_canvas letter title lines.
Arguments drawn {char} ops.
Arguments page_breaks {char} ops.

End Pdf.

(** ** More vocabulary: the ranges the forms enforce *)

(** A room whose sides, height and openings are non-negative, as the
    minimum of every number input of the room form is 0. *)
Definition nonneg_room (r : Room.t) : Prop :=
  0 <= Room.length r /\ 0 <= Room.width r /\ 0 <= Room.height r
  /\ nonneg_openings (Room.windows r) /\ nonneg_openings (Room.doors r).

(** Drywall inputs at or above the minimum 0 of their number inputs. *)
Definition nonneg_inputs (inp : Drywall.Inputs) : Prop :=
  0 <= Drywall.waste_pct_input inp
  /\ 0 <= Drywall.mud_gal_per_1000 inp
  /\ 0 <= Drywall.screws_per_sqft inp
  /\ 0 <= Drywall.corner_bead_lf_per_1000 inp
  /\ 0 <= Drywall.cost_per_sheet inp
  /\ 0 <= Drywall.cost_mud_pail inp
  /\ 0 <= Drywall.cost_tape_roll inp
  /\ 0 <= Drywall.cost_screws_box inp
  /\ 0 <= Drywall.cost_corner_bead_piece inp
  /\ (0 <= Drywall.pot_light_count inp)%Z
  /\ 0 <= Drywall.pot_light_cost inp
  /\ 0 <= Drywall.labour_rate_sqft inp
  /\ 0 <= Drywall.labour_rate_sqm inp
  /\ 0 <= Drywall.labour_high_part_flat inp
  /\ 0 <= Drywall.labour_high_part_rate_sqft inp
  /\ Forall nonneg_room (Drywall.rooms inp).

(** The condition of the high-parts loop, as the boolean it computes. *)
Definition qualifiesb (hp : R * R) : bool :=
  Py.gt (fst hp) 10 && Py.gt (snd hp) 64.



(** The sample drywall job with three untouched rooms (all sides 0). *)
Definition blank_drywall : Drywall.Inputs :=
  Drywall.mkInputs true 10 9.5 4.5 1200 1.25 1000 50 8 Drywall.Sheet4x8
    false Drywall.RC16 12 15 20 5 10 4 0 3 25 2 0 13 0 0
    [Room.mk "Room 1" 0 0 8 true [] []; Room.mk "Room 2" 0 0 8 true [] [];
     Room.mk "Room 3" 0 0 8 true [] []]
    [].

(** The sample drywall job with the waste box unticked. *)
Definition sample_drywall_no_waste : Drywall.Inputs :=
  Drywall.mkInputs false 10 9.5 4.5 1200 1.25 1000 50 8 Drywall.Sheet4x8
    false Drywall.RC16 12 15 20 5 10 4 0 0 0 2 0 13 0 0
    [sample_room] [(11, 70); (11, 50)].


(** The sample drywall job taxed at 5 percent. *)
Definition sample_drywall_tax5 : Drywall.Inputs :=
  Drywall.mkInputs true 25 9.5 4.5 1200 1.25 1000 50 8 Drywall.Sheet4x8
    false Drywall.RC16 12 15 20 5 10 4 0 0 0 2 0 5 0 0
    [sample_room] [(11, 70); (11, 50)].

(** * The script: both estimators in one run

    The file ends by calling [run_drywall_estimator()] and then
    [run_insulation_estimator()] in the same script run (lines 674-678).
    Streamlit keeps the [key=] arguments of the widgets of a run and raises
    [DuplicateWidgetID] when a key comes a second time.  The estimators above
    are the two functions each taken alone; this part follows the keys. *)

From Stdlib Require Import DecimalString DecimalNat.

Module Script.

Inductive exn : Type :=
| DuplicateWidgetID (key : string)
| Python (e : Py.exn).

Inductive result (A : Type) : Type :=
| Ok (a : A)
| Raise (e : exn).

Arguments Ok {A} a.
Arguments Raise {A} e.

Definition bind {A B : Type} (c : result A) (k : A -> result B) : result B :=
  match c with
  | Ok a => k a
  | Raise e => Raise e
  end.

(** A computation of the estimators, with its Python exceptions. *)
Definition python {A : Type} (c : Py.result A) : result A :=
  match c with
  | Py.Ok a => Ok a
  | Py.Raise e => Raise (Python e)
  end.

(** [f"{prefix}{i}"] *)
Definition fkey (prefix : string) (i : nat) : string :=
  (prefix ++ NilEmpty.string_of_uint (Nat.to_uint i))%string.

(** [f"{prefix}{i}_{j}"] *)
Definition fkey2 (prefix : string) (i j : nat) : string :=
  fkey (fkey prefix i ++ "_")%string j.

(** A widget call with [key=k]: the key joins the keys of the run, unless it
    is among them already. *)
Definition widget (k : string) (keys : list string) : result (list string) :=
  if existsb (String.eqb k) keys
  then Raise (DuplicateWidgetID k)
  else Ok (keys ++ [k]).

(** Widget calls in program order. *)
Fixpoint widgets (ks : list string) (keys : list string) : result (list string) :=
  match ks with
  | [] => Ok keys
  | k :: rest => bind (widget k keys) (widgets rest)
  end.

(** What decides which keyed widgets a room of the drywall form creates:
    the "Custom" wall height, the number of windows when "Windows?" is
    ticked, and for each door, when "Doors?" is ticked, whether its size is
    "Custom". *)
Record RoomWidgets : Type := mkRoomWidgets {
  custom_height : bool;
  num_windows : option nat;
  custom_doors : option (list bool)
}.

(** The keys of room [i], in the order of lines 132-185. *)
Definition room_keys (i : nat) (rw : RoomWidgets) : list string :=
  [fkey "name_" i; fkey "len_" i; fkey "wid_" i; fkey "h_choice_" i]
  ++ (if custom_height rw then [fkey "h_" i] else [])
  ++ [fkey "ceil_inc_" i; fkey "win_has_" i; fkey "door_has_" i]
  ++ match num_windows rw with
     | None => []
     | Some n =>
       fkey "w_count_" i
       :: flat_map (fun w => [fkey2 "win_w_" i w; fkey2 "win_h_" i w]) (seq 0 n)
     end
  ++ match custom_doors rw with
     | None => []
     | Some ds =>
       fkey "d_count_" i
       :: flat_map (fun d => fkey2 "door_choice_" i (fst d)
                             :: (if snd d : bool
                                 then [fkey2 "door_w_in_" i (fst d);
                                       fkey2 "door_h_in_" i (fst d)]
                                 else []))
                   (combine (seq 0 (List.length ds)) ds)
     end.

Fixpoint rooms_keys (i : nat) (rooms : list RoomWidgets) : list string :=
  match rooms with
  | [] => []
  | rw :: rest => room_keys i rw ++ rooms_keys (S i) rest
  end.

(** The keys of [run_drywall_estimator]: the rooms, then the high parts. *)
Definition drywall_keys (rooms : list RoomWidgets) (num_high_parts : nat)
  : list string :=
  rooms_keys 0 rooms
  ++ flat_map (fun hp => [fkey "hp_h_" hp; fkey "hp_a_" hp]) (seq 0 num_high_parts).

(** The keys of [run_insulation_estimator]: three per cathedral section
    (lines 516-518). *)
Definition insulation_keys (num_cat : nat) : list string :=
  flat_map (fun i => [fkey "len_" i; fkey "wd_" i; fkey "ht_" i]) (seq 0 num_cat).

(** [run_drywall_estimator] in a run whose keys so far are [keys]. *)
Definition run_drywall_estimator (keys : list string) (rooms : list RoomWidgets)
  (num_high_parts : nat) (inp : Drywall.Inputs)
  : result (list string * option Drywall.Report) :=
  bind (widgets (drywall_keys rooms num_high_parts) keys) (fun keys' =>
  bind (python (Drywall.run_drywall_estimator inp)) (fun rep =>
  Ok (keys', rep))).

(** [run_insulation_estimator] in a run whose keys so far are [keys]: the
    two lookups of the first tab, the section widgets of the second, then
    the button. *)
Definition run_insulation_estimator (keys : list string) (inp : Insulation.Inputs)
  : result (option Insulation.Report) :=
  bind (python (Insulation.lookup_spec (Insulation.wall_r_value inp)
                                       (Insulation.wall_width inp))) (fun wp =>
  bind (python (Insulation.lookup_spec (Insulation.cat_r_value inp)
                                       (Insulation.cat_width inp))) (fun cp =>
  bind (widgets (insulation_keys (List.length (Insulation.cat_sections inp))) keys)
       (fun _ =>
  if Insulation.run_estimate inp
  then bind (python (Insulation.estimate inp wp cp)) (fun rep => Ok (Some rep))
  else Ok None))).

(** Lines 674-678: the two tabs of one run. *)
Definition app_entry (rooms : list RoomWidgets) (num_high_parts : nat)
  (dinp : Drywall.Inputs) (iinp : Insulation.Inputs)
  : result (option Drywall.Report * option Insulation.Report) :=
  bind (run_drywall_estimator [] rooms num_high_parts dinp) (fun d =>
  bind (run_insulation_estimator (fst d) iinp) (fun i =>
  Ok (snd d, i))).

End Script.

(** * The counting code in binary64

    A bag, sheet or piece count is the ceiling of a quotient of floats, and
    the net wall area is clamped by a comparison of floats: one unit in the
    last place of an operand can move the count by one or keep a difference
    above zero.  For these blocks the embedding below keeps Python's [float]
    as what it is, an IEEE 754 binary64 number: Rocq's primitive [float], with
    [+], [-], [*], [/] and the comparisons rounded and ordered as the
    processor does, and every literal read as the nearest double.  Only
    correctly rounded operations occur in these blocks; the cathedral slope,
    which goes through the C library's [pow] and [sqrt], stays in the real
    model above. *)

From Stdlib Require Import Floats Zpower.
Set Warnings "-inexact-float".

(** ** Python primitives on binary64 *)

Module Py64.

Inductive exn : Type :=
| ZeroDivisionError
| OverflowError
| ValueError
| KeyError.

Inductive result (A : Type) : Type :=
| Ok (a : A)
| Raise (e : exn).

Arguments Ok {A} a.
Arguments Raise {A} e.

Definition bind {A B : Type} (c : result A) (k : A -> result B) : result B :=
  match c with
  | Ok a => k a
  | Raise e => Raise e
  end.

(** [x / y] on floats: [ZeroDivisionError] when [y == 0.0] (either zero). *)
Definition truediv (x y : float) : result float :=
  if (y =? 0)%float then Raise ZeroDivisionError else Ok (x / y)%float.

(** [x > y] *)
Definition gt (x y : float) : bool := (y <? x)%float.

(** [max(a, b)]: the first argument is kept unless the second is greater. *)
Definition max (a b : float) : float := if (a <? b)%float then b else a.


(** The ceiling of [+/- m * 2^e]. *)
Definition ceil_finite (s : bool) (m : positive) (e : Z) : Z :=
  let n := if s then Z.neg m else Z.pos m in
  if (0 <=? e)%Z then (n * 2 ^ e)%Z else (- ((- n) / 2 ^ (- e)))%Z.

(** [math.ceil]: exact on every finite float, [OverflowError] on an
    infinity and [ValueError] on NaN. *)
Definition ceil (x : float) : result Z :=
  match Prim2SF x with
  | S754_nan => Raise ValueError
  | S754_infinity _ => Raise OverflowError
  | S754_zero _ => Ok 0%Z
  | S754_finite s m e => Ok (ceil_finite s m e)
  end.

(** An [int] as the exact binary fraction [n * 2^0]. *)
Definition SF_of_int (n : Z) : spec_float :=
  match n with
  | Z0 => S754_zero false
  | Zpos p => S754_finite false p 0
  | Zneg p => S754_finite true p 0
  end.

(** [a / b] on two [int]s: the correctly rounded quotient,
    [ZeroDivisionError] when [b == 0], [OverflowError] when the quotient is
    too large for a float. *)
Definition int_truediv (a b : Z) : result float :=
  if (b =? 0)%Z then Raise ZeroDivisionError
  else match SFdiv prec emax (SF_of_int a) (SF_of_int b) with
       | S754_infinity _ => Raise OverflowError
       | q => Ok (SF2Prim q)
       end.

(** [math.ceil(x / rate) if rate > 0 else 0] *)
Definition ceil_div_guarded (x rate : float) : result Z :=
  if gt rate 0
  then bind (truediv x rate) ceil
  else Ok 0%Z.

(** The builtin [sum] on floats as CPython up to 3.11 computes it: left to
    right from 0.  (From 3.12 the additions are compensated, which returns
    the same float for lists of at most two items.) *)
Definition sum_left_to_right (xs : list float) : float :=
  fold_left PrimFloat.add xs 0%float.

(** [d[k]] on a dict kept as its items in insertion order. *)
Fixpoint getitem {K V : Type} (eqb : K -> K -> bool) (d : list (K * V)) (k : K)
  : result V :=
  match d with
  | [] => Raise KeyError
  | (k', v) :: rest => if eqb k' k then Ok v else getitem eqb rest k
  end.

End Py64.

Declare Scope py64_scope.
Delimit Scope py64_scope with py64.
Notation "x <- c ;; k" := (Py64.bind c (fun x => k))
  (at level 61, c at next level, right associativity) : py64_scope.

(** ** Drywall: the "Areas" block and the takeoff quantities *)

Module Drywall64.

Import Py64.
Local Open Scope float_scope.
Local Open Scope py64_scope.

(** The numbers the form collects for one room. *)
Record Room : Type := mkRoom {
  length : float;
  width : float;
  height : float;
  include_ceiling : bool;
  windows : list (float * float);
  doors : list (float * float)
}.

(** The names the "Areas" block binds. *)
Record Areas : Type := mkAreas {
  perimeter : float;
  wall_area_gross : float;
  openings_area : float;
  wall_area_net : float;
  ceiling_area : float;
  total_area_ft2 : float;
  waste_multiplier : float;
  total_with_waste_ft2 : float
}.

Section AreasBlock.

(** The builtin [sum].  How it adds floats depends on the interpreter (see
    [Py64.sum_left_to_right]), so the block takes it as given. *)
Variable sum : list float -> float.

(** [sum(w * h for w, h in openings)] *)
Definition openings_sum (openings : list (float * float)) : float :=
  sum (map (fun wh => fst wh * snd wh) openings).

(** The "Areas" block of the room loop (lines 194-201). *)
Definition room_areas (waste_pct : float) (r : Room) : Areas :=
  let perimeter := 2 * (length r + width r) in
  let wall_area_gross := perimeter * height r in
  let openings_area := openings_sum (windows r) + openings_sum (doors r) in
  let wall_area_net := Py64.max (wall_area_gross - openings_area) 0 in
  let ceiling_area := if include_ceiling r then length r * width r else 0 in
  let total_area_ft2 := wall_area_net + ceiling_area in
  let waste_multiplier := 1 + waste_pct / 100 in
  let total_with_waste_ft2 := total_area_ft2 * waste_multiplier in
  {| perimeter := perimeter;
     wall_area_gross := wall_area_gross;
     openings_area := openings_area;
     wall_area_net := wall_area_net;
     ceiling_area := ceiling_area;
     total_area_ft2 := total_area_ft2;
     waste_multiplier := waste_multiplier;
     total_with_waste_ft2 := total_with_waste_ft2 |}.

End AreasBlock.

(** The two entries of the "Sheet size" select box. *)
Inductive SheetSize : Type :=
| Sheet4x8
| Sheet4x12.

(** The takeoff factors; [screws_per_box] is the one integer widget. *)
Record Factors : Type := mkFactors {
  mud_gal_per_1000 : float;
  mud_pail_gal : float;
  tape_sqft_per_roll : float;
  screws_per_sqft : float;
  screws_per_box : Z;
  corner_bead_lf_per_1000 : float;
  corner_bead_piece_len_ft : float;
  sheet_size : SheetSize
}.

(** The quantities of the "Material Takeoff" block. *)
Record Takeoff : Type := mkTakeoff {
  sheets : Z;
  mud_gal : float;
  mud_pails : Z;
  tape_rolls : Z;
  screws_qty : Z;
  screws_boxes : Z;
  corner_bead_lf : float;
  corner_bead_pcs : Z
}.

(** [sheet_area = 32.0 if "4x8" in sheet_size else 48.0] *)
Definition sheet_area (s : SheetSize) : float :=
  match s with
  | Sheet4x8 => 32
  | Sheet4x12 => 48
  end.

(** The quantities of lines 273-285. *)
Definition material_takeoff (f : Factors) (total_waste_ft2 : float)
  : result Takeoff :=
  let sheet_area := sheet_area (sheet_size f) in
  sheets <- Py64.ceil_div_guarded total_waste_ft2 sheet_area ;;
  let mud_gal := (total_waste_ft2 / 1000) * mud_gal_per_1000 f in
  mud_pails <- Py64.ceil_div_guarded mud_gal (mud_pail_gal f) ;;
  tape_rolls <- Py64.ceil_div_guarded total_waste_ft2 (tape_sqft_per_roll f) ;;
  screws_qty <- Py64.ceil (total_waste_ft2 * screws_per_sqft f) ;;
  screws_boxes <-
    (if (screws_per_box f >? 0)%Z
     then q <- Py64.int_truediv screws_qty (screws_per_box f) ;; Py64.ceil q
     else Ok 0%Z) ;;
  let corner_bead_lf := (total_waste_ft2 / 1000) * corner_bead_lf_per_1000 f in
  corner_bead_pcs <-
    Py64.ceil_div_guarded corner_bead_lf (corner_bead_piece_len_ft f) ;;
  Ok {| sheets := sheets;
        mud_gal := mud_gal;
        mud_pails := mud_pails;
        tape_rolls := tape_rolls;
        screws_qty := screws_qty;
        screws_boxes := screws_boxes;
        corner_bead_lf := corner_bead_lf;
        corner_bead_pcs := corner_bead_pcs |}.



(** The same openings in a room 10 x 12.3 ft, 9 ft high.  On paper the walls
    and the openings are both 401.4 ft^2; the program computes
    401.40000000000003 for the walls and 401.4 for the openings, so the net
    area is one unit in the last place of 401.4 and not zero. *)
Definition room_openings_match_walls : Room :=
  {| length := 10; width := 12.3; height := 9; include_ceiling := false;
     windows := [(20, 9)]; doors := [(24.6, 9)] |}.

(** The ranges of the number inputs that hold the four rates. *)
Definition rates_in_form_range (f : Factors) : Prop :=
  (1 <=? mud_pail_gal f) = true
  /\ (600 <=? tape_sqft_per_roll f) = true
  /\ (500 <= screws_per_box f)%Z
  /\ (4 <=? corner_bead_piece_len_ft f) = true.

(** 2200 ft^2 at 12.5 gal per 1000 ft^2 in 2.5 gal pails, all inside the
    form's ranges: 27.500000000000004 gal of mud, 12 pails. *)
Definition factors_12_5_gal : Factors :=
  {| mud_gal_per_1000 := 12.5; mud_pail_gal := 2.5;
     tape_sqft_per_roll := 1200; screws_per_sqft := 1.25;
     screws_per_box := 1000; corner_bead_lf_per_1000 := 50;
     corner_bead_piece_len_ft := 8; sheet_size := Sheet4x8 |}.

End Drywall64.

(** ** Insulation: the spec table and the bag counts *)

Module Insulation64.

Import Py64.
Local Open Scope float_scope.
Local Open Scope py64_scope.

(** An innermost dict of [MATERIAL_SPECS]. *)
Record MaterialSpec : Type := mkSpec {
  coverage_per_bag : float;
  pieces_per_bag : Z
}.

(** [MATERIAL_SPECS[r]['widths']] is the list paired with [r]. *)
Definition MATERIAL_SPECS : list (string * list (Z * MaterialSpec)) :=
  [ ("R12"%string, [ (15%Z, mkSpec 100.0 20); (23%Z, mkSpec 153.3 20) ]);
    ("R14"%string, [ (15%Z, mkSpec 78.3 16); (23%Z, mkSpec 120.1 16) ]);
    ("R20"%string, [ (15%Z, mkSpec 80.0 16); (23%Z, mkSpec 122.7 16) ]);
    ("R22"%string, [ (15%Z, mkSpec 49.0 10); (23%Z, mkSpec 75.1 10) ]);
    ("R28"%string, [ (16%Z, mkSpec 53.3 10); (24%Z, mkSpec 80.0 10) ]);
    ("R31"%string, [ (16%Z, mkSpec 42.7 8); (24%Z, mkSpec 64.0 8) ]);
    ("R40"%string, [ (16%Z, mkSpec 32.0 6); (24%Z, mkSpec 48.0 6) ]) ].

(** [MATERIAL_SPECS[r_value]['widths'][width]] *)
Definition lookup_spec (r_value : string) (width : Z) : result MaterialSpec :=
  widths <- Py64.getitem String.eqb MATERIAL_SPECS r_value ;;
  Py64.getitem Z.eqb widths width.

(** [wall_bags = math.ceil(wall_area / wb_cov) if wb_cov > 0 else 0], with
    [wall_area = wall_linear_feet * wall_height]. *)
Definition wall_bags (wall_linear_feet wall_height wb_cov : float) : result Z :=
  let wall_area := wall_linear_feet * wall_height in
  Py64.ceil_div_guarded wall_area wb_cov.

(** [buffered_cov = cs_cov * 1.10 if cs_cov > 0 else 0] *)
Definition buffered_cov (cs_cov : float) : float :=
  if Py64.gt cs_cov 0 then cs_cov * 1.10 else 0.

(** [cat_bags = math.ceil(total_cat_area / buffered_cov) if buffered_cov > 0
    else 0], on the total the section loop has accumulated. *)
Definition cat_bags (total_cat_area cs_cov : float) : result Z :=
  Py64.ceil_div_guarded total_cat_area (buffered_cov cs_cov).

End Insulation64.

(** ** Vocabulary of the binary64 facts *)




(** A number above zero: finite or infinite. *)
Definition above_zero (x : spec_float) : Prop :=
  match x with
  | S754_finite false _ _ | S754_infinity false => True
  | _ => False
  end.


(** ** Facts about the Python primitives *)

Section PyFacts.

Lemma truediv_ok (x y : R) : y <> 0 -> Py.truediv x y = Ok (x / y).
Proof.
  intro Hy. unfold Py.truediv. destruct (Req_dec_T y 0) as [E | _]; [contradiction | reflexivity].
Qed.

Lemma truediv_zero (x : R) : Py.truediv x 0 = Raise ZeroDivisionError.
Proof.
  unfold Py.truediv. destruct (Req_dec_T 0 0) as [_ | N]; [reflexivity | now elim N].
Qed.

Lemma gt_true (x y : R) : x > y -> Py.gt x y = true.
Proof.
  intro H. unfold Py.gt. destruct (Rgt_dec x y); [reflexivity | contradiction].
Qed.

Lemma gt_false (x y : R) : x <= y -> Py.gt x y = false.
Proof.
  intro H. unfold Py.gt. destruct (Rgt_dec x y); [lra | reflexivity].
Qed.

Lemma gt_spec (x y : R) : Py.gt x y = true <-> x > y.
Proof.
  unfold Py.gt. destruct (Rgt_dec x y); split; intro H; try assumption;
    try reflexivity; try discriminate; contradiction.
Qed.

Lemma max_is_Rmax (a b : R) : Py.max a b = Rmax a b.
Proof.
  unfold Py.max, Rmax.
  destruct (Rgt_dec b a), (Rle_dec a b); try reflexivity; lra.
Qed.

Lemma max_nonneg (a : R) : 0 <= Py.max a 0.
Proof.
  unfold Py.max. destruct (Rgt_dec 0 a); lra.
Qed.

Lemma max_clamps (a : R) : a <= 0 -> Py.max a 0 = 0.
Proof.
  intro H. unfold Py.max. destruct (Rgt_dec 0 a); lra.
Qed.

Lemma max_keeps (a : R) : 0 <= a -> Py.max a 0 = a.
Proof.
  intro H. unfold Py.max. destruct (Rgt_dec 0 a); lra.
Qed.

Lemma fold_left_Rplus_acc (xs : list R) (a : R) :
  fold_left Rplus xs a = a + fold_left Rplus xs 0.
Proof.
  revert a. induction xs as [| x xs IH]; intro a; simpl.
  - lra.
  - rewrite (IH (a + x)), (IH (0 + x)). lra.
Qed.

Lemma sum_nil : Py.sum [] = 0.
Proof. reflexivity. Qed.

Lemma sum_cons (x : R) (xs : list R) : Py.sum (x :: xs) = x + Py.sum xs.
Proof.
  unfold Py.sum. simpl. rewrite fold_left_Rplus_acc. lra.
Qed.

Lemma sum_app (xs ys : list R) : Py.sum (xs ++ ys) = Py.sum xs + Py.sum ys.
Proof.
  induction xs as [| x xs IH]; simpl.
  - rewrite sum_nil. lra.
  - rewrite !sum_cons, IH. lra.
Qed.

Lemma sum_fold_right (xs : list R) : Py.sum xs = fold_right Rplus 0 xs.
Proof.
  induction xs as [| x xs IH]; simpl.
  - reflexivity.
  - rewrite sum_cons, IH. reflexivity.
Qed.

Lemma sum_nonneg (xs : list R) : Forall (fun x => 0 <= x) xs -> 0 <= Py.sum xs.
Proof.
  induction 1 as [| x xs Hx _ IH].
  - rewrite sum_nil. lra.
  - rewrite sum_cons. lra.
Qed.

Lemma ceil_unique (z : Z) (x : R) : IZR z - 1 < x <= IZR z -> Py.ceil x = z.
Proof. apply Zceil_eq. Qed.


Lemma ceil_div_guarded_eq (x rate : R) :
  Py.ceil_div_guarded x rate = Ok (if Py.gt rate 0 then Py.ceil (x / rate) else 0%Z).
Proof.
  unfold Py.ceil_div_guarded. destruct (Py.gt rate 0) eqn:E; [| reflexivity].
  apply gt_spec in E. rewrite truediv_ok by lra. reflexivity.
Qed.

Lemma ceil_div_truthy_eq (x rate : R) :
  Py.ceil_div_truthy x rate
  = Ok (if Py.truthy rate then Py.ceil (x / rate) else 0%Z).
Proof.
  unfold Py.ceil_div_truthy, Py.truthy.
  destruct (Req_dec_T rate 0) as [E | N]; [reflexivity |].
  rewrite truediv_ok by assumption. reflexivity.
Qed.

Lemma comprehension_total {A B : Type} (f : A -> result B) (g : A -> B) (xs : list A) :
  (forall x, f x = Ok (g x)) -> Py.comprehension f xs = Ok (map g xs).
Proof.
  intro H. induction xs as [| x xs IH]; simpl; [reflexivity |].
  rewrite H, IH. reflexivity.
Qed.


End PyFacts.

(** ** Drywall: room areas *)

Section RoomAreas.

Import Drywall.

Lemma openings_sum_nonneg (l : list (R * R)) :
  nonneg_openings l -> 0 <= openings_sum l.
Proof.
  intro H. unfold openings_sum. apply sum_nonneg.
  induction H as [| wh l [Hw Hh] _ IH]; simpl; constructor.
  - now apply Rmult_le_pos.
  - exact IH.
Qed.

Lemma openings_sum_spec (l : list (R * R)) :
  openings_sum l = fold_right (fun wh acc => fst wh * snd wh + acc) 0 l.
Proof.
  unfold openings_sum. rewrite sum_fold_right.
  induction l as [| wh l IH]; simpl; [reflexivity | now rewrite IH].
Qed.

End RoomAreas.

Section ZeroSidedRooms.

Import Drywall.

(** C2, counterexample: a room of length 0 and width 5 ft, 8 ft high, still
    has a perimeter of 10 ft and 80 ft^2 of wall, so its total area is 80 and,
    at 25 percent waste, its total with waste is 100. *)
Lemma zero_length_room_has_area :
  (Room.length zero_length_room = 0 \/ Room.width zero_length_room = 0)
  /\ total_area_ft2 (room_areas 25 zero_length_room) = 80
  /\ total_with_waste_ft2 (room_areas 25 zero_length_room) = 100
  /\ total_area_ft2 (room_areas 25 zero_length_room) <> 0
  /\ total_with_waste_ft2 (room_areas 25 zero_length_room) <> 0.
Proof.
  assert (Hnet : wall_area_net_ft2 (room_areas 25 zero_length_room) = 80).
  { cbn. rewrite max_keeps; lra. }
  assert (Htot : total_area_ft2 (room_areas 25 zero_length_room) = 80).
  { change (total_area_ft2 (room_areas 25 zero_length_room))
      with (wall_area_net_ft2 (room_areas 25 zero_length_room) + 0 * 5).
    rewrite Hnet. lra. }
  assert (Hw : total_with_waste_ft2 (room_areas 25 zero_length_room) = 100).
  { change (total_with_waste_ft2 (room_areas 25 zero_length_room))
      with (total_area_ft2 (room_areas 25 zero_length_room) * (1 + 25 / 100)).
    rewrite Htot. lra. }
  split; [left; reflexivity |].
  rewrite Htot, Hw. repeat split; lra.
Qed.

(** C2, amended: a room whose length and width are both 0, with openings of
    non-negative sides, has total area 0 and total with waste 0, whatever its
    height, ceiling flag and waste percentage.  When only one of the two
    sides is 0 the ceiling area is 0 and the total area is the net wall
    area. *)
Theorem zero_sided_room_totals (waste : R) (r : Room.t) :
  nonneg_openings (Room.windows r) ->
  nonneg_openings (Room.doors r) ->
  (Room.length r = 0 /\ Room.width r = 0 ->
     total_area_ft2 (room_areas waste r) = 0
     /\ total_with_waste_ft2 (room_areas waste r) = 0)
  /\ (Room.length r = 0 \/ Room.width r = 0 ->
     ceiling_area_ft2 (room_areas waste r) = 0
     /\ total_area_ft2 (room_areas waste r) = wall_area_net_ft2 (room_areas waste r)).
Proof.
  intros Hw Hd.
  pose proof (openings_sum_nonneg _ Hw) as Hw0.
  pose proof (openings_sum_nonneg _ Hd) as Hd0.
  assert (Hceil : Room.length r = 0 \/ Room.width r = 0 ->
                  ceiling_area_ft2 (room_areas waste r) = 0).
  { intro H0. cbn [room_areas ceiling_area_ft2].
    destruct (Room.include_ceiling r); [| reflexivity].
    destruct H0 as [E | E]; rewrite E; lra. }
  split.
  - intros [El Ew].
    assert (Hnet : wall_area_net_ft2 (room_areas waste r) = 0).
    { cbn [room_areas wall_area_net_ft2]. apply max_clamps.
      rewrite El, Ew. lra. }
    assert (Htot : total_area_ft2 (room_areas waste r) = 0).
    { change (total_area_ft2 (room_areas waste r))
        with (wall_area_net_ft2 (room_areas waste r)
              + ceiling_area_ft2 (room_areas waste r)).
      rewrite Hnet, Hceil by (now left). lra. }
    split; [exact Htot |].
    change (total_with_waste_ft2 (room_areas waste r))
      with (total_area_ft2 (room_areas waste r) * (1 + waste / 100)).
    rewrite Htot. lra.
  - intro H0. split; [now apply Hceil |].
    change (total_area_ft2 (room_areas waste r))
      with (wall_area_net_ft2 (room_areas waste r)
            + ceiling_area_ft2 (room_areas waste r)).
    rewrite Hceil by assumption. lra.
Qed.

Lemma zero_sided_room_totals_witness :
  nonneg_openings (Room.windows empty_room)
  /\ nonneg_openings (Room.doors empty_room)
  /\ total_area_ft2 (room_areas 25 empty_room) = 0
  /\ total_with_waste_ft2 (room_areas 25 empty_room) = 0.
Proof.
  assert (Hw : nonneg_openings (Room.windows empty_room)).
  { repeat constructor; simpl; lra. }
  assert (Hd : nonneg_openings (Room.doors empty_room)) by constructor.
  split; [exact Hw |]. split; [exact Hd |].
  apply (proj1 (zero_sided_room_totals 25 empty_room Hw Hd)).
  split; reflexivity.
Defined.

End ZeroSidedRooms.

(** ** Drywall: the room loop and the whole run *)

Section DrywallRun.

Import Drywall.

Lemma rc_spacing_value_nonzero (s : RCSpacing) : rc_spacing_value s <> 0.
Proof. destruct s; simpl; lra. Qed.

(** The resilient-channel block never raises. *)
Lemma rc_step_total (inp : Inputs) (r : Room.t) (rc : R) :
  exists rc', rc_step inp r rc = Ok rc'.
Proof.
  unfold rc_step.
  destruct (include_resilient_channel inp && Room.include_ceiling r
            && Py.gt (Room.width r) 0 && Py.gt (Room.length r) 0).
  - rewrite truediv_ok by apply rc_spacing_value_nonzero.
    cbn [Py.bind]. eexists. reflexivity.
  - eexists. reflexivity.
Qed.

(** The room loop appends one row per room, whatever [rc_total_lf] becomes. *)
Lemma room_loop_rows (inp : Inputs) (rs : list Room.t) :
  forall st, exists rc,
    room_loop inp rs st = Ok (fst st ++ map (room_areas (waste_pct inp)) rs, rc).
Proof.
  induction rs as [| r rs IH]; intros [rows rc]; simpl.
  - exists rc. now rewrite app_nil_r.
  - unfold room_body. cbn [fst snd].
    destruct (rc_step_total inp r rc) as [rc' E]. rewrite E. cbn [Py.bind].
    destruct (IH (rows ++ [room_areas (waste_pct inp) r], rc')) as [rc'' E'].
    exists rc''. rewrite E'. cbn [fst]. now rewrite <- app_assoc.
Qed.

Lemma screws_boxes_eq (qty box : Z) :
  (if (box >? 0)%Z
   then q <- Py.truediv (IZR qty) (IZR box) ;; Ok (Py.ceil q)
   else Ok 0%Z)
  = Ok (if (box >? 0)%Z then Py.ceil (IZR qty / IZR box) else 0%Z).
Proof.
  destruct (box >? 0)%Z eqn:E; [| reflexivity].
  rewrite truediv_ok; [reflexivity |].
  apply not_0_IZR. lia.
Qed.

(** The takeoff block never raises. *)
Lemma material_takeoff_total (inp : Inputs) (n : nat) (tw : R) :
  exists t, material_takeoff inp n tw = Ok t.
Proof.
  unfold material_takeoff.
  rewrite !ceil_div_guarded_eq, screws_boxes_eq. cbn [Py.bind].
  eexists. reflexivity.
Qed.

Lemma df_total_waste (rows : list RoomRow) :
  map (fun d => total_with_waste_ft2 (row d)) (make_df rows)
  = map total_with_waste_ft2 rows.
Proof. unfold make_df. rewrite map_map. reflexivity. Qed.

Lemma df_total_area (rows : list RoomRow) :
  map (fun d => total_area_ft2 (row d)) (make_df rows) = map total_area_ft2 rows.
Proof. unfold make_df. rewrite map_map. reflexivity. Qed.

(** With no room the function only shows its notice. *)
Lemma run_drywall_estimator_no_room (inp : Inputs) :
  rooms inp = [] -> run_drywall_estimator inp = Ok None.
Proof.
  intro E. unfold run_drywall_estimator. rewrite E. reflexivity.
Qed.

(** With at least one room the function returns a report, assembled from the
    rows of the loop, the takeoff at their with-waste total and the pricing. *)
Lemma run_drywall_estimator_report (inp : Inputs) :
  rooms inp <> [] ->
  exists t,
    material_takeoff inp (List.length (rows_of inp)) (total_waste_of inp) = Ok t
    /\ run_drywall_estimator inp
       = Ok (Some {| df := make_df (rows_of inp);
                     total_ft2 := Py.sum (map total_area_ft2 (rows_of inp));
                     total_m2 := Py.sum (map total_area_ft2 (rows_of inp)) * FT2_TO_M2;
                     total_waste_ft2 := total_waste_of inp;
                     total_waste_m2 := total_waste_of inp * FT2_TO_M2;
                     takeoff := t;
                     prices := pricing inp t (total_waste_of inp)
                                 (fst (high_parts_loop (high_parts inp)))
                                 (snd (high_parts_loop (high_parts inp)));
                     qualifying_hp_count := snd (high_parts_loop (high_parts inp));
                     qualifying_hp_area_ft2 := fst (high_parts_loop (high_parts inp)) |}).
Proof.
  intro Hne.
  destruct (material_takeoff_total inp (List.length (rows_of inp)) (total_waste_of inp))
    as [t Ht].
  exists t. split; [exact Ht |].
  unfold run_drywall_estimator.
  destruct (room_loop_rows inp (rooms inp) ([], 0)) as [rc E].
  rewrite E. cbn [Py.bind fst app].
  fold (rows_of inp).
  destruct (rows_of inp) as [| r0 rows] eqn:Erows.
  - exfalso. apply Hne. unfold rows_of in Erows.
    now apply map_eq_nil in Erows.
  - rewrite df_total_waste, df_total_area.
    unfold make_df at 1. rewrite length_map.
    unfold total_waste_of in Ht. rewrite Erows in Ht.
    rewrite Ht. cbn [Py.bind].
    unfold total_waste_of. rewrite Erows. reflexivity.
Qed.

(** The function returns for every input: nothing in it can raise. *)
Lemma run_drywall_estimator_total (inp : Inputs) :
  exists o, run_drywall_estimator inp = Ok o.
Proof.
  destruct (rooms inp) as [| r rs] eqn:E.
  - exists None. now apply run_drywall_estimator_no_room.
  - destruct (run_drywall_estimator_report inp) as [t [_ Hrun]].
    + rewrite E. discriminate.
    + eexists. exact Hrun.
Qed.

End DrywallRun.

(** ** Drywall: labour and high parts *)

Section DrywallLabour.

Import Drywall.

(** C7: when there is a room the function returns a report whose charge
    area is the with-waste total of the rooms plus the qualifying high-part
    area, and whose area labour cost is that area times the per-ft^2 rate
    when the rate is strictly positive, the same area converted to m^2
    (x 0.09290304) times the per-m^2 rate when the per-ft^2 rate is zero and
    the per-m^2 rate is strictly positive, and 0 when both rates are zero. *)
Theorem area_labour_cost_cases (inp : Inputs) :
  rooms inp <> [] ->
  exists rep,
    run_drywall_estimator inp = Ok (Some rep)
    /\ total_waste_ft2 rep = total_waste_of inp
    /\ qualifying_hp_area_ft2 rep = fst (high_parts_loop (high_parts inp))
    /\ charge_area_ft2 (prices rep) = total_waste_ft2 rep + qualifying_hp_area_ft2 rep
    /\ (labour_rate_sqft inp > 0 ->
        labour_area_cost (prices rep)
        = (total_waste_ft2 rep + qualifying_hp_area_ft2 rep) * labour_rate_sqft inp)
    /\ (labour_rate_sqft inp = 0 -> labour_rate_sqm inp > 0 ->
        labour_area_cost (prices rep)
        = (total_waste_ft2 rep + qualifying_hp_area_ft2 rep) * 0.09290304
          * labour_rate_sqm inp)
    /\ (labour_rate_sqft inp = 0 -> labour_rate_sqm inp = 0 ->
        labour_area_cost (prices rep) = 0).
Proof.
  intro Hne.
  destruct (run_drywall_estimator_report inp Hne) as [t [_ Hrun]].
  eexists. split; [exact Hrun |].
  cbn [total_waste_ft2 qualifying_hp_area_ft2 prices pricing
       charge_area_ft2 labour_area_cost].
  split; [reflexivity |]. split; [reflexivity |]. split; [reflexivity |].
  unfold area_labour, FT2_TO_M2.
  split; [| split].
  - intro Hft. rewrite (gt_true _ _ Hft). reflexivity.
  - intros Hft Hm. rewrite (gt_false (labour_rate_sqft inp) 0) by lra.
    rewrite (gt_true _ _ Hm). reflexivity.
  - intros Hft Hm. rewrite (gt_false (labour_rate_sqft inp) 0) by lra.
    rewrite (gt_false (labour_rate_sqm inp) 0) by lra. reflexivity.
Qed.

Lemma area_labour_cost_cases_witness :
  rooms sample_drywall <> []
  /\ exists rep,
       run_drywall_estimator sample_drywall = Ok (Some rep)
       /\ labour_area_cost (prices rep)
          = (total_waste_ft2 rep + qualifying_hp_area_ft2 rep) * 2.
Proof.
  assert (Hne : rooms sample_drywall <> []) by discriminate.
  split; [exact Hne |].
  destruct (area_labour_cost_cases sample_drywall Hne)
    as [rep [Hrun [_ [_ [_ [Hft _]]]]]].
  exists rep. split; [exact Hrun |].
  apply Hft. simpl. lra.
Defined.

(** The loop started from any pair adds what it adds from (0, 0). *)
Lemma high_parts_fold_acc (hps : list (R * R)) :
  forall st,
    fold_left high_part_step hps st
    = (fst st + fst (high_parts_loop hps), (snd st + snd (high_parts_loop hps))%Z).
Proof.
  unfold high_parts_loop.
  induction hps as [| hp hps IH]; intros [a c]; simpl.
  - f_equal; [lra | lia].
  - rewrite (IH (high_part_step (a, c) hp)), (IH (high_part_step (0, 0%Z) hp)).
    unfold high_part_step.
    destruct (Py.gt (fst hp) 10 && Py.gt (snd hp) 64); cbn [fst snd];
      f_equal; try lra; lia.
Qed.

Lemma high_part_step_qualifies (st : R * Z) (hp : R * R) :
  qualifies hp -> high_part_step st hp = (fst st + snd hp, (snd st + 1)%Z).
Proof.
  intros [Hh Ha]. unfold high_part_step.
  now rewrite (gt_true _ _ Hh), (gt_true _ _ Ha).
Qed.

Lemma high_part_step_skips (st : R * Z) (hp : R * R) :
  ~ qualifies hp -> high_part_step st hp = st.
Proof.
  intro Hn. unfold high_part_step.
  destruct (Py.gt (fst hp) 10) eqn:Eh; [| reflexivity].
  destruct (Py.gt (snd hp) 64) eqn:Ea; [| reflexivity].
  exfalso. apply Hn. split; now apply gt_spec.
Qed.

Lemma qualifies_dec (hp : R * R) : qualifies hp \/ ~ qualifies hp.
Proof.
  unfold qualifies.
  destruct (Rgt_dec (fst hp) 10), (Rgt_dec (snd hp) 64); tauto.
Qed.

(** The loop over a list with one part put in, against the list without. *)
Lemma high_parts_loop_insert (before after : list (R * R)) (hp : R * R) :
  high_parts_loop (before ++ hp :: after)
  = let base := high_parts_loop (before ++ after) in
    let d := high_part_step (0, 0%Z) hp in
    (fst base + fst d, (snd base + snd d)%Z).
Proof.
  unfold high_parts_loop at 1 2.
  rewrite !fold_left_app. simpl.
  set (s := fold_left high_part_step before (0, 0%Z)).
  rewrite (high_parts_fold_acc after (high_part_step s hp)).
  rewrite (high_parts_fold_acc after s).
  cbn zeta. unfold high_part_step.
  destruct (Py.gt (fst hp) 10 && Py.gt (snd hp) 64); cbn [fst snd];
    f_equal; try lra; lia.
Qed.

(** C8: a high part put anywhere in the list adds its area to the
    qualifying-area total and 1 to the qualifying count when its height is
    above 10 ft and its area above 64 ft^2, and changes neither otherwise; so
    it contributes if and only if it qualifies.  A part of height 11 and area
    70 gives (70, 1); a part of height 11 and area 50 gives (0, 0). *)
Theorem high_part_contributes_iff_qualifies (before after : list (R * R)) (h a : R) :
  (h > 10 /\ a > 64 ->
     high_parts_loop (before ++ (h, a) :: after)
     = (fst (high_parts_loop (before ++ after)) + a,
        (snd (high_parts_loop (before ++ after)) + 1)%Z))
  /\ (~ (h > 10 /\ a > 64) ->
     high_parts_loop (before ++ (h, a) :: after) = high_parts_loop (before ++ after))
  /\ (high_parts_loop (before ++ (h, a) :: after) <> high_parts_loop (before ++ after)
      <-> h > 10 /\ a > 64)
  /\ high_parts_loop [(11, 70)] = (70, 1%Z)
  /\ high_parts_loop [(11, 50)] = (0, 0%Z).
Proof.
  assert (Hyes : h > 10 /\ a > 64 ->
     high_parts_loop (before ++ (h, a) :: after)
     = (fst (high_parts_loop (before ++ after)) + a,
        (snd (high_parts_loop (before ++ after)) + 1)%Z)).
  { intro Hq. rewrite high_parts_loop_insert. cbn zeta.
    rewrite (high_part_step_qualifies _ (h, a) Hq). cbn [fst snd].
    f_equal. lra. }
  assert (Hno : ~ (h > 10 /\ a > 64) ->
     high_parts_loop (before ++ (h, a) :: after) = high_parts_loop (before ++ after)).
  { intro Hq. rewrite high_parts_loop_insert. cbn zeta.
    rewrite (high_part_step_skips _ (h, a) Hq). cbn [fst snd].
    destruct (high_parts_loop (before ++ after)) as [x c]. cbn [fst snd].
    f_equal; [lra | lia]. }
  split; [exact Hyes |]. split; [exact Hno |]. split.
  - split.
    + intro Hneq. destruct (qualifies_dec (h, a)) as [Hq | Hq]; [exact Hq |].
      elim Hneq. now apply Hno.
    + intros Hq Heq. rewrite (Hyes Hq) in Heq.
      destruct (high_parts_loop (before ++ after)) as [x c]. cbn [fst snd] in Heq.
      injection Heq as _ Hc. lia.
  - split.
    + unfold high_parts_loop. simpl.
      rewrite (high_part_step_qualifies _ (11, 70)) by (split; simpl; lra).
      cbn [fst snd]. f_equal. lra.
    + unfold high_parts_loop. simpl.
      apply (high_part_step_skips _ (11, 50)). intros [_ Ha]. simpl in Ha. lra.
Qed.

End DrywallLabour.

(** ** Drywall: the resilient-channel settings *)

Section ResilientChannel.

Import Drywall.

(** Replacing the four settings leaves the whole result unchanged: the rows
    do not read them, the running [rc_total_lf] is overwritten before use,
    and neither the takeoff nor the pricing mentions them. *)
Lemma run_drywall_estimator_set_rc (inp : Inputs) (flag : bool) (spacing : RCSpacing)
  (piece_length cost : R) :
  run_drywall_estimator (set_rc inp flag spacing piece_length cost)
  = run_drywall_estimator inp.
Proof.
  unfold run_drywall_estimator.
  destruct (room_loop_rows (set_rc inp flag spacing piece_length cost)
              (rooms (set_rc inp flag spacing piece_length cost)) ([], 0))
    as [rc1 E1].
  destruct (room_loop_rows inp (rooms inp) ([], 0)) as [rc2 E2].
  rewrite E1, E2. reflexivity.
Qed.

(** The settings are read inside the loop: with the channel enabled the
    sample room (10 ft wide, 16 in spacing) gets floor(120 / 16) + 1 = 8 rows
    of 10 ft, and none with it disabled. *)
Example rc_total_lf_in_loop :
  rc_step (set_rc sample_drywall true RC16 12 0) sample_room 0 = Ok 80
  /\ rc_step sample_drywall sample_room 0 = Ok 0.
Proof.
  split; [| reflexivity].
  unfold rc_step. cbn [include_resilient_channel set_rc Room.include_ceiling
                       sample_room andb Room.width Room.length rc_spacing_in
                       rc_spacing_value].
  rewrite (gt_true 10 0) by lra. cbn [andb].
  rewrite truediv_ok by lra. cbn [Py.bind].
  unfold Py.floor. rewrite (Zfloor_eq 7 (10 * 12 / 16)) by lra.
  f_equal. simpl. lra.
Qed.

Lemma same_outside_rc_set_rc (a b : Inputs) :
  same_outside_rc a b ->
  b = set_rc a (include_resilient_channel b) (rc_spacing_in b)
            (rc_piece_length_ft b) (cost_rc_piece b).
Proof.
  unfold same_outside_rc, set_rc. destruct a, b. cbn.
  intro H.
  repeat match goal with
         | H : _ /\ _ |- _ => destruct H
         end.
  subst. reflexivity.
Qed.

(** C9: two drywall runs whose inputs differ only in the resilient-channel
    settings (the include flag, the spacing, the piece length and the cost
    per piece) give the same result: the same per-room rows, quantities,
    material subtotal, labour costs and totals, or the same notice. *)
Theorem resilient_channel_settings_unused (a b : Inputs) :
  same_outside_rc a b -> run_drywall_estimator a = run_drywall_estimator b.
Proof.
  intro H. rewrite (same_outside_rc_set_rc a b H).
  symmetry. apply run_drywall_estimator_set_rc.
Qed.

Lemma resilient_channel_settings_unused_witness :
  same_outside_rc sample_drywall (set_rc sample_drywall true RC24 16 7.5)
  /\ run_drywall_estimator sample_drywall
     = run_drywall_estimator (set_rc sample_drywall true RC24 16 7.5).
Proof.
  assert (H : same_outside_rc sample_drywall (set_rc sample_drywall true RC24 16 7.5)).
  { unfold same_outside_rc. cbn. repeat split. }
  split; [exact H |].
  apply (resilient_channel_settings_unused _ _ H).
Defined.

End ResilientChannel.

(** ** Insulation: the estimate *)

Section InsulationEstimate.

Import Insulation.

Lemma batt_count_eq (x : R) (s : Spacing) :
  batt_count x s = Ok (Py.ceil (x / (IZR (spacing_value s) / 12))).
Proof.
  unfold batt_count.
  destruct s; cbn [spacing_value Z.eqb negb]; rewrite truediv_ok by lra;
    reflexivity.
Qed.

Lemma cat_batts_eq (spacing : Spacing) (sections : list (R * R * R)) :
  Py.comprehension (fun s => batt_count (snd (fst s)) spacing) sections
  = Ok (map (fun s => Py.ceil (snd (fst s) / (IZR (spacing_value spacing) / 12)))
            sections).
Proof.
  apply comprehension_total. intro s. apply batt_count_eq.
Qed.

(** Rewrites every step of [estimate] that could raise into its value. *)
Ltac estimate_steps :=
  unfold estimate;
  rewrite !ceil_div_guarded_eq, ceil_div_truthy_eq, batt_count_eq, cat_batts_eq;
  cbn [Py.bind].

(** The estimate never raises, whatever the two specs are. *)
Lemma estimate_total (inp : Inputs) (wp cp : MaterialSpec) :
  exists rep, estimate inp wp cp = Ok rep.
Proof.
  estimate_steps. eexists. reflexivity.
Qed.

(** With both lookups found and the button pressed, the function returns
    the report of the estimate. *)
Lemma run_insulation_estimator_report (inp : Inputs) (wp cp : MaterialSpec)
  (rep : Report) :
  estimate inp wp cp = Ok rep ->
  lookup_spec (wall_r_value inp) (wall_width inp) = Ok wp ->
  lookup_spec (cat_r_value inp) (cat_width inp) = Ok cp ->
  run_estimate inp = true ->
  run_insulation_estimator inp = Ok (Some rep).
Proof.
  intros He Hw Hc Hb. unfold run_insulation_estimator.
  rewrite Hw, Hc. cbn [Py.bind]. rewrite Hb, He. reflexivity.
Qed.



(** A missing key stops the function before any estimate. *)
Lemma run_insulation_estimator_key_error (inp : Inputs) (e : exn) :
  lookup_spec (wall_r_value inp) (wall_width inp) = Raise e ->
  run_insulation_estimator inp = Raise e.
Proof.
  intro Hw. unfold run_insulation_estimator. rewrite Hw. reflexivity.
Qed.

Lemma cat_area_step_spec (acc : R) (s : R * R * R) :
  cat_area_step acc s = acc + spec_slope_area s.
Proof.
  destruct s as [[len bw] rise]. unfold cat_area_step, spec_slope_area, Py.sqrt.
  cbn [fst snd].
  rewrite max_keeps; [lra |].
  apply Rplus_le_le_0_compat; apply pow2_ge_0.
Qed.

Lemma cat_area_fold_acc (sections : list (R * R * R)) :
  forall acc,
    fold_left cat_area_step sections acc
    = acc + fold_right Rplus 0 (map spec_slope_area sections).
Proof.
  induction sections as [| s sections IH]; intro acc; simpl.
  - lra.
  - rewrite IH, cat_area_step_spec. lra.
Qed.

Lemma cat_area_loop_spec (sections : list (R * R * R)) :
  cat_area_loop sections = fold_right Rplus 0 (map spec_slope_area sections).
Proof.
  unfold cat_area_loop. rewrite cat_area_fold_acc. lra.
Qed.

Lemma slope_area_10_8_3 : spec_slope_area (10, 8, 3) = 100.
Proof.
  unfold spec_slope_area. cbn [fst snd].
  replace ((8 / 2) ^ 2 + 3 ^ 2) with (5 * 5) by lra.
  rewrite sqrt_square by lra. lra.
Qed.









End InsulationEstimate.

(** ** Worked examples *)

Section WorkedExamples.

(** A room 10 x 10 ft, 8 ft high, no openings, ceiling included, 10 percent
    waste: perimeter 40, walls 320, ceiling 100, total 420, with waste 462. *)
Example sample_room_row :
  let row := Drywall.room_areas 10 sample_room in
  Drywall.perimeter_ft row = 40
  /\ Drywall.wall_area_net_ft2 row = 320
  /\ Drywall.ceiling_area_ft2 row = 100
  /\ Drywall.total_area_ft2 row = 420
  /\ Drywall.total_with_waste_ft2 row = 462.
Proof.
  cbn. rewrite max_keeps by lra. repeat split; lra.
Qed.

Lemma total_waste_of_sample_drywall : total_waste_of sample_drywall = 525.
Proof.
  unfold total_waste_of, rows_of. cbn.
  rewrite max_keeps by lra. unfold Py.sum. simpl. lra.
Qed.

Lemma high_parts_of_sample_drywall :
  Drywall.high_parts_loop (Drywall.high_parts sample_drywall) = (70, 1%Z).
Proof.
  unfold Drywall.high_parts_loop. simpl.
  rewrite (high_part_step_qualifies _ (11, 70)) by (split; simpl; lra).
  rewrite (high_part_step_skips _ (11, 50))
    by (intros [_ Ha]; simpl in Ha; lra).
  cbn [fst snd]. f_equal. lra.
Qed.

(** The sample drywall job: 525 ft^2 with waste, one qualifying high part of
    70 ft^2, area labour (525 + 70) x 2 = 1190. *)
Example sample_drywall_report :
  exists rep,
    Drywall.run_drywall_estimator sample_drywall = Ok (Some rep)
    /\ Drywall.total_waste_ft2 rep = 525
    /\ Drywall.qualifying_hp_area_ft2 rep = 70
    /\ Drywall.qualifying_hp_count rep = 1%Z
    /\ Drywall.labour_area_cost (Drywall.prices rep) = 1190.
Proof.
  destruct (run_drywall_estimator_report sample_drywall) as [t [_ Hrun]];
    [discriminate |].
  eexists. split; [exact Hrun |].
  cbn [Drywall.total_waste_ft2 Drywall.qualifying_hp_area_ft2
       Drywall.qualifying_hp_count Drywall.prices Drywall.pricing
       Drywall.labour_area_cost].
  rewrite high_parts_of_sample_drywall, total_waste_of_sample_drywall.
  cbn [fst snd].
  repeat split.
  unfold Drywall.area_labour.
  rewrite gt_true by (simpl; lra). simpl. lra.
Qed.

(** The sample insulation job: 4 wall bags, 1 cathedral bag, 10 ceiling bags;
    materials 560, labour 1080, with tax 1722, with tax and buffer 1894.20. *)
Example sample_insulation_report :
  exists rep,
    Insulation.run_insulation_estimator sample_insulation = Ok (Some rep)
    /\ Insulation.wall_bags rep = 4%Z
    /\ Insulation.cat_bags rep = 1%Z
    /\ Insulation.ceiling_bags rep = 10%Z
    /\ Insulation.mat_total rep = 560
    /\ Insulation.lab_total rep = 1080
    /\ Insulation.total_tax rep = 1722
    /\ Insulation.total_buf rep = 1894.2.
Proof.
  destruct (estimate_total sample_insulation sample_spec sample_spec) as [rep Hrep].
  exists rep.
  split; [now apply (run_insulation_estimator_report _ sample_spec sample_spec) |].
  revert Hrep. unfold Insulation.estimate.
  rewrite !ceil_div_guarded_eq, ceil_div_truthy_eq, batt_count_eq, cat_batts_eq.
  cbn [Py.bind]. intro Hrep. injection Hrep as <-.
  cbn [Insulation.wall_bags Insulation.cat_bags Insulation.ceiling_bags
       Insulation.mat_total Insulation.lab_total Insulation.total_tax
       Insulation.total_buf].
  assert (Harea : Insulation.cat_area_loop [(10, 8, 3)] = 100).
  { rewrite cat_area_loop_spec. simpl. rewrite slope_area_10_8_3. lra. }
  rewrite Harea.
  rewrite (gt_true 100.0 0) by lra.
  rewrite (gt_true (100.0 * 1.10) 0) by lra.
  assert (Ht : Py.truthy 40 = true).
  { unfold Py.truthy. destruct (Req_dec_T 40 0) as [E | _]; [lra | reflexivity]. }
  rewrite Ht.
  rewrite (ceil_unique 4 (40 * 8 / 100.0)) by lra.
  rewrite (ceil_unique 1 (100 / (100.0 * 1.10))) by lra.
  change (Py.maxz 400 0) with 400%Z.
  rewrite (ceil_unique 10 (400 / 40)) by lra.
  change (Insulation.num_cat sample_insulation) with 1%Z.
  repeat split; lra.
Qed.

End WorkedExamples.

(** ** More facts about the Python primitives *)

Section PyFactsMore.

Lemma ceil_upper (x : R) : x <= IZR (Py.ceil x).
Proof. unfold Py.ceil. destruct (Zceil_bound x) as [_ H]. exact H. Qed.


Lemma ceil_nonneg (x : R) : 0 <= x -> (0 <= Py.ceil x)%Z.
Proof.
  intro Hx. pose proof (ceil_upper x) as Hup.
  assert (H : (-1 < Py.ceil x)%Z) by (apply lt_IZR; lra).
  lia.
Qed.

Lemma ceil_zero : Py.ceil 0 = 0%Z.
Proof. apply ceil_unique. lra. Qed.



Lemma sum_map_scale {A : Type} (f : A -> R) (c : R) (l : list A) :
  Py.sum (map (fun a => f a * c) l) = Py.sum (map f l) * c.
Proof.
  induction l as [| a l IH]; simpl.
  - rewrite sum_nil. lra.
  - rewrite !sum_cons, IH. lra.
Qed.

Lemma sum_map_nonneg {A : Type} (f : A -> R) (l : list A) :
  Forall (fun a => 0 <= f a) l -> 0 <= Py.sum (map f l).
Proof.
  intro H. apply sum_nonneg. induction H; simpl; constructor; assumption.
Qed.

Lemma sum_map_zero {A : Type} (f : A -> R) (l : list A) :
  Forall (fun a => f a = 0) l -> Py.sum (map f l) = 0.
Proof.
  induction 1 as [| a l Ha _ IH]; simpl.
  - apply sum_nil.
  - rewrite sum_cons, Ha, IH. lra.
Qed.

(** A dict lookup finds exactly the keys of the dict. *)
Lemma getitem_found {K V : Type} (eqb : K -> K -> bool) (d : list (K * V)) (k : K) :
  (forall a b, eqb a b = true <-> a = b) ->
  In k (map fst d) -> exists v, Py.getitem eqb d k = Ok v /\ In (k, v) d.
Proof.
  intros Heq. induction d as [| [k' v'] d IH]; simpl; [contradiction |].
  intro Hin. destruct (eqb k' k) eqn:E.
  - apply Heq in E. subst k'. exists v'. split; [reflexivity | now left].
  - destruct Hin as [-> | Hin].
    + assert (eqb k k = true) by now apply Heq. congruence.
    + destruct (IH Hin) as [v [Hv Hv']]. exists v. split; [exact Hv | now right].
Qed.

Lemma getitem_key {K V : Type} (eqb : K -> K -> bool) (d : list (K * V)) (k : K) (v : V) :
  (forall a b, eqb a b = true <-> a = b) ->
  Py.getitem eqb d k = Ok v -> In (k, v) d.
Proof.
  intros Heq. induction d as [| [k' v'] d IH]; simpl; [discriminate |].
  destruct (eqb k' k) eqn:E.
  - apply Heq in E. subst k'. intro H. injection H as ->. now left.
  - intro H. right. now apply IH.
Qed.

Lemma getitem_missing {K V : Type} (eqb : K -> K -> bool) (d : list (K * V)) (k : K) :
  (forall a b, eqb a b = true <-> a = b) ->
  ~ In k (map fst d) -> Py.getitem eqb d k = Raise KeyError.
Proof.
  intros Heq. induction d as [| [k' v'] d IH]; simpl; [reflexivity |].
  intro Hn. destruct (eqb k' k) eqn:E.
  - apply Heq in E. subst k'. elim Hn. now left.
  - apply IH. intro Hin. apply Hn. now right.
Qed.

End PyFactsMore.

(** ** Drywall: rows, totals and waste *)

Section DrywallRows.

Import Drywall.

Lemma room_areas_fields (waste : R) (r : Room.t) :
  total_area_ft2 (room_areas waste r)
  = wall_area_net_ft2 (room_areas waste r) + ceiling_area_ft2 (room_areas waste r)
  /\ total_with_waste_ft2 (room_areas waste r)
     = total_area_ft2 (room_areas waste r) * (1 + waste / 100).
Proof. split; reflexivity. Qed.

Lemma room_areas_nonneg (waste : R) (r : Room.t) :
  nonneg_room r -> 0 <= waste ->
  0 <= total_area_ft2 (room_areas waste r)
  /\ total_area_ft2 (room_areas waste r) <= total_with_waste_ft2 (room_areas waste r).
Proof.
  intros [Hl [Hw _]] Hwaste.
  destruct (room_areas_fields waste r) as [Ht Hww].
  assert (Hnet : 0 <= wall_area_net_ft2 (room_areas waste r)) by apply max_nonneg.
  assert (Hceil : 0 <= ceiling_area_ft2 (room_areas waste r)).
  { cbn [room_areas ceiling_area_ft2].
    destruct (Room.include_ceiling r); [now apply Rmult_le_pos | lra]. }
  split; [lra |].
  rewrite Hww.
  assert (0 <= total_area_ft2 (room_areas waste r) * (waste / 100)).
  { apply Rmult_le_pos; lra. }
  lra.
Qed.

Lemma room_areas_zero_sides (waste : R) (r : Room.t) :
  Room.length r = 0 -> Room.width r = 0 ->
  nonneg_openings (Room.windows r) -> nonneg_openings (Room.doors r) ->
  total_area_ft2 (room_areas waste r) = 0
  /\ total_with_waste_ft2 (room_areas waste r) = 0.
Proof.
  intros El Ew Hw Hd.
  pose proof (openings_sum_nonneg _ Hw) as Hw0.
  pose proof (openings_sum_nonneg _ Hd) as Hd0.
  destruct (room_areas_fields waste r) as [Ht Hww].
  assert (Hnet : wall_area_net_ft2 (room_areas waste r) = 0).
  { cbn [room_areas wall_area_net_ft2]. apply max_clamps. rewrite El, Ew. lra. }
  assert (Hceil : ceiling_area_ft2 (room_areas waste r) = 0).
  { cbn [room_areas ceiling_area_ft2]. rewrite El.
    destruct (Room.include_ceiling r); lra. }
  assert (H0 : total_area_ft2 (room_areas waste r) = 0) by lra.
  split; [exact H0 |]. rewrite Hww, H0. lra.
Qed.

(** X1: with the waste box unticked, or a waste of 0, every row's
    with-waste area is its area and the two grand totals agree, in ft^2 and
    in m^2. *)
Theorem no_waste_totals_agree (inp : Inputs) :
  rooms inp <> [] ->
  include_waste inp = false \/ waste_pct_input inp = 0 ->
  exists rep,
    run_drywall_estimator inp = Ok (Some rep)
    /\ Forall (fun d => total_with_waste_ft2 (row d) = total_area_ft2 (row d)) (df rep)
    /\ total_waste_ft2 rep = total_ft2 rep
    /\ total_waste_m2 rep = total_m2 rep.
Proof.
  intros Hne Hoff.
  assert (H0 : waste_pct inp = 0).
  { unfold waste_pct. destruct Hoff as [-> | E]; [reflexivity |].
    destruct (include_waste inp); [exact E | reflexivity]. }
  assert (Hrows : Forall (fun r => total_with_waste_ft2 r = total_area_ft2 r)
                         (rows_of inp)).
  { unfold rows_of. rewrite H0. apply Forall_forall. intros x Hx.
    apply in_map_iff in Hx. destruct Hx as [r [<- _]].
    destruct (room_areas_fields 0 r) as [_ Hw]. rewrite Hw. lra. }
  assert (Hmap : map total_with_waste_ft2 (rows_of inp) = map total_area_ft2 (rows_of inp)).
  { induction Hrows as [| x l Hx _ IH]; simpl; [reflexivity | now rewrite Hx, IH]. }
  destruct (run_drywall_estimator_report inp Hne) as [t [_ Hrun]].
  eexists. split; [exact Hrun |].
  cbn [df total_waste_ft2 total_ft2 total_waste_m2 total_m2].
  unfold total_waste_of. rewrite Hmap.
  split; [| split; reflexivity].
  unfold make_df. apply Forall_forall. intros d Hd.
  apply in_map_iff in Hd. destruct Hd as [x [<- Hx]]. cbn [row].
  rewrite Forall_forall in Hrows. now apply Hrows.
Qed.

Lemma no_waste_totals_agree_witness :
  rooms sample_drywall_no_waste <> []
  /\ include_waste sample_drywall_no_waste = false
  /\ exists rep,
       run_drywall_estimator sample_drywall_no_waste = Ok (Some rep)
       /\ total_waste_ft2 rep = total_ft2 rep.
Proof.
  assert (Hne : rooms sample_drywall_no_waste <> []) by discriminate.
  split; [exact Hne |]. split; [reflexivity |].
  destruct (no_waste_totals_agree sample_drywall_no_waste Hne (or_introl eq_refl))
    as [rep [Hrun [_ [Htot _]]]].
  exists rep. split; [exact Hrun | exact Htot].
Defined.

End DrywallRows.

Section DrywallReportRows.

Import Drywall.

(** X2: for a room with non-negative sides, height and openings and a
    non-negative waste percentage, the net wall area lies between 0 and the
    gross wall area, the ceiling area between 0 and length x width, and
    0 <= total area <= total with waste. *)
Theorem room_row_bounds (waste : R) (r : Room.t) :
  nonneg_room r ->
  0 <= waste ->
  0 <= wall_area_net_ft2 (room_areas waste r)
       <= 2 * (Room.length r + Room.width r) * Room.height r
  /\ 0 <= ceiling_area_ft2 (room_areas waste r) <= Room.length r * Room.width r
  /\ 0 <= total_area_ft2 (room_areas waste r)
          <= total_with_waste_ft2 (room_areas waste r).
Proof.
  intros Hr Hwaste.
  pose proof (room_areas_nonneg waste r Hr Hwaste) as [Ht0 Htw].
  destruct Hr as [Hl [Hw [Hh [Hwin Hdoor]]]].
  pose proof (openings_sum_nonneg _ Hwin) as Hw0.
  pose proof (openings_sum_nonneg _ Hdoor) as Hd0.
  destruct (room_areas_fields waste r) as [Ht Hww].
  assert (Hgross : 0 <= 2 * (Room.length r + Room.width r) * Room.height r).
  { apply Rmult_le_pos; lra. }
  assert (Hnet : 0 <= wall_area_net_ft2 (room_areas waste r)
                 <= 2 * (Room.length r + Room.width r) * Room.height r).
  { split; [apply max_nonneg |].
    cbn [room_areas wall_area_net_ft2]. unfold Py.max.
    destruct (Rgt_dec 0 _); lra. }
  assert (Hlw : 0 <= Room.length r * Room.width r) by now apply Rmult_le_pos.
  assert (Hceil : 0 <= ceiling_area_ft2 (room_areas waste r)
                  <= Room.length r * Room.width r).
  { cbn [room_areas ceiling_area_ft2]. destruct (Room.include_ceiling r); lra. }
  split; [exact Hnet |]. split; [exact Hceil |]. lra.
Qed.

Lemma room_row_bounds_witness :
  nonneg_room sample_room
  /\ 0 <= total_area_ft2 (room_areas 10 sample_room)
          <= total_with_waste_ft2 (room_areas 10 sample_room).
Proof.
  assert (Hr : nonneg_room sample_room).
  { unfold nonneg_room, nonneg_openings. simpl.
    repeat split; try lra; constructor. }
  split; [exact Hr |].
  assert (Hw : 0 <= 10) by lra.
  exact (proj2 (proj2 (room_row_bounds 10 sample_room Hr Hw))).
Defined.

(** X3: when there is a room, the report has exactly one row per room, in
    the order of the form, each computed from its own room and carrying that
    room's name, length, width and height. *)
Theorem report_rows_follow_rooms (inp : Inputs) :
  rooms inp <> [] ->
  exists rep,
    run_drywall_estimator inp = Ok (Some rep)
    /\ map row (df rep) = map (room_areas (waste_pct inp)) (rooms inp)
    /\ List.length (df rep) = List.length (rooms inp)
    /\ map (fun d => room (row d)) (df rep) = map Room.name (rooms inp)
    /\ map (fun d => (length_ft (row d), width_ft (row d), height_ft (row d))) (df rep)
       = map (fun r => (Room.length r, Room.width r, Room.height r)) (rooms inp).
Proof.
  intro Hne.
  destruct (run_drywall_estimator_report inp Hne) as [t [_ Hrun]].
  eexists. split; [exact Hrun |].
  cbn [df]. unfold make_df, rows_of.
  rewrite !map_map, !length_map. cbn [row].
  repeat split; apply map_ext; reflexivity.
Qed.

Lemma report_rows_follow_rooms_witness :
  rooms sample_drywall <> []
  /\ exists rep,
       run_drywall_estimator sample_drywall = Ok (Some rep)
       /\ map (fun d => room (row d)) (df rep) = ["Room 1"%string].
Proof.
  assert (Hne : rooms sample_drywall <> []) by discriminate.
  split; [exact Hne |].
  destruct (report_rows_follow_rooms sample_drywall Hne)
    as [rep [Hrun [_ [_ [Hnames _]]]]].
  exists rep. split; [exact Hrun | exact Hnames].
Defined.

(** X4: the two ft^2 grand totals add the rows' area and with-waste
    columns, each row standing for its own room, and each m^2 grand total is
    the ft^2 grand total x 0.09290304. *)
Theorem grand_totals_sum_columns (inp : Inputs) :
  rooms inp <> [] ->
  exists rep,
    run_drywall_estimator inp = Ok (Some rep)
    /\ total_ft2 rep = fold_right Rplus 0 (map (fun d => total_area_ft2 (row d)) (df rep))
    /\ total_waste_ft2 rep
       = fold_right Rplus 0 (map (fun d => total_with_waste_ft2 (row d)) (df rep))
    /\ map row (df rep) = map (room_areas (waste_pct inp)) (rooms inp)
    /\ total_m2 rep = total_ft2 rep * 0.09290304
    /\ total_waste_m2 rep = total_waste_ft2 rep * 0.09290304.
Proof.
  intro Hne.
  destruct (run_drywall_estimator_report inp Hne) as [t [_ Hrun]].
  eexists. split; [exact Hrun |].
  cbn [df total_ft2 total_waste_ft2 total_m2 total_waste_m2].
  rewrite <- !sum_fold_right.
  unfold make_df, total_waste_of, FT2_TO_M2. rewrite !map_map. cbn [row].
  repeat split; try reflexivity.
  unfold rows_of. rewrite map_map. apply map_ext. reflexivity.
Qed.

Lemma grand_totals_sum_columns_witness :
  rooms sample_drywall <> []
  /\ exists rep,
       run_drywall_estimator sample_drywall = Ok (Some rep)
       /\ total_waste_m2 rep = total_waste_ft2 rep * 0.09290304.
Proof.
  assert (Hne : rooms sample_drywall <> []) by discriminate.
  split; [exact Hne |].
  destruct (grand_totals_sum_columns sample_drywall Hne)
    as [rep [Hrun [_ [_ [_ [_ Hm]]]]]].
  exists rep. split; [exact Hrun | exact Hm].
Defined.

End DrywallReportRows.

(** ** Drywall: the takeoff quantities *)

Section DrywallTakeoff.

Import Drywall.

(** Every field of a returned takeoff. *)
Lemma material_takeoff_fields (inp : Inputs) (n : nat) (tw : R) (t : Takeoff) :
  material_takeoff inp n tw = Ok t ->
  sheets t = (if Py.gt (sheet_area (sheet_size inp)) 0
              then Py.ceil (tw / sheet_area (sheet_size inp)) else 0%Z)
  /\ mud_gal t = tw / 1000 * mud_gal_per_1000 inp
  /\ mud_pails t = (if Py.gt (mud_pail_gal inp) 0
                    then Py.ceil (mud_gal t / mud_pail_gal inp) else 0%Z)
  /\ tape_rolls t = (if Py.gt (tape_sqft_per_roll inp) 0
                     then Py.ceil (tw / tape_sqft_per_roll inp) else 0%Z)
  /\ screws_qty t = Py.ceil (tw * screws_per_sqft inp)
  /\ screws_boxes t = (if (screws_per_box inp >? 0)%Z
                       then Py.ceil (IZR (screws_qty t) / IZR (screws_per_box inp))
                       else 0%Z)
  /\ corner_bead_lf t = tw / 1000 * corner_bead_lf_per_1000 inp
  /\ corner_bead_pcs t = (if Py.gt (corner_bead_piece_len_ft inp) 0
                          then Py.ceil (corner_bead_lf t / corner_bead_piece_len_ft inp)
                          else 0%Z)
  /\ rc_pieces t = 0%Z
  /\ rc_total_lf t = 0.
Proof.
  unfold material_takeoff.
  rewrite !ceil_div_guarded_eq, screws_boxes_eq. cbn [Py.bind].
  intro H. injection H as <-.
  cbn [sheets mud_gal mud_pails tape_rolls screws_qty screws_boxes
       corner_bead_lf corner_bead_pcs rc_pieces rc_total_lf].
  repeat split; try reflexivity.
  destruct (Nat.eqb n 0); reflexivity.
Qed.

Lemma sheet_area_pos (s : SheetSize) : sheet_area s > 0.
Proof. destruct s; simpl; lra. Qed.



End DrywallTakeoff.

(** ** Drywall: high parts, pricing and totals *)

From Stdlib Require Import Permutation.

Section DrywallPricing.

Import Drywall.

Lemma high_part_step_eq (st : R * Z) (hp : R * R) :
  high_part_step st hp
  = if qualifiesb hp then (fst st + snd hp, (snd st + 1)%Z) else st.
Proof. reflexivity. Qed.

Lemma qualifiesb_spec (hp : R * R) : qualifiesb hp = true <-> qualifies hp.
Proof.
  unfold qualifiesb, qualifies. rewrite andb_true_iff, !gt_spec. tauto.
Qed.

Lemma high_parts_loop_cons (hp : R * R) (hps : list (R * R)) :
  high_parts_loop (hp :: hps)
  = if qualifiesb hp
    then (snd hp + fst (high_parts_loop hps), (1 + snd (high_parts_loop hps))%Z)
    else high_parts_loop hps.
Proof.
  unfold high_parts_loop at 1. cbn [fold_left].
  rewrite high_parts_fold_acc, high_part_step_eq.
  destruct (qualifiesb hp); cbn [fst snd].
  - f_equal; try lra; lia.
  - destruct (high_parts_loop hps) as [a c]. cbn [fst snd]. f_equal; try lra; lia.
Qed.

Lemma high_parts_loop_filter (hps : list (R * R)) :
  high_parts_loop hps
  = (fold_right Rplus 0 (map snd (filter qualifiesb hps)),
     Z.of_nat (List.length (filter qualifiesb hps))).
Proof.
  induction hps as [| hp hps IH].
  - reflexivity.
  - rewrite high_parts_loop_cons. cbn [filter].
    destruct (qualifiesb hp); [| exact IH].
    rewrite IH. cbn [fst snd map fold_right List.length]. f_equal. lia.
Qed.

Lemma high_parts_loop_bounds (hps : list (R * R)) :
  (0 <= snd (high_parts_loop hps) <= Z.of_nat (List.length hps))%Z
  /\ 64 * IZR (snd (high_parts_loop hps)) <= fst (high_parts_loop hps)
  /\ (snd (high_parts_loop hps) = 0%Z -> fst (high_parts_loop hps) = 0).
Proof.
  induction hps as [| hp hps [IHc [IHa IH0]]].
  - cbn. repeat split; try lia; lra.
  - rewrite high_parts_loop_cons. cbn [List.length].
    destruct (qualifiesb hp) eqn:Eq; cbn [fst snd].
    + apply qualifiesb_spec in Eq. destruct Eq as [_ Ha].
      repeat split; try lia.
      rewrite plus_IZR. lra.
    + repeat split; try lia; assumption.
Qed.

(** X7: the high-parts loop returns the summed area and the number of the
    parts with height > 10 and area > 64; the count lies between 0 and the
    number of parts, and the area is at least 64 x the count, so it is 0
    when no part qualifies. *)
Theorem high_parts_totals (hps : list (R * R)) :
  high_parts_loop hps
  = (fold_right Rplus 0 (map snd (filter qualifiesb hps)),
     Z.of_nat (List.length (filter qualifiesb hps)))
  /\ (forall hp, In hp (filter qualifiesb hps) <-> In hp hps /\ fst hp > 10 /\ snd hp > 64)
  /\ (0 <= snd (high_parts_loop hps) <= Z.of_nat (List.length hps))%Z
  /\ 64 * IZR (snd (high_parts_loop hps)) <= fst (high_parts_loop hps)
  /\ (snd (high_parts_loop hps) = 0%Z -> fst (high_parts_loop hps) = 0).
Proof.
  split; [apply high_parts_loop_filter |]. split.
  - intro hp. rewrite filter_In, qualifiesb_spec. unfold qualifies. tauto.
  - apply high_parts_loop_bounds.
Qed.

(** X8: the order in which the high parts are entered does not change
    which parts qualify nor how many: the qualifying parts of a reordered
    list are the same parts reordered, and the qualifying count is the
    same. *)
Theorem high_parts_count_order_irrelevant (l1 l2 : list (R * R)) :
  Permutation l1 l2 ->
  Permutation (filter qualifiesb l1) (filter qualifiesb l2)
  /\ snd (high_parts_loop l1) = snd (high_parts_loop l2).
Proof.
  intro HP.
  assert (Hf : Permutation (filter qualifiesb l1) (filter qualifiesb l2)).
  { induction HP as [| x l l' _ IH | x y l | l l' l'' _ IH1 _ IH2]; cbn [filter].
    - constructor.
    - destruct (qualifiesb x); [now constructor | exact IH].
    - destruct (qualifiesb x), (qualifiesb y);
        try apply perm_swap; apply Permutation_refl.
    - now transitivity (filter qualifiesb l'). }
  split; [exact Hf |].
  rewrite !high_parts_loop_filter. cbn [snd].
  now rewrite (Permutation_length Hf).
Qed.

Lemma high_parts_count_order_irrelevant_witness :
  Permutation [(11, 70); (11, 50)] [(11, 50); (11, 70)]
  /\ snd (high_parts_loop [(11, 70); (11, 50)])
     = snd (high_parts_loop [(11, 50); (11, 70)]).
Proof.
  assert (H : Permutation [(11, 70); (11, 50)] [(11, 50); (11, 70)])
    by apply perm_swap.
  split; [exact H |].
  exact (proj2 (high_parts_count_order_irrelevant _ _ H)).
Defined.

(** X9: the high-parts labour of a report is the flat amount x the
    qualifying count when a part qualifies and the flat amount is strictly
    positive, whatever the per-ft^2 rate is; otherwise it is the qualifying
    area x the per-ft^2 rate; and it is 0 when no part qualifies.  The labour
    subtotal adds it to the area labour. *)
Theorem high_parts_labour_cases (inp : Inputs) :
  rooms inp <> [] ->
  exists rep,
    run_drywall_estimator inp = Ok (Some rep)
    /\ ((qualifying_hp_count rep > 0)%Z -> labour_high_part_flat inp > 0 ->
        labour_high_parts_cost (prices rep)
        = IZR (qualifying_hp_count rep) * labour_high_part_flat inp)
    /\ (labour_high_part_flat inp <= 0 ->
        labour_high_parts_cost (prices rep)
        = qualifying_hp_area_ft2 rep * labour_high_part_rate_sqft inp)
    /\ (qualifying_hp_count rep = 0%Z -> labour_high_parts_cost (prices rep) = 0)
    /\ labour_subtotal (prices rep)
       = labour_area_cost (prices rep) + labour_high_parts_cost (prices rep).
Proof.
  intro Hne.
  destruct (run_drywall_estimator_report inp Hne) as [t [_ Hrun]].
  eexists. split; [exact Hrun |].
  cbn [qualifying_hp_count qualifying_hp_area_ft2 prices pricing
       labour_high_parts_cost labour_subtotal labour_area_cost].
  unfold high_parts_labour.
  split; [| split; [| split; [| reflexivity]]].
  - intros Hc Hf. apply Z.gtb_gt in Hc. rewrite Hc, (gt_true _ _ Hf). reflexivity.
  - intro Hf. rewrite (gt_false _ _ Hf), andb_false_r. reflexivity.
  - intro Hc. rewrite Hc. cbn [Z.gtb Z.compare andb].
    destruct (high_parts_loop_bounds (high_parts inp)) as [_ [_ H0]].
    rewrite (H0 Hc). lra.
Qed.

End DrywallPricing.

Section DrywallTotals.

Import Drywall.

Lemma high_parts_labour_cases_witness :
  rooms sample_drywall <> []
  /\ exists rep,
       run_drywall_estimator sample_drywall = Ok (Some rep)
       /\ labour_subtotal (prices rep)
          = labour_area_cost (prices rep) + labour_high_parts_cost (prices rep).
Proof.
  assert (Hne : rooms sample_drywall <> []) by discriminate.
  split; [exact Hne |].
  destruct (high_parts_labour_cases sample_drywall Hne)
    as [rep [Hrun [_ [_ [_ Hsub]]]]].
  exists rep. split; [exact Hrun | exact Hsub].
Defined.

Lemma material_subtotal_eq (inp : Inputs) (t : Takeoff) (tw qa : R) (qc : Z) :
  material_subtotal (pricing inp t tw qa qc)
  = IZR (sheets t) * cost_per_sheet inp
    + IZR (mud_pails t) * cost_mud_pail inp
    + IZR (tape_rolls t) * cost_tape_roll inp
    + IZR (screws_boxes t) * cost_screws_box inp
    + IZR (corner_bead_pcs t) * cost_corner_bead_piece inp
    + IZR (pot_light_count inp) * pot_light_cost inp.
Proof.
  cbn [pricing material_subtotal map snd]. rewrite !sum_cons, sum_nil. lra.
Qed.

(** X10: the material subtotal is the six products sheets x sheet cost +
    pails x pail cost + rolls x roll cost + boxes x box cost + pieces x piece
    cost + pot lights x cost per light, with no resilient-channel term; the
    subtotal adds the labour subtotal, the cash price is the subtotal, and
    the total with tax is the subtotal x (1 + max(tax, 0) / 100), so a tax
    percentage of 0 or below adds nothing. *)
Theorem drywall_totals_closed_form (inp : Inputs) :
  rooms inp <> [] ->
  exists rep,
    run_drywall_estimator inp = Ok (Some rep)
    /\ material_subtotal (prices rep)
       = IZR (sheets (takeoff rep)) * cost_per_sheet inp
         + IZR (mud_pails (takeoff rep)) * cost_mud_pail inp
         + IZR (tape_rolls (takeoff rep)) * cost_tape_roll inp
         + IZR (screws_boxes (takeoff rep)) * cost_screws_box inp
         + IZR (corner_bead_pcs (takeoff rep)) * cost_corner_bead_piece inp
         + IZR (pot_light_count inp) * pot_light_cost inp
    /\ subtotal_no_tax (prices rep)
       = material_subtotal (prices rep) + labour_subtotal (prices rep)
    /\ cash_price (prices rep) = subtotal_no_tax (prices rep)
    /\ total_with_tax (prices rep)
       = subtotal_no_tax (prices rep) * (1 + Rmax (tax_pct inp) 0 / 100).
Proof.
  intro Hne.
  destruct (run_drywall_estimator_report inp Hne) as [t [_ Hrun]].
  eexists. split; [exact Hrun |].
  cbn [prices takeoff].
  split; [apply material_subtotal_eq |].
  cbn [pricing subtotal_no_tax material_subtotal labour_subtotal cash_price
       total_with_tax].
  split; [reflexivity |]. split; [reflexivity |].
  unfold Py.gt, Rmax.
  destruct (Rgt_dec (tax_pct inp) 0), (Rle_dec (tax_pct inp) 0); lra.
Qed.

Lemma drywall_totals_closed_form_witness :
  rooms sample_drywall <> []
  /\ exists rep,
       run_drywall_estimator sample_drywall = Ok (Some rep)
       /\ total_with_tax (prices rep) = subtotal_no_tax (prices rep) * 1.13.
Proof.
  assert (Hne : rooms sample_drywall <> []) by discriminate.
  split; [exact Hne |].
  destruct (drywall_totals_closed_form sample_drywall Hne)
    as [rep [Hrun [_ [_ [_ Htax]]]]].
  exists rep. split; [exact Hrun |].
  rewrite Htax. simpl. rewrite Rmax_left by lra. lra.
Defined.

Lemma pricing_subtotal_nonneg_sample (t : Takeoff) :
  (0 <= sheets t)%Z -> (0 <= mud_pails t)%Z -> (0 <= tape_rolls t)%Z ->
  (0 <= screws_boxes t)%Z -> (0 <= corner_bead_pcs t)%Z ->
  0 <= subtotal_no_tax (pricing sample_drywall t 525 70 1).
Proof.
  intros H1 H2 H3 H4 H5.
  apply IZR_le in H1, H2, H3, H4, H5.
  change (subtotal_no_tax (pricing sample_drywall t 525 70 1))
    with (material_subtotal (pricing sample_drywall t 525 70 1)
          + (area_labour sample_drywall (525 + 70) ((525 + 70) * FT2_TO_M2)
             + high_parts_labour sample_drywall 70 1)).
  rewrite material_subtotal_eq.
  unfold area_labour, high_parts_labour.
  cbn [sample_drywall cost_per_sheet cost_mud_pail cost_tape_roll
       cost_screws_box cost_corner_bead_piece pot_light_count pot_light_cost
       labour_rate_sqft labour_rate_sqm labour_high_part_flat
       labour_high_part_rate_sqft].
  rewrite (gt_true 2 0) by lra. rewrite (gt_false 0 0) by lra.
  rewrite andb_false_r. lra.
Qed.

(** X28: between two price computations with the same non-negative
    subtotal, the one with the higher tax percentage has the higher (or
    equal) total with tax, and both are at least the subtotal. *)
Theorem total_with_tax_monotone (a b : Inputs) (ta tb : Takeoff)
  (twa twb qaa qab : R) (qca qcb : Z) :
  subtotal_no_tax (pricing a ta twa qaa qca) = subtotal_no_tax (pricing b tb twb qab qcb) ->
  0 <= subtotal_no_tax (pricing a ta twa qaa qca) ->
  tax_pct a <= tax_pct b ->
  subtotal_no_tax (pricing a ta twa qaa qca) <= total_with_tax (pricing a ta twa qaa qca)
  /\ total_with_tax (pricing a ta twa qaa qca) <= total_with_tax (pricing b tb twb qab qcb).
Proof.
  intros Heq H0 Htax.
  assert (Ha : total_with_tax (pricing a ta twa qaa qca)
               = subtotal_no_tax (pricing a ta twa qaa qca)
                 * (1 + Rmax (tax_pct a) 0 / 100)).
  { cbn [pricing total_with_tax subtotal_no_tax]. unfold Py.gt, Rmax.
    destruct (Rgt_dec (tax_pct a) 0), (Rle_dec (tax_pct a) 0); lra. }
  assert (Hb : total_with_tax (pricing b tb twb qab qcb)
               = subtotal_no_tax (pricing b tb twb qab qcb)
                 * (1 + Rmax (tax_pct b) 0 / 100)).
  { cbn [pricing total_with_tax subtotal_no_tax]. unfold Py.gt, Rmax.
    destruct (Rgt_dec (tax_pct b) 0), (Rle_dec (tax_pct b) 0); lra. }
  rewrite Ha, Hb, <- Heq.
  set (s := subtotal_no_tax (pricing a ta twa qaa qca)) in *.
  assert (Hmax : 0 <= Rmax (tax_pct a) 0 <= Rmax (tax_pct b) 0).
  { split; [apply Rmax_r |]. apply Rle_max_compat_r. exact Htax. }
  assert (0 <= s * (Rmax (tax_pct a) 0 / 100)) by (apply Rmult_le_pos; lra).
  split; [lra |].
  apply Rmult_le_compat_l; lra.
Qed.

Lemma total_with_tax_monotone_witness :
  tax_pct sample_drywall_tax5 <= tax_pct sample_drywall
  /\ total_with_tax (pricing sample_drywall_tax5 (mkTakeoff 17 4.9875 2 1 657 1 26.25 4 0 0)
                       525 70 1)
     <= total_with_tax (pricing sample_drywall (mkTakeoff 17 4.9875 2 1 657 1 26.25 4 0 0)
                          525 70 1).
Proof.
  assert (Htax : tax_pct sample_drywall_tax5 <= tax_pct sample_drywall) by (simpl; lra).
  split; [exact Htax |].
  apply (total_with_tax_monotone sample_drywall_tax5 sample_drywall).
  - reflexivity.
  - change (subtotal_no_tax (pricing sample_drywall_tax5
                               (mkTakeoff 17 4.9875 2 1 657 1 26.25 4 0 0) 525 70 1))
      with (subtotal_no_tax (pricing sample_drywall
                               (mkTakeoff 17 4.9875 2 1 657 1 26.25 4 0 0) 525 70 1)).
    apply pricing_subtotal_nonneg_sample; simpl; lia.
  - exact Htax.
Defined.

Lemma rows_of_nonneg (inp : Inputs) :
  nonneg_inputs inp ->
  Forall (fun r => 0 <= total_area_ft2 r /\ total_area_ft2 r <= total_with_waste_ft2 r)
         (rows_of inp).
Proof.
  intros [Hw H]. 
  assert (Hrooms : Forall nonneg_room (rooms inp)) by tauto.
  assert (Hwp : 0 <= waste_pct inp).
  { unfold waste_pct. destruct (include_waste inp); lra. }
  unfold rows_of. apply Forall_forall. intros x Hx.
  apply in_map_iff in Hx. destruct Hx as [r [<- Hr]].
  rewrite Forall_forall in Hrooms.
  now apply room_areas_nonneg; [apply Hrooms |].
Qed.

Lemma sum_map_le {A : Type} (f g : A -> R) (l : list A) :
  Forall (fun a => f a <= g a) l -> Py.sum (map f l) <= Py.sum (map g l).
Proof.
  induction 1 as [| a l Ha _ IH]; simpl.
  - rewrite sum_nil. lra.
  - rewrite !sum_cons. lra.
Qed.

Lemma guarded_ceil_nonneg (x rate : R) :
  0 <= x ->
  (0 <= (if Py.gt rate 0 then Py.ceil (x / rate) else 0%Z))%Z.
Proof.
  intro Hx. destruct (Py.gt rate 0) eqn:E; [| lia].
  apply gt_spec in E. apply ceil_nonneg.
  apply Rmult_le_pos; [lra |]. left. now apply Rinv_0_lt_compat.
Qed.

(** X11: with every input at or above the 0 minimum of its number input,
    and at least one room, the report's areas, quantities and money are all
    non-negative, the with-waste total is at least the plain total, and the
    total with tax is at least the cash price. *)
Theorem nonneg_inputs_nonneg_report (inp : Inputs) :
  nonneg_inputs inp ->
  rooms inp <> [] ->
  exists rep,
    run_drywall_estimator inp = Ok (Some rep)
    /\ 0 <= total_ft2 rep <= total_waste_ft2 rep
    /\ (0 <= sheets (takeoff rep))%Z
    /\ (0 <= mud_pails (takeoff rep))%Z
    /\ (0 <= tape_rolls (takeoff rep))%Z
    /\ (0 <= screws_qty (takeoff rep))%Z
    /\ (0 <= screws_boxes (takeoff rep))%Z
    /\ (0 <= corner_bead_pcs (takeoff rep))%Z
    /\ 0 <= material_subtotal (prices rep)
    /\ 0 <= labour_area_cost (prices rep)
    /\ 0 <= labour_high_parts_cost (prices rep)
    /\ 0 <= cash_price (prices rep) <= total_with_tax (prices rep).
Proof.
  intros Hnn Hne.
  pose proof (rows_of_nonneg inp Hnn) as Hrows.
  destruct Hnn as [Hwaste [Hmud [Hscr [Hcb [Hc1 [Hc2 [Hc3 [Hc4 [Hc5 [Hpot [Hpc
                  [Hl1 [Hl2 [Hf [Hr _]]]]]]]]]]]]]]].
  assert (Htot : 0 <= Py.sum (map total_area_ft2 (rows_of inp))).
  { apply sum_map_nonneg. eapply Forall_impl; [| exact Hrows]. simpl. tauto. }
  assert (Hle : Py.sum (map total_area_ft2 (rows_of inp)) <= total_waste_of inp).
  { unfold total_waste_of. apply sum_map_le.
    eapply Forall_impl; [| exact Hrows]. simpl. tauto. }
  assert (Htw : 0 <= total_waste_of inp) by lra.
  destruct (run_drywall_estimator_report inp Hne) as [t [Ht Hrun]].
  eexists. split; [exact Hrun |].
  cbn [total_ft2 total_waste_ft2 takeoff prices].
  destruct (material_takeoff_fields _ _ _ _ Ht)
    as [Hs [Hmg [Hmp [Htr [Hsq [Hsb [Hcl [Hcp _]]]]]]]].
  assert (Hmg0 : 0 <= mud_gal t).
  { rewrite Hmg. apply Rmult_le_pos; lra. }
  assert (Hcl0 : 0 <= corner_bead_lf t).
  { rewrite Hcl. apply Rmult_le_pos; lra. }
  assert (Q1 : (0 <= sheets t)%Z) by (rewrite Hs; now apply guarded_ceil_nonneg).
  assert (Q2 : (0 <= mud_pails t)%Z) by (rewrite Hmp; now apply guarded_ceil_nonneg).
  assert (Q3 : (0 <= tape_rolls t)%Z) by (rewrite Htr; now apply guarded_ceil_nonneg).
  assert (Q4 : (0 <= screws_qty t)%Z).
  { rewrite Hsq. apply ceil_nonneg. now apply Rmult_le_pos. }
  assert (Q5 : (0 <= screws_boxes t)%Z).
  { rewrite Hsb. destruct (screws_per_box inp >? 0)%Z eqn:E; [| lia].
    apply Z.gtb_gt in E. apply ceil_nonneg.
    apply Rmult_le_pos; [apply IZR_le; lia |].
    left. apply Rinv_0_lt_compat. apply IZR_lt. lia. }
  assert (Q6 : (0 <= corner_bead_pcs t)%Z)
    by (rewrite Hcp; now apply guarded_ceil_nonneg).
  assert (Hmat : 0 <= material_subtotal
                        (pricing inp t (total_waste_of inp)
                           (fst (high_parts_loop (high_parts inp)))
                           (snd (high_parts_loop (high_parts inp))))).
  { rewrite material_subtotal_eq.
    repeat apply Rplus_le_le_0_compat; apply Rmult_le_pos;
      try assumption; apply IZR_le; assumption. }
  destruct (high_parts_loop_bounds (high_parts inp)) as [[Hc0 _] [Ha64 _]].
  assert (Hqc : 0 <= IZR (snd (high_parts_loop (high_parts inp)))) by (apply IZR_le; lia).
  assert (Hqa : 0 <= fst (high_parts_loop (high_parts inp))) by lra.
  assert (Hla : 0 <= labour_area_cost
                       (pricing inp t (total_waste_of inp)
                          (fst (high_parts_loop (high_parts inp)))
                          (snd (high_parts_loop (high_parts inp))))).
  { cbn [pricing labour_area_cost]. unfold area_labour, FT2_TO_M2.
    destruct (Py.gt (labour_rate_sqft inp) 0); [apply Rmult_le_pos; lra |].
    destruct (Py.gt (labour_rate_sqm inp) 0); [| lra].
    apply Rmult_le_pos; [| lra]. apply Rmult_le_pos; lra. }
  assert (Hlh : 0 <= labour_high_parts_cost
                       (pricing inp t (total_waste_of inp)
                          (fst (high_parts_loop (high_parts inp)))
                          (snd (high_parts_loop (high_parts inp))))).
  { cbn [pricing labour_high_parts_cost]. unfold high_parts_labour.
    destruct (_ && _); apply Rmult_le_pos; lra. }
  repeat split; try assumption; try lra.
  - cbn [pricing cash_price material_subtotal labour_area_cost
         labour_high_parts_cost] in *. lra.
  - cbn [pricing cash_price total_with_tax material_subtotal labour_area_cost
         labour_high_parts_cost] in *.
    destruct (Py.gt (tax_pct inp) 0) eqn:E; [| lra].
    apply gt_spec in E.
    match goal with
    | |- ?s <= ?s * _ =>
        assert (Hs0 : 0 <= s) by lra;
        assert (0 <= s * (tax_pct inp / 100)) by (apply Rmult_le_pos; lra)
    end.
    lra.
Qed.

Lemma nonneg_inputs_nonneg_report_witness :
  nonneg_inputs sample_drywall
  /\ exists rep,
       run_drywall_estimator sample_drywall = Ok (Some rep)
       /\ 0 <= cash_price (prices rep) <= total_with_tax (prices rep).
Proof.
  assert (Hnn : nonneg_inputs sample_drywall).
  { unfold nonneg_inputs. simpl.
    repeat split; try lra; try lia.
    constructor; [| constructor].
    unfold nonneg_room, nonneg_openings. simpl.
    repeat split; try lra; constructor. }
  split; [exact Hnn |].
  assert (Hne : rooms sample_drywall <> []) by discriminate.
  destruct (nonneg_inputs_nonneg_report sample_drywall Hnn Hne)
    as [rep [Hrun [_ [_ [_ [_ [_ [_ [_ [_ [_ [_ Hcash]]]]]]]]]]]].
  exists rep. split; [exact Hrun | exact Hcash].
Defined.

(** X12: when every room is left at length 0 and width 0 (with openings of
    non-negative sides), the report shows zero area and a takeoff of zero
    sheets, pails, rolls, screws, boxes and pieces; the material subtotal is
    the pot-light cost alone. *)
Theorem untouched_rooms_empty_takeoff (inp : Inputs) :
  rooms inp <> [] ->
  Forall (fun r => Room.length r = 0 /\ Room.width r = 0
                   /\ nonneg_openings (Room.windows r)
                   /\ nonneg_openings (Room.doors r)) (rooms inp) ->
  exists rep,
    run_drywall_estimator inp = Ok (Some rep)
    /\ total_ft2 rep = 0
    /\ total_waste_ft2 rep = 0
    /\ sheets (takeoff rep) = 0%Z
    /\ mud_pails (takeoff rep) = 0%Z
    /\ tape_rolls (takeoff rep) = 0%Z
    /\ screws_qty (takeoff rep) = 0%Z
    /\ screws_boxes (takeoff rep) = 0%Z
    /\ corner_bead_pcs (takeoff rep) = 0%Z
    /\ material_subtotal (prices rep) = IZR (pot_light_count inp) * pot_light_cost inp.
Proof.
  intros Hne Hzero.
  assert (Hrows : Forall (fun r => total_area_ft2 r = 0 /\ total_with_waste_ft2 r = 0)
                         (rows_of inp)).
  { unfold rows_of. apply Forall_forall. intros x Hx.
    apply in_map_iff in Hx. destruct Hx as [r [<- Hr]].
    rewrite Forall_forall in Hzero.
    destruct (Hzero r Hr) as [El [Ew [Hw Hd]]].
    now apply room_areas_zero_sides. }
  assert (Htot : Py.sum (map total_area_ft2 (rows_of inp)) = 0).
  { apply sum_map_zero. eapply Forall_impl; [| exact Hrows]. simpl. tauto. }
  assert (Htw : total_waste_of inp = 0).
  { unfold total_waste_of. apply sum_map_zero.
    eapply Forall_impl; [| exact Hrows]. simpl. tauto. }
  destruct (run_drywall_estimator_report inp Hne) as [t [Ht Hrun]].
  eexists. split; [exact Hrun |].
  cbn [total_ft2 total_waste_ft2 takeoff prices].
  destruct (material_takeoff_fields _ _ _ _ Ht)
    as [Hs [Hmg [Hmp [Htr [Hsq [Hsb [Hcl [Hcp _]]]]]]]].
  rewrite Htw in *.
  assert (Z0 : forall rate, (if Py.gt rate 0 then Py.ceil (0 / rate) else 0%Z) = 0%Z).
  { intro rate. destruct (Py.gt rate 0); [| reflexivity].
    replace (0 / rate) with 0 by (unfold Rdiv; lra). apply ceil_zero. }
  assert (Hmg0 : mud_gal t = 0) by (rewrite Hmg; unfold Rdiv; lra).
  assert (Hcl0 : corner_bead_lf t = 0) by (rewrite Hcl; unfold Rdiv; lra).
  rewrite Hmg0 in Hmp. rewrite Hcl0 in Hcp.
  rewrite Z0 in Hs, Hmp, Htr, Hcp.
  assert (Hq : screws_qty t = 0%Z).
  { rewrite Hsq. rewrite Rmult_0_l. apply ceil_zero. }
  assert (Hb : screws_boxes t = 0%Z).
  { rewrite Hsb, Hq. destruct (screws_per_box inp >? 0)%Z; [| reflexivity].
    replace (0 / IZR (screws_per_box inp)) with 0 by (unfold Rdiv; lra).
    apply ceil_zero. }
  repeat split; try assumption; try reflexivity.
  rewrite material_subtotal_eq, Hs, Hmp, Htr, Hb, Hcp. lra.
Qed.

Lemma untouched_rooms_empty_takeoff_witness :
  rooms blank_drywall <> []
  /\ exists rep,
       run_drywall_estimator blank_drywall = Ok (Some rep)
       /\ sheets (takeoff rep) = 0%Z
       /\ material_subtotal (prices rep) = 75.
Proof.
  assert (Hne : rooms blank_drywall <> []) by discriminate.
  split; [exact Hne |].
  assert (Hz : Forall (fun r => Room.length r = 0 /\ Room.width r = 0
                                /\ nonneg_openings (Room.windows r)
                                /\ nonneg_openings (Room.doors r))
                      (rooms blank_drywall)).
  { simpl. repeat constructor. }
  destruct (untouched_rooms_empty_takeoff blank_drywall Hne Hz)
    as [rep [Hrun [_ [_ [Hs [_ [_ [_ [_ [_ Hm]]]]]]]]]].
  exists rep. split; [exact Hrun |]. split; [exact Hs |].
  rewrite Hm. simpl. lra.
Defined.

End DrywallTotals.

(** ** Drywall: the door select box *)

Section DoorChoices.

Import Doors.

(** X13: every label the door select box offers resolves to a pair of
    dimensions, never to a missing value: "Custom" gives the two custom
    inches divided by 12, and each preset gives its own width, between 2 and
    3 ft, with the height 80 / 12 ft; so doors entered through the form have
    non-negative sides.  A label outside the list finds no preset. *)
Theorem door_choices_resolve (label : string) (d_w_in d_h_in : R) :
  0 <= d_w_in ->
  0 <= d_h_in ->
  (In label choice_labels ->
   exists w h,
     door_size label d_w_in d_h_in = Some (Some w, Some h)
     /\ 0 <= w /\ 0 <= h
     /\ (label = "Custom"%string -> w = d_w_in / 12 /\ h = d_h_in / 12)
     /\ (label <> "Custom"%string -> 2 <= w <= 3 /\ h = 80 / 12))
  /\ (~ In label choice_labels -> door_size label d_w_in d_h_in = None).
Proof.
  intros Hw Hh. split.
  - intro Hin. cbn in Hin.
    destruct Hin as [<- | [<- | [<- | [<- | [<- | [<- | []]]]]]];
      cbn; eexists; eexists; (split; [reflexivity |]);
      repeat split; try lra; try discriminate; congruence.
  - intro Hn. unfold door_size.
    destruct (String.eqb_spec label "Custom") as [-> | Hc].
    + elim Hn. cbn. tauto.
    + cbn [DOOR_PRESETS next_preset fst].
      repeat match goal with
             | |- context [String.eqb ?s label] =>
                 destruct (String.eqb_spec s label) as [<- | _];
                 [elim Hn; cbn; tauto |]
             end.
      reflexivity.
Qed.

Lemma door_choices_resolve_witness :
  0 <= 30 /\ 0 <= 84
  /\ door_size "Custom" 30 84 = Some (Some (30 / 12), Some (84 / 12))
  /\ door_size "40 x 80 in" 30 84 = None.
Proof.
  assert (Hw : 0 <= 30) by lra.
  assert (Hh : 0 <= 84) by lra.
  split; [exact Hw |]. split; [exact Hh |].
  split; [reflexivity |].
  apply (proj2 (door_choices_resolve "40 x 80 in" 30 84 Hw Hh)).
  cbn. intros [H | [H | [H | [H | [H | [H | []]]]]]]; discriminate.
Defined.

End DoorChoices.

(** ** Insulation: the spec table, the select boxes and the run *)

Section InsulationLookup.

Import Insulation InsulationForm.

Lemma string_eqb_iff (a b : string) : String.eqb a b = true <-> a = b.
Proof. apply String.eqb_eq. Qed.

Lemma z_eqb_iff (a b : Z) : Z.eqb a b = true <-> a = b.
Proof. apply Z.eqb_eq. Qed.

Lemma width_options_values (r_value : string) (ws : list Z) :
  width_options r_value = Ok ws -> ws = [15; 23]%Z \/ ws = [16; 24]%Z.
Proof.
  unfold width_options. intro H.
  destruct (Py.getitem String.eqb MATERIAL_SPECS r_value) as [widths |] eqn:E;
    [| discriminate].
  cbn [Py.bind] in H. injection H as <-.
  apply (getitem_key _ _ _ _ string_eqb_iff) in E.
  cbn in E.
  destruct E as [E | [E | [E | [E | [E | [E | [E | []]]]]]]];
    injection E as _ <-; cbn; tauto.
Qed.

(** X14: a spec lookup succeeds exactly on the pairs the two select boxes
    can produce: an R-value among the seven keys of the table and a width
    among the widths listed for that R-value, which are 15 and 23 or 16 and
    24.  Any other R-value and any other width raises KeyError. *)
Theorem spec_lookup_matches_select_boxes (r_value : string) (width : Z) :
  (forall ws, In r_value r_value_options -> width_options r_value = Ok ws ->
     In width ws -> exists sp, lookup_spec r_value width = Ok sp)
  /\ (forall sp, lookup_spec r_value width = Ok sp ->
        In r_value r_value_options
        /\ exists ws, width_options r_value = Ok ws /\ In width ws)
  /\ (In r_value r_value_options ->
        exists ws, width_options r_value = Ok ws
                   /\ (ws = [15; 23]%Z \/ ws = [16; 24]%Z))
  /\ (~ In r_value r_value_options ->
        width_options r_value = Raise KeyError
        /\ lookup_spec r_value width = Raise KeyError)
  /\ (forall ws, width_options r_value = Ok ws -> ~ In width ws ->
        lookup_spec r_value width = Raise KeyError).
Proof.
  unfold r_value_options, width_options, lookup_spec.
  split; [| split; [| split; [| split]]].
  - intros ws _ Hws Hin.
    destruct (Py.getitem String.eqb MATERIAL_SPECS r_value) as [widths |] eqn:E;
      [| discriminate].
    cbn [Py.bind] in *. injection Hws as <-.
    destruct (getitem_found _ widths width z_eqb_iff Hin) as [sp [Hsp _]].
    exists sp. exact Hsp.
  - intros sp H.
    destruct (Py.getitem String.eqb MATERIAL_SPECS r_value) as [widths |] eqn:E;
      [| discriminate].
    cbn [Py.bind] in *.
    apply (getitem_key _ _ _ _ string_eqb_iff) in E.
    apply (getitem_key _ _ _ _ z_eqb_iff) in H.
    split.
    + apply in_map_iff. exists (r_value, widths). split; [reflexivity | exact E].
    + exists (map fst widths). split; [reflexivity |].
      apply in_map_iff. exists (width, sp). split; [reflexivity | exact H].
  - intro Hin.
    destruct (getitem_found _ MATERIAL_SPECS r_value string_eqb_iff Hin)
      as [widths [Hw _]].
    exists (map fst widths). rewrite Hw. cbn [Py.bind].
    split; [reflexivity |].
    apply (width_options_values r_value). unfold width_options.
    rewrite Hw. reflexivity.
  - intro Hn.
    rewrite (getitem_missing _ MATERIAL_SPECS r_value string_eqb_iff Hn).
    split; reflexivity.
  - intros ws Hws Hn.
    destruct (Py.getitem String.eqb MATERIAL_SPECS r_value) as [widths |] eqn:E;
      [| discriminate].
    cbn [Py.bind] in *. injection Hws as <-.
    apply (getitem_missing _ widths width z_eqb_iff Hn).
Qed.

Lemma spec_lookup_matches_select_boxes_witness :
  lookup_spec "R28" 24 = Ok (mkSpec 80.0 10)
  /\ lookup_spec "R28" 15 = Raise KeyError
  /\ lookup_spec "R13" 15 = Raise KeyError.
Proof.
  split; [reflexivity |]. split.
  - apply (proj2 (proj2 (proj2 (proj2
             (spec_lookup_matches_select_boxes "R28" 15)))) [16; 24]%Z).
    + reflexivity.
    + cbn. intros [H | [H | []]]; discriminate.
  - apply (proj1 (proj2 (proj2 (proj2
             (spec_lookup_matches_select_boxes "R13" 15))))).
    cbn. intros [H | [H | [H | [H | [H | [H | [H | []]]]]]]]; discriminate.
Defined.

End InsulationLookup.

(** ** Insulation: bags, ceiling and batts *)


Section InsulationBags.

Import Insulation.








End InsulationBags.

Section InsulationWitnesses.

Import Insulation.



End InsulationWitnesses.

(** ** Insulation: the cathedral slope area *)

Section CathedralArea.

Import Insulation.

Lemma spec_slope_area_flat (s : R * R * R) :
  0 <= fst (fst s) -> 0 <= snd (fst s) ->
  snd (fst s) * fst (fst s) <= spec_slope_area s
  /\ (snd s = 0 -> spec_slope_area s = snd (fst s) * fst (fst s)).
Proof.
  destruct s as [[len bw] rise]. cbn [fst snd]. intros Hl Hb.
  unfold spec_slope_area. cbn [fst snd].
  assert (Hsq : R_sqrt.sqrt ((bw / 2) ^ 2) = bw / 2).
  { replace ((bw / 2) ^ 2) with (bw / 2 * (bw / 2)) by ring.
    apply sqrt_square. lra. }
  split.
  - assert (Hle : bw / 2 <= R_sqrt.sqrt ((bw / 2) ^ 2 + rise ^ 2)).
    { rewrite <- Hsq at 1. apply sqrt_le_1_alt.
      pose proof (pow2_ge_0 rise). lra. }
    assert (0 <= (R_sqrt.sqrt ((bw / 2) ^ 2 + rise ^ 2) - bw / 2) * len).
    { apply Rmult_le_pos; lra. }
    lra.
  - intros ->. replace ((bw / 2) ^ 2 + 0 ^ 2) with ((bw / 2) ^ 2) by ring.
    rewrite Hsq. lra.
Qed.

(** X20: for sections of non-negative length and base width, the total
    cathedral area is at least the flat footprint, the sum of base width x
    length, and equals it when every rise is 0; it is never negative. *)
Theorem cathedral_area_at_least_footprint (sections : list (R * R * R)) :
  Forall (fun s => 0 <= fst (fst s) /\ 0 <= snd (fst s)) sections ->
  0 <= fold_right Rplus 0 (map (fun s => snd (fst s) * fst (fst s)) sections)
    <= cat_area_loop sections
  /\ (Forall (fun s => snd s = 0) sections ->
      cat_area_loop sections
      = fold_right Rplus 0 (map (fun s => snd (fst s) * fst (fst s)) sections)).
Proof.
  intro H. rewrite cat_area_loop_spec.
  induction H as [| s l [Hl Hb] _ [[IH0 IHle] IHeq]]; simpl.
  - split; [lra | reflexivity].
  - destruct (spec_slope_area_flat s Hl Hb) as [Hflat Hzero].
    assert (0 <= snd (fst s) * fst (fst s)) by now apply Rmult_le_pos.
    split; [lra |].
    intro Hr. inversion Hr as [| ? ? Hs Hrest]; subst.
    rewrite (Hzero Hs), (IHeq Hrest). reflexivity.
Qed.

Lemma cathedral_area_at_least_footprint_witness :
  Forall (fun s : R * R * R => 0 <= fst (fst s) /\ 0 <= snd (fst s)) [(10, 8, 0)]
  /\ cat_area_loop [(10, 8, 0)] = 80.
Proof.
  assert (H : Forall (fun s : R * R * R => 0 <= fst (fst s) /\ 0 <= snd (fst s))
                     [(10, 8, 0)]).
  { repeat constructor; simpl; lra. }
  split; [exact H |].
  rewrite (proj2 (cathedral_area_at_least_footprint [(10, 8, 0)] H)).
  - simpl. lra.
  - repeat constructor.
Defined.

End CathedralArea.

(** ** Insulation: totals, chart and diagrams *)

Section InsulationOutput.

Import Insulation Output.

(** The money fields of a returned report. *)
Lemma estimate_money_fields (inp : Inputs) (wp cp : MaterialSpec) (rep : Report) :
  estimate inp wp cp = Ok rep ->
  mat_total rep = wall_cost rep + cat_cost rep + ceiling_mat_cost rep
  /\ lab_total rep = wall_lab rep + area_lab rep + ceil_lab rep + cat_surch rep
  /\ total_tax rep = (mat_total rep + lab_total rep) * 1.05
  /\ total_buf rep = total_tax rep * 1.10.
Proof.
  unfold estimate.
  rewrite !ceil_div_guarded_eq, ceil_div_truthy_eq, batt_count_eq, cat_batts_eq.
  cbn [Py.bind]. intro H. injection H as <-.
  repeat split; reflexivity.
Qed.

(** X22: with matplotlib present the cost chart has one bar per entry of
    the cost dict, labelled in the dict's order, and the seven bars of an
    estimate add up to the material total plus the labour total, whose
    product with 1.05 is the total with tax; without matplotlib only a notice
    is shown. *)
Theorem cost_chart_bars_add_up (inp : Inputs) (wp cp : MaterialSpec) (rep : Report) :
  estimate inp wp cp = Ok rep ->
  draw_cost_breakdown_chart true (cost_breakdown rep)
  = BarChart
      ["Wall Mat"; "Cat Mat"; "Ceil Mat"; "Wall Labour"; "Area Labour";
       "Ceil Labour"; "Cat Surcharge"]%string
      [wall_cost rep; cat_cost rep; ceiling_mat_cost rep; wall_lab rep;
       area_lab rep; ceil_lab rep; cat_surch rep]
  /\ fold_right Rplus 0 (map snd (cost_breakdown rep)) = mat_total rep + lab_total rep
  /\ total_tax rep = fold_right Rplus 0 (map snd (cost_breakdown rep)) * 1.05
  /\ (forall costs,
        exists labels values,
          draw_cost_breakdown_chart true costs = BarChart labels values
          /\ combine labels values = costs)
  /\ (forall costs, exists msg, draw_cost_breakdown_chart false costs = Info msg).
Proof.
  intro Hrep.
  destruct (estimate_money_fields inp wp cp rep Hrep) as [Hm [Hl [Ht _]]].
  split; [reflexivity |].
  assert (Hsum : fold_right Rplus 0 (map snd (cost_breakdown rep))
                 = mat_total rep + lab_total rep).
  { cbn [cost_breakdown map snd fold_right]. rewrite Hm, Hl. lra. }
  split; [exact Hsum |]. split; [rewrite Hsum; exact Ht |].
  split.
  - intro costs. exists (map fst costs), (map snd costs).
    split; [reflexivity |].
    induction costs as [| [k v] costs IH]; simpl; [reflexivity | now rewrite IH].
  - intro costs. eexists. reflexivity.
Qed.

Lemma cost_chart_bars_add_up_witness :
  exists rep,
    estimate sample_insulation sample_spec sample_spec = Ok rep
    /\ fold_right Rplus 0 (map snd (cost_breakdown rep)) = mat_total rep + lab_total rep.
Proof.
  destruct (estimate_total sample_insulation sample_spec sample_spec) as [rep Hrep].
  exists rep. split; [exact Hrep |].
  exact (proj1 (proj2 (cost_chart_bars_add_up _ _ _ rep Hrep))).
Defined.

(** X23: with matplotlib present the diagram of a section of non-negative
    base width and rise is the triangle (0, 0), (base width / 2, rise),
    (base width, 0); both axes start at 0 and end at the base width and the
    rise, or at 0.1 when those are smaller, so the axes never collapse and
    the whole triangle is in view.  One diagram is drawn per section. *)
Theorem cathedral_diagram_in_view (base_width rise : R) :
  0 <= base_width ->
  0 <= rise ->
  exists xmax ymax,
    draw_cathedral_diagram true base_width rise
    = LinePlot [0; base_width / 2; base_width] [0; rise; 0] (0, xmax) (0, ymax)
    /\ xmax = Rmax base_width 0.1
    /\ ymax = Rmax rise 0.1
    /\ 0.1 <= xmax /\ 0.1 <= ymax
    /\ Forall (fun x => 0 <= x <= xmax) [0; base_width / 2; base_width]
    /\ Forall (fun y => 0 <= y <= ymax) [0; rise; 0]
    /\ (forall sections, List.length (diagrams true sections) = List.length sections).
Proof.
  intros Hb Hr.
  exists (Py.max base_width 0.1), (Py.max rise 0.1).
  split; [reflexivity |].
  rewrite !max_is_Rmax.
  pose proof (Rmax_l base_width 0.1) as X1. pose proof (Rmax_r base_width 0.1) as X2.
  pose proof (Rmax_l rise 0.1) as Y1. pose proof (Rmax_r rise 0.1) as Y2.
  repeat split; try lra.
  - repeat apply Forall_cons; try apply Forall_nil; lra.
  - repeat apply Forall_cons; try apply Forall_nil; lra.
  - intro sections. unfold diagrams. apply length_map.
Qed.

Lemma cathedral_diagram_in_view_witness :
  0 <= 0 /\
  draw_cathedral_diagram true 0 0 = LinePlot [0; 0 / 2; 0] [0; 0; 0] (0, 0.1) (0, 0.1).
Proof.
  assert (H0 : 0 <= 0) by lra.
  split; [exact H0 |].
  destruct (cathedral_diagram_in_view 0 0 H0 H0)
    as [xmax [ymax [Hd [Hx [Hy _]]]]].
  rewrite Hd, Hx, Hy. rewrite !Rmax_right by lra. reflexivity.
Defined.



End InsulationOutput.

(** ** Insulation: the PDF export *)

Section PdfExport.

Import Pdf.

Variable char : Type.

Lemma drawn_app (a b : list (CanvasOp char)) : drawn (a ++ b) = drawn a ++ drawn b.
Proof.
  induction a as [| o a IH]; simpl; [reflexivity |].
  destruct o; simpl; now rewrite IH.
Qed.

Lemma page_breaks_app (a b : list (CanvasOp char)) :
  page_breaks (a ++ b) = (page_breaks a + page_breaks b)%nat.
Proof.
  induction a as [| o a IH]; simpl; [reflexivity |].
  destruct o; simpl; now rewrite IH.
Qed.

(** One step draws its line at the running [y] and leaves [y] in range. *)
Lemma line_step_spec (height : R) (y : R) (ops : list (CanvasOp char)) (line : list char) :
  exists y' tail,
    line_step height (y, ops) line
    = (y', ops ++ DrawString 50 y (firstn 95 line) :: tail)
    /\ drawn tail = []
    /\ ((50 <= y - 20 /\ y' = y - 20 /\ tail = [])
        \/ (y - 20 < 50 /\ y' = height - 50 /\ page_breaks tail = 1%nat)).
Proof.
  unfold line_step. cbn [fst snd].
  destruct (Rlt_dec (y - 20) 50) as [Hlt | Hge].
  - exists (height - 50), [ShowPage; SetFont "Helvetica" 12].
    rewrite <- app_assoc. split; [reflexivity |]. split; [reflexivity |].
    right. repeat split. exact Hlt.
  - exists (y - 20), []. split; [reflexivity |]. split; [reflexivity |].
    left. repeat split. lra.
Qed.

(** The loop: which strings it draws and where, from a [y] inside the
    margins. *)
Lemma pdf_loop_draws (height : R) (lines : list (list char)) :
  100 <= height ->
  forall y ops,
    50 <= y <= height - 50 ->
    exists y' new,
      fold_left (line_step height) lines (y, ops) = (y', ops ++ new)
      /\ 50 <= y' <= height - 50
      /\ map snd (drawn new) = map (firstn 95) lines
      /\ Forall (fun d => 50 <= fst d <= height - 50) (drawn new).
Proof.
  intro Hh. induction lines as [| line lines IH]; intros y ops Hy; simpl.
  - exists y, []. rewrite app_nil_r. repeat split; try lra. constructor.
  - destruct (line_step_spec height y ops line) as [y1 [tail [E [Hd Hcase]]]].
    change (line_step height (y, ops) line) with (line_step height (y, ops) line).
    rewrite E.
    assert (Hy1 : 50 <= y1 <= height - 50).
    { destruct Hcase as [[H1 [-> _]] | [_ [-> _]]]; lra. }
    destruct (IH y1 (ops ++ DrawString 50 y (firstn 95 line) :: tail) Hy1)
      as [y' [new [E' [Hy' [Htexts Hpos]]]]].
    exists y', (DrawString 50 y (firstn 95 line) :: tail ++ new).
    rewrite E'. rewrite <- app_assoc. cbn [app].
    split; [reflexivity |]. split; [exact Hy' |].
    cbn [drawn]. rewrite drawn_app, Hd. cbn [app map snd fst].
    split; [now rewrite Htexts |].
    constructor; [cbn [fst]; lra | exact Hpos].
Qed.

(** The loop makes no page break exactly when all lines fit above the
    bottom margin. *)
Lemma pdf_loop_fits (height : R) (lines : list (list char)) :
  forall y ops,
    50 <= y - 20 * INR (List.length lines) ->
    exists new,
      fold_left (line_step height) lines (y, ops)
      = (y - 20 * INR (List.length lines), ops ++ new)
      /\ page_breaks new = 0%nat.
Proof.
  induction lines as [| line lines IH]; intros y ops Hfit.
  - exists []. simpl. rewrite app_nil_r. split; [f_equal; lra | reflexivity].
  - cbn [List.length] in Hfit. rewrite S_INR in Hfit.
    pose proof (pos_INR (List.length lines)) as Hn.
    cbn [fold_left].
    destruct (line_step_spec height y ops line) as [y1 [tail [E [_ Hcase]]]].
    rewrite E.
    destruct Hcase as [[_ [-> ->]] | [Hlt _]]; [| lra].
    destruct (IH (y - 20) (ops ++ [DrawString 50 y (firstn 95 line)])) as [new [E' Hb]];
      [lra |].
    exists (DrawString 50 y (firstn 95 line) :: new).
    rewrite E', <- app_assoc. cbn [app List.length]. rewrite S_INR.
    split; [f_equal; lra | exact Hb].
Qed.

Lemma pdf_loop_breaks_monotone (height : R) (lines : list (list char)) :
  forall y ops,
    (page_breaks ops <= page_breaks (snd (fold_left (line_step height) lines (y, ops))))%nat.
Proof.
  induction lines as [| line lines IH]; intros y ops; cbn [fold_left].
  - cbn [snd]. lia.
  - destruct (line_step_spec height y ops line) as [y1 [tail [E _]]].
    rewrite E.
    specialize (IH y1 (ops ++ DrawString 50 y (firstn 95 line) :: tail)).
    rewrite page_breaks_app in IH. lia.
Qed.

Lemma pdf_loop_overflows (height : R) (lines : list (list char)) :
  forall y ops,
    y - 20 * INR (List.length lines) < 50 ->
    50 <= y ->
    (page_breaks ops < page_breaks (snd (fold_left (line_step height) lines (y, ops))))%nat.
Proof.
  induction lines as [| line lines IH]; intros y ops Hover Hy.
  - simpl in Hover. lra.
  - cbn [List.length] in Hover. rewrite S_INR in Hover.
    cbn [fold_left].
    destruct (line_step_spec height y ops line) as [y1 [tail [E [_ Hcase]]]].
    rewrite E.
    destruct Hcase as [[Hge [-> ->]] | [Hlt [_ Hb]]].
    + specialize (IH (y - 20) (ops ++ [DrawString 50 y (firstn 95 line)])).
      rewrite page_breaks_app in IH. cbn [page_breaks] in IH.
      assert (H : y - 20 - 20 * INR (List.length lines) < 50) by lra.
      specialize (IH H Hge). lia.
    + pose proof (pdf_loop_breaks_monotone height lines y1
                    (ops ++ DrawString 50 y (firstn 95 line) :: tail)) as Hm.
      rewrite page_breaks_app in Hm. cbn [page_breaks] in Hm. lia.
Qed.

(** X25: the export happens only with reportlab present; it then draws
    the title and every line of the summary, in order, none skipped at a
    page break, each cut to its first 95 characters (a line of at most 95
    characters is drawn whole), and ends by saving the canvas. *)
Theorem pdf_draws_every_line (rl_canvas : bool) (letter : option (R * R))
  (title : list char) (lines : list (list char)) :
  (rl_canvas = false \/ letter = None ->
   export_pdf rl_canvas letter title lines = None)
  /\ (forall width height,
        rl_canvas = true -> letter = Some (width, height) ->
        exists ops,
          export_pdf rl_canvas letter title lines = Some (ops ++ [Save])
          /\ map snd (drawn ops) = title :: map (firstn 95) lines
          /\ Forall (fun d => (List.length (snd d) <= 95)%nat) (tl (drawn ops))
          /\ Forall2 (fun line d =>
                        ((List.length line <= 95)%nat -> snd d = line)
                        /\ exists rest, line = snd d ++ rest)
                     lines (tl (drawn ops))).
Proof.
  split.
  - intros [-> | ->]; [reflexivity |]. destruct rl_canvas; reflexivity.
  - intros width height -> ->. cbn [export_pdf].
    set (ops0 := [SetFont "Helvetica-Bold" 16; DrawString 50 (height - 50) title]
                 ++ [SetFont "Helvetica" 12]).
    assert (Hloop : forall (ls : list (list char)) (y : R) (ops : list (CanvasOp char)),
               exists y' new,
                 fold_left (line_step height) ls (y, ops) = (y', ops ++ new)
                 /\ map snd (drawn new) = map (firstn 95) ls).
    { induction ls as [| l ls IH]; intros y ops; cbn [fold_left].
      - exists y, []. now rewrite app_nil_r.
      - destruct (line_step_spec height y ops l) as [y1 [tail [E [Hd _]]]].
        rewrite E.
        destruct (IH y1 (ops ++ DrawString 50 y (firstn 95 l) :: tail))
          as [y' [new [E' Ht]]].
        exists y', (DrawString 50 y (firstn 95 l) :: tail ++ new).
        rewrite E', <- app_assoc. cbn [app]. split; [reflexivity |].
        cbn [drawn]. rewrite drawn_app, Hd. cbn [app map snd]. now rewrite Ht. }
    destruct (Hloop lines (height - 50 - 30) ops0) as [y' [new [E Htexts]]].
    rewrite E. cbn [snd].
    exists (ops0 ++ new). split; [reflexivity |].
    rewrite drawn_app. unfold ops0. cbn [app drawn map snd tl].
    split; [now rewrite Htexts |].
    assert (Hfirst : forall (l : list char),
               ((List.length l <= 95)%nat -> firstn 95 l = l)
               /\ exists rest, l = firstn 95 l ++ rest).
    { intro l. split.
      - intro Hl. now apply firstn_all2.
      - exists (skipn 95 l). symmetry. apply firstn_skipn. }
    revert Htexts. generalize (drawn new) as ds. clear E Hloop.
    induction lines as [| l ls IH]; intros ds Hds.
    + destruct ds; [| discriminate]. split; constructor.
    + destruct ds as [| d ds]; [discriminate |].
      rewrite !map_cons in Hds.
      assert (Hd : snd d = firstn 95 l) by congruence.
      assert (Hrest : map snd ds = map (firstn 95) ls) by congruence.
      destruct (IH ds Hrest) as [IH1 IH2].
      split; constructor; try assumption.
      * rewrite Hd. apply firstn_le_length.
      * rewrite Hd. apply Hfirst.
Qed.

(** X26: on a page at least 130 units high, the title is drawn 50 below
    the top and every line of the summary at a height between the bottom
    margin 50 and the top margin, page height less 50; no line is drawn
    outside the margins, however many lines there are. *)
Theorem pdf_lines_inside_margins (width height : R) (title : list char)
  (lines : list (list char)) :
  130 <= height ->
  exists ops,
    export_pdf true (Some (width, height)) title lines = Some (ops ++ [Save])
    /\ hd_error (drawn ops) = Some (height - 50, title)
    /\ Forall (fun d => 50 <= fst d <= height - 50) (drawn ops).
Proof.
  intro Hh. cbn [export_pdf].
  set (ops0 := [SetFont "Helvetica-Bold" 16; DrawString 50 (height - 50) title]
               ++ [SetFont "Helvetica" 12]).
  destruct (pdf_loop_draws height lines) with (y := height - 50 - 30) (ops := ops0)
    as [y' [new [E [_ [_ Hpos]]]]]; [lra | lra |].
  rewrite E. cbn [snd].
  exists (ops0 ++ new). split; [reflexivity |].
  rewrite drawn_app. unfold ops0. cbn [app drawn hd_error].
  split; [reflexivity |].
  constructor; [cbn [fst]; lra | exact Hpos].
Qed.

(** X27: the export stays on one page exactly when 20 x the number of
    lines is at most the page height less 130: with one line more, a page
    break follows; on a page 792 high that is 33 lines, so the 20 lines of
    the summary never break the page. *)
Theorem pdf_single_page_iff (width height : R) (title : list char)
  (lines : list (list char)) :
  130 <= height ->
  exists ops,
    export_pdf true (Some (width, height)) title lines = Some ops
    /\ (page_breaks ops = 0%nat <-> 20 * INR (List.length lines) <= height - 130)
    /\ (height = 792 -> (List.length lines <= 33)%nat -> page_breaks ops = 0%nat).
Proof.
  intro Hh. cbn [export_pdf].
  set (ops0 := [SetFont "Helvetica-Bold" 16; DrawString 50 (height - 50) title]
               ++ [SetFont "Helvetica" 12]).
  eexists. split; [reflexivity |].
  rewrite page_breaks_app. cbn [page_breaks]. rewrite Nat.add_0_r.
  assert (Hiff : page_breaks (snd (fold_left (line_step height) lines
                                     (height - 50 - 30, ops0))) = 0%nat
                 <-> 20 * INR (List.length lines) <= height - 130).
  { split.
    - intro H0.
      destruct (Rle_dec (20 * INR (List.length lines)) (height - 130)) as [Hle | Hgt];
        [exact Hle |].
      pose proof (pdf_loop_overflows height lines (height - 50 - 30) ops0) as Hov.
      unfold ops0 in Hov at 1. cbn [app page_breaks] in Hov.
      assert (Hpos := Hov ltac:(lra) ltac:(lra)).
      lia.
    - intro Hle.
      destruct (pdf_loop_fits height lines (height - 50 - 30) ops0) as [new [E Hb]];
        [lra |].
      rewrite E. cbn [snd]. rewrite page_breaks_app, Hb. reflexivity. }
  split; [exact Hiff |].
  intros -> Hn. apply Hiff.
  assert (INR (List.length lines) <= 33).
  { replace 33 with (INR 33) by (simpl; lra). now apply le_INR. }
  lra.
Qed.

End PdfExport.

Section PdfExportWitnesses.

Import Pdf.

Lemma pdf_lines_inside_margins_witness :
  130 <= 792
  /\ exists ops,
       export_pdf true (Some (612, 792)) [true] [[true; false]; []]
       = Some (ops ++ [Save])
       /\ Forall (fun d => 50 <= fst d <= 792 - 50) (drawn ops).
Proof.
  assert (Hh : 130 <= 792) by lra.
  split; [exact Hh |].
  destruct (pdf_lines_inside_margins bool 612 792 [true] [[true; false]; []] Hh)
    as [ops [E [_ Hpos]]].
  exists ops. split; [exact E | exact Hpos].
Defined.

Lemma pdf_single_page_iff_witness :
  130 <= 792
  /\ exists ops,
       export_pdf true (Some (612, 792)) [true] (repeat [true] 20) = Some ops
       /\ page_breaks ops = 0%nat.
Proof.
  assert (Hh : 130 <= 792) by lra.
  split; [exact Hh |].
  destruct (pdf_single_page_iff bool 612 792 [true] (repeat [true] 20) Hh)
    as [ops [E [_ Hletter]]].
  exists ops. split; [exact E |].
  apply Hletter; [reflexivity |]. rewrite repeat_length. lia.
Defined.

End PdfExportWitnesses.

(** ** The script: the keys of one run *)

Section ScriptRun.

Import Script.
Local Open Scope nat_scope.

Lemma widget_new (k : string) (keys : list string) :
  ~ In k keys -> widget k keys = Ok (keys ++ [k]).
Proof.
  intro H. unfold widget.
  destruct (existsb (String.eqb k) keys) eqn:E; [| reflexivity].
  apply existsb_exists in E. destruct E as [x [Hin Hx]].
  apply String.eqb_eq in Hx. subst x. contradiction.
Qed.

Lemma widget_duplicate (k : string) (keys : list string) :
  In k keys -> widget k keys = Raise (DuplicateWidgetID k).
Proof.
  intro H. unfold widget.
  destruct (existsb (String.eqb k) keys) eqn:E; [reflexivity |].
  assert (Ht : existsb (String.eqb k) keys = true).
  { apply existsb_exists. exists k. split; [exact H | apply String.eqb_refl]. }
  congruence.
Qed.

(** Keys that are all new and all different are all accepted. *)
Lemma widgets_new (ks : list string) :
  forall keys, NoDup (keys ++ ks) -> widgets ks keys = Ok (keys ++ ks).
Proof.
  induction ks as [| k ks IH]; intros keys H; cbn [widgets].
  - now rewrite app_nil_r.
  - rewrite widget_new.
    + cbn [bind]. rewrite IH; rewrite <- app_assoc; [reflexivity | exact H].
    + apply NoDup_remove_2 in H. intro Hin. apply H, in_or_app. now left.
Qed.

(** Accepted keys are kept, with those that were there. *)
Lemma widgets_keeps (ks : list string) :
  forall keys keys', widgets ks keys = Ok keys' ->
    forall k, In k keys \/ In k ks -> In k keys'.
Proof.
  induction ks as [| k0 ks IH]; intros keys keys' H k Hin; cbn [widgets] in H.
  - injection H as <-. destruct Hin as [Hin | []]. exact Hin.
  - unfold widget in H. destruct (existsb (String.eqb k0) keys); [discriminate |].
    cbn [bind] in H. apply (IH _ _ H).
    destruct Hin as [Hin | [-> | Hin]].
    + left. apply in_or_app. now left.
    + left. apply in_or_app. right. now left.
    + now right.
Qed.

(** The only exception of widget calls is the duplicate key. *)
Lemma widgets_raises (ks : list string) :
  forall keys e, widgets ks keys = Raise e -> exists k, e = DuplicateWidgetID k.
Proof.
  induction ks as [| k0 ks IH]; intros keys e H; cbn [widgets] in H.
  - discriminate.
  - unfold widget in H. destruct (existsb (String.eqb k0) keys).
    + cbn in H. injection H as <-. now exists k0.
    + cbn [bind] in H. apply (IH _ _ H).
Qed.

Lemma append_inj_l (p a b : string) : (p ++ a = p ++ b)%string -> a = b.
Proof.
  induction p as [| c p IH]; cbn; intro H; [exact H |].
  injection H as H. now apply IH.
Qed.

Lemma fkey_inj (p : string) (i j : nat) : fkey p i = fkey p j -> i = j.
Proof.
  unfold fkey. intro H. apply append_inj_l in H.
  apply Unsigned.to_uint_inj.
  assert (Hs : Some (Nat.to_uint i) = Some (Nat.to_uint j))
    by (rewrite <- !NilEmpty.usu; now rewrite H).
  now injection Hs.
Qed.

Lemma insulation_keys_S (n : nat) :
  insulation_keys (S n)
  = insulation_keys n ++ [fkey "len_" n; fkey "wd_" n; fkey "ht_" n].
Proof.
  unfold insulation_keys. rewrite seq_S, flat_map_app. cbn. reflexivity.
Qed.

Lemma insulation_keys_In (n : nat) (k : string) :
  In k (insulation_keys n) ->
  exists i, i < n /\ (k = fkey "len_" i \/ k = fkey "wd_" i \/ k = fkey "ht_" i).
Proof.
  unfold insulation_keys. rewrite in_flat_map. intros [i [Hi Hk]].
  apply in_seq in Hi. exists i. split; [lia |].
  cbn [In] in Hk. destruct Hk as [Hk | [Hk | [Hk | []]]]; subst k; auto.
Qed.

(** The insulation form never repeats a key of its own. *)
Lemma insulation_keys_NoDup (n : nat) : NoDup (insulation_keys n).
Proof.
  induction n as [| n IH]; [constructor |].
  rewrite insulation_keys_S. apply NoDup_app; [exact IH | |].
  - repeat constructor; cbn; intuition discriminate.
  - intros k Hin Hk. apply insulation_keys_In in Hin.
    destruct Hin as [i [Hi Hin]]. cbn [In] in Hk.
    destruct Hin as [-> | [-> | ->]];
      destruct Hk as [Hk | [Hk | [Hk | []]]];
      first [ apply fkey_inj in Hk; lia
            | unfold fkey in Hk; cbn in Hk; discriminate Hk ].
Qed.

Lemma rooms_keys_len (rw : RoomWidgets) (rest : list RoomWidgets) (i : nat) :
  In (fkey "len_" i) (rooms_keys i (rw :: rest)).
Proof. cbn. right. now left. Qed.

End ScriptRun.

Section ScriptOutcome.

Import Script.
Local Open Scope nat_scope.

(** Taken alone, the insulation function behaves as [Insulation.run_insulation_estimator]:
    its own keys never collide. *)
Lemma run_insulation_estimator_alone (inp : Insulation.Inputs) :
  run_insulation_estimator [] inp = python (Insulation.run_insulation_estimator inp).
Proof.
  unfold run_insulation_estimator, Insulation.run_insulation_estimator.
  destruct (Insulation.lookup_spec (Insulation.wall_r_value inp) _) as [wp |];
    [| reflexivity].
  destruct (Insulation.lookup_spec (Insulation.cat_r_value inp) _) as [cp |];
    [| reflexivity].
  cbn [python bind Py.bind].
  rewrite widgets_new by (cbn [List.app]; apply insulation_keys_NoDup).
  cbn [bind].
  destruct (Insulation.run_estimate inp); [| reflexivity].
  destruct (Insulation.estimate inp wp cp); reflexivity.
Qed.

(** With [len_0] among the keys of the run, the first section widget
    raises. *)
Lemma run_insulation_estimator_duplicate (keys : list string)
  (inp : Insulation.Inputs) (wp cp : Insulation.MaterialSpec) :
  In "len_0"%string keys ->
  Insulation.cat_sections inp <> [] ->
  Insulation.lookup_spec (Insulation.wall_r_value inp) (Insulation.wall_width inp)
  = Py.Ok wp ->
  Insulation.lookup_spec (Insulation.cat_r_value inp) (Insulation.cat_width inp)
  = Py.Ok cp ->
  run_insulation_estimator keys inp = Raise (DuplicateWidgetID "len_0").
Proof.
  intros Hin Hsec Hw Hc. unfold run_insulation_estimator.
  rewrite Hw, Hc. cbn [python bind].
  destruct (Insulation.cat_sections inp) as [| s secs]; [contradiction |].
  cbn [List.length]. unfold insulation_keys. cbn [seq flat_map List.app widgets].
  change (fkey "len_" 0) with "len_0"%string.
  rewrite widget_duplicate by exact Hin. reflexivity.
Qed.

Lemma drywall_keys_len_0 (rooms : list RoomWidgets) (num_high_parts : nat) :
  rooms <> [] -> In "len_0"%string (drywall_keys rooms num_high_parts).
Proof.
  intro H. destruct rooms as [| rw rest]; [contradiction |].
  unfold drywall_keys. apply in_or_app. left.
  apply (rooms_keys_len rw rest 0).
Qed.

(** X15: in the script as shipped, where the drywall form (at least one
    room) and the insulation form (at least one cathedral section, both
    specs found) are built in one run, the run ends in Streamlit's
    duplicate-key exception and shows no insulation estimate, whether or not
    the button is pressed: once the drywall widgets are accepted, [len_0] is
    among the keys of the run and the first section widget of the insulation
    form raises on it.  Taken alone, the insulation function accepts all its
    keys and behaves as [Insulation.run_insulation_estimator]. *)
Theorem duplicate_key_stops_insulation (rooms : list RoomWidgets)
  (num_high_parts : nat) (dinp : Drywall.Inputs) (iinp : Insulation.Inputs)
  (wp cp : Insulation.MaterialSpec) :
  rooms <> [] ->
  Insulation.cat_sections iinp <> [] ->
  Insulation.lookup_spec (Insulation.wall_r_value iinp) (Insulation.wall_width iinp)
  = Py.Ok wp ->
  Insulation.lookup_spec (Insulation.cat_r_value iinp) (Insulation.cat_width iinp)
  = Py.Ok cp ->
  (exists k, app_entry rooms num_high_parts dinp iinp = Raise (DuplicateWidgetID k))
  /\ (forall keys,
        widgets (drywall_keys rooms num_high_parts) [] = Ok keys ->
        In "len_0"%string keys
        /\ run_insulation_estimator keys iinp = Raise (DuplicateWidgetID "len_0")
        /\ app_entry rooms num_high_parts dinp iinp = Raise (DuplicateWidgetID "len_0"))
  /\ run_insulation_estimator [] iinp
     = python (Insulation.run_insulation_estimator iinp).
Proof.
  intros Hrooms Hsec Hw Hc.
  assert (Hkeys : forall keys,
             widgets (drywall_keys rooms num_high_parts) [] = Ok keys ->
             In "len_0"%string keys
             /\ run_insulation_estimator keys iinp = Raise (DuplicateWidgetID "len_0")
             /\ app_entry rooms num_high_parts dinp iinp = Raise (DuplicateWidgetID "len_0")).
  { intros keys Hk.
    assert (Hin : In "len_0"%string keys).
    { apply (widgets_keeps _ _ _ Hk). right. now apply drywall_keys_len_0. }
    pose proof (run_insulation_estimator_duplicate keys iinp wp cp Hin Hsec Hw Hc)
      as Hdup.
    split; [exact Hin |]. split; [exact Hdup |].
    unfold app_entry, run_drywall_estimator. rewrite Hk. cbn [bind].
    destruct (run_drywall_estimator_total dinp) as [o Ho]. rewrite Ho.
    cbn [python bind fst]. rewrite Hdup. reflexivity. }
  split; [| split; [exact Hkeys | apply run_insulation_estimator_alone]].
  destruct (widgets (drywall_keys rooms num_high_parts) []) as [keys | e] eqn:Hk.
  - exists "len_0"%string. now apply (Hkeys keys).
  - destruct (widgets_raises _ _ _ Hk) as [k ->]. exists k.
    unfold app_entry, run_drywall_estimator. rewrite Hk. reflexivity.
Qed.

(** One room with no windows, doors or custom height, and the sample
    insulation job. *)
Lemma duplicate_key_stops_insulation_witness :
  widgets (drywall_keys [mkRoomWidgets false None None] 0) []
  = Ok ["name_0"; "len_0"; "wid_0"; "h_choice_0"; "ceil_inc_0"; "win_has_0";
        "door_has_0"]%string
  /\ app_entry [mkRoomWidgets false None None] 0 sample_drywall sample_insulation
     = Raise (DuplicateWidgetID "len_0").
Proof.
  assert (Hk : widgets (drywall_keys [mkRoomWidgets false None None] 0) []
               = Ok ["name_0"; "len_0"; "wid_0"; "h_choice_0"; "ceil_inc_0";
                     "win_has_0"; "door_has_0"]%string) by reflexivity.
  split; [exact Hk |].
  destruct (duplicate_key_stops_insulation [mkRoomWidgets false None None] 0
              sample_drywall sample_insulation sample_spec sample_spec)
    as [_ [H _]]; try reflexivity; try discriminate.
  apply (H _ Hk).
Defined.

End ScriptOutcome.

(** ** Facts about binary64 arithmetic *)

Section SpecFloatFacts.

Local Open Scope Z_scope.



















End SpecFloatFacts.

Section Py64Facts.

Import Py64.
Local Open Scope float_scope.

Lemma Prim2SF_zero : Prim2SF 0 = S754_zero false.
Proof. reflexivity. Qed.

Lemma gt_0_not_zero (x : float) : Py64.gt x 0 = true -> (x =? 0) = false.
Proof.
  unfold Py64.gt. rewrite ltb_spec, eqb_spec, Prim2SF_zero.
  destruct (Prim2SF x) as [s | s | | s m e]; try destruct s; cbn; congruence.
Qed.


Lemma truediv_gt_0 (x rate : float) :
  Py64.gt rate 0 = true -> Py64.truediv x rate = Ok (x / rate).
Proof.
  intro H. unfold Py64.truediv. now rewrite (gt_0_not_zero _ H).
Qed.

Lemma ceil_div_guarded_gt_0 (x rate : float) :
  Py64.gt rate 0 = true -> Py64.ceil_div_guarded x rate = Py64.ceil (x / rate).
Proof.
  intro H. unfold Py64.ceil_div_guarded. rewrite H, truediv_gt_0 by exact H.
  reflexivity.
Qed.


(** [ceil_finite] is the ceiling: of the integer [n * 2^e] itself when
    [e >= 0], and of the fraction [n / 2^(-e)] otherwise. *)
Lemma ceil_finite_is_ceiling (s : bool) (m : positive) (e : Z) :
  let n := if s then Z.neg m else Z.pos m in
  let c := Py64.ceil_finite s m e in
  ((0 <= e)%Z -> c = (n * 2 ^ e)%Z)
  /\ ((e < 0)%Z -> ((c - 1) * 2 ^ (- e) < n <= c * 2 ^ (- e))%Z).
Proof.
  cbn zeta. unfold Py64.ceil_finite.
  set (n := if s then Z.neg m else Z.pos m).
  split; intro He.
  - destruct (Z.leb_spec 0 e); [reflexivity | lia].
  - destruct (Z.leb_spec 0 e); [lia |].
    assert (Hd : (0 < 2 ^ (- e))%Z) by (apply Z.pow_pos_nonneg; lia).
    pose proof (Z.mul_div_le (- n) _ Hd).
    pose proof (Z.mul_succ_div_gt (- n) _ Hd).
    nia.
Qed.


Lemma ceil_no_zero_division (x : float) : Py64.ceil x <> Raise ZeroDivisionError.
Proof. unfold Py64.ceil. destruct (Prim2SF x); discriminate. Qed.





Lemma gt_0_above_zero (x : float) : Py64.gt x 0 = true -> above_zero (Prim2SF x).
Proof.
  unfold Py64.gt. rewrite ltb_spec, Prim2SF_zero.
  destruct (Prim2SF x) as [s | s | | s m e]; try destruct s; cbn;
    try discriminate; intros _; exact I.
Qed.

Lemma above_zero_gt_0 (x : float) : above_zero (Prim2SF x) -> Py64.gt x 0 = true.
Proof.
  unfold Py64.gt. rewrite ltb_spec, Prim2SF_zero.
  destruct (Prim2SF x) as [s | s | | s m e]; try destruct s; cbn;
    try contradiction; reflexivity.
Qed.


End Py64Facts.

(** ** Drywall: the net wall area in binary64 *)

Section RoomAreas64.

Import Py64 Drywall64.
Local Open Scope float_scope.



(** Where the two areas agree on paper: the program's gross area is one
    unit in the last place above its opening area, the net area is that
    unit, and the takeoff asks for one sheet. *)
Example room_openings_match_walls_net :
  let a := room_areas Py64.sum_left_to_right 0 room_openings_match_walls in
  wall_area_gross a = 401.40000000000003
  /\ openings_area a = 401.4
  /\ (wall_area_gross a <=? openings_area a) = false
  /\ wall_area_net a = 5.684341886080802e-14
  /\ Py64.ceil (total_with_waste_ft2 a / 32) = Ok 1%Z.
Proof. vm_compute. repeat split. Qed.

(** The room of [sample_room] at 10 percent waste: 420 ft^2 becomes
    462.00000000000006. *)
Example room_10_10_8_with_waste :
  let a := room_areas Py64.sum_left_to_right 10
             {| length := 10; width := 10; height := 8; include_ceiling := true;
                windows := []; doors := [] |} in
  total_area_ft2 a = 420 /\ total_with_waste_ft2 a = 462.00000000000006.
Proof. vm_compute. repeat split. Qed.

End RoomAreas64.

(** ** Drywall: the takeoff quantities in binary64 *)

Section Takeoff64.

Import Py64 Drywall64.
Local Open Scope float_scope.

Lemma sheet_area_gt_0 (s : SheetSize) : Py64.gt (sheet_area s) 0 = true.
Proof. destruct s; reflexivity. Qed.





(** 2200 ft^2 at 12.5 gal per 1000 ft^2 in 2.5 gal pails: the mud is
    27.500000000000004 gal, so 12 pails where 27.5 gal would take 11. *)
Example takeoff_2200_pails :
  exists t,
    material_takeoff
      {| mud_gal_per_1000 := 12.5; mud_pail_gal := 2.5;
         tape_sqft_per_roll := 1200; screws_per_sqft := 1.25;
         screws_per_box := 1000; corner_bead_lf_per_1000 := 50;
         corner_bead_piece_len_ft := 8; sheet_size := Sheet4x8 |} 2200 = Ok t
    /\ mud_gal t = 27.500000000000004
    /\ mud_pails t = 12%Z.
Proof. eexists. vm_compute. repeat split. Qed.

(** A zero rate gives a zero quantity, not an error. *)
Example takeoff_zero_rates :
  exists t,
    material_takeoff
      {| mud_gal_per_1000 := 9.5; mud_pail_gal := 0;
         tape_sqft_per_roll := 0; screws_per_sqft := 1.25;
         screws_per_box := 0; corner_bead_lf_per_1000 := 50;
         corner_bead_piece_len_ft := 0; sheet_size := Sheet4x12 |} 525 = Ok t
    /\ sheets t = 11%Z
    /\ mud_pails t = 0%Z /\ tape_rolls t = 0%Z
    /\ screws_boxes t = 0%Z /\ corner_bead_pcs t = 0%Z.
Proof. eexists. vm_compute. repeat split. Qed.

End Takeoff64.

(** ** Insulation: the bag counts in binary64 *)

Section Bags64.

Import Py64 Insulation64.
Local Open Scope float_scope.


Lemma getitem64_In {K V : Type} (eqb : K -> K -> bool) (d : list (K * V)) (k : K)
  (v : V) :
  Py64.getitem eqb d k = Ok v -> exists k', In (k', v) d.
Proof.
  induction d as [| [k' v'] d IH]; cbn; [discriminate |].
  destruct (eqb k' k).
  - intro H. injection H as ->. exists k'. now left.
  - intro H. destruct (IH H) as [k'' Hin]. exists k''. now right.
Qed.

(** The fourteen coverages of the table, as doubles, are above zero. *)
Lemma MATERIAL_SPECS_coverage_gt_0 :
  Forall (fun e => Forall (fun ws => Py64.gt (coverage_per_bag (snd ws)) 0 = true
                                     /\ (pieces_per_bag (snd ws) > 0)%Z)
                          (snd e))
         MATERIAL_SPECS.
Proof.
  unfold MATERIAL_SPECS.
  repeat (apply Forall_cons || apply Forall_nil); cbn; split; reflexivity.
Qed.

Lemma lookup_spec_coverage_gt_0 (r_value : string) (width : Z) (sp : MaterialSpec) :
  lookup_spec r_value width = Ok sp -> Py64.gt (coverage_per_bag sp) 0 = true.
Proof.
  unfold lookup_spec. intro H.
  destruct (Py64.getitem String.eqb MATERIAL_SPECS r_value) as [widths |] eqn:E1;
    [| discriminate].
  cbn [Py64.bind] in H.
  destruct (getitem64_In _ _ _ _ E1) as [k1 Hin1].
  destruct (getitem64_In _ _ _ _ H) as [k2 Hin2].
  pose proof MATERIAL_SPECS_coverage_gt_0 as Htbl.
  rewrite Forall_forall in Htbl. specialize (Htbl _ Hin1). cbn [snd] in Htbl.
  rewrite Forall_forall in Htbl. apply (Htbl _ Hin2).
Qed.



(** Coverage 80 (R20 at 15 in) and the flat section 25 x 17.6, for which the
    loop gives 440.00000000000006 ft^2: 6 bags, where 440 / 88 would be 5. *)
Example cat_bags_440 :
  80 * 1.10 = 88
  /\ Py64.truediv 440.00000000000006 88 = Ok 5.000000000000001
  /\ cat_bags 440.00000000000006 80 = Ok 6%Z.
Proof. vm_compute. repeat split. Qed.

(** X16: in the program's own arithmetic, for every spec the wall select
    boxes can pick, the coverage per bag is above zero, so the wall bag
    count is math.ceil of the binary64 quotient of wall area = linear feet x
    height by the coverage, never the zero fallback, and no
    ZeroDivisionError is raised. *)
Theorem wall_bags_binary64 (r_value : string) (width : Z) (wp : MaterialSpec)
  (wall_linear_feet wall_height : float) :
  lookup_spec r_value width = Ok wp ->
  Py64.gt (coverage_per_bag wp) 0 = true
  /\ wall_bags wall_linear_feet wall_height (coverage_per_bag wp)
     = Py64.ceil (wall_linear_feet * wall_height / coverage_per_bag wp)
  /\ wall_bags wall_linear_feet wall_height (coverage_per_bag wp)
     <> Raise ZeroDivisionError.
Proof.
  intro H. pose proof (lookup_spec_coverage_gt_0 _ _ _ H) as Hg.
  split; [exact Hg |].
  unfold wall_bags. rewrite ceil_div_guarded_gt_0 by exact Hg.
  split; [reflexivity | apply ceil_no_zero_division].
Qed.

(** R22 at 23 in covers 75.1 ft^2 a bag; a wall 140.8125 x 8 ft is 1126.5
    ft^2 and the quotient is 15.000000000000002: 16 bags. *)
Lemma wall_bags_binary64_witness :
  lookup_spec "R22" 23 = Ok (mkSpec 75.1 10)
  /\ 140.8125 * 8 / 75.1 = 15.000000000000002
  /\ wall_bags 140.8125 8 75.1 = Ok 16%Z.
Proof.
  assert (Hl : lookup_spec "R22" 23 = Ok (mkSpec 75.1 10)) by reflexivity.
  split; [exact Hl |]. split; [vm_compute; reflexivity |].
  destruct (wall_bags_binary64 "R22" 23 (mkSpec 75.1 10) 140.8125 8 Hl)
    as [_ [Hb _]].
  cbn [coverage_per_bag] in Hb. rewrite Hb. vm_compute. reflexivity.
Defined.

End Bags64.

(** ** Drywall: the takeoff inside the form's ranges, in binary64 *)

Section TakeoffRanges64.

Import Py64 Drywall64.
Local Open Scope float_scope.

(** A float at or above a float above zero is above zero. *)
Lemma leb_gt_0 (a x : float) :
  Py64.gt a 0 = true -> (a <=? x) = true -> Py64.gt x 0 = true.
Proof.
  intros Ha Hle. apply gt_0_above_zero in Ha. apply above_zero_gt_0.
  rewrite leb_spec in Hle.
  destruct (Prim2SF a) as [sa | sa | | sa ma ea]; try contradiction;
    destruct sa; try contradiction;
    destruct (Prim2SF x) as [sx | sx | | sx mx ex]; try destruct sx;
    cbn in Hle |- *; try discriminate; exact I.
Qed.

(** X5: with the four rates inside the ranges of their number inputs (pail
    size at least 1, tape coverage at least 600, at least 500 screws a box,
    piece length at least 4), no quantity of a returned takeoff is the zero
    fallback: each is math.ceil of its binary64 quotient. *)
Theorem takeoff_in_form_range_binary64 (f : Factors) (tw : float) (t : Takeoff) :
  rates_in_form_range f ->
  material_takeoff f tw = Ok t ->
  Py64.ceil (tw / sheet_area (sheet_size f)) = Ok (sheets t)
  /\ Py64.ceil (tw / 1000 * mud_gal_per_1000 f / mud_pail_gal f) = Ok (mud_pails t)
  /\ Py64.ceil (tw / tape_sqft_per_roll f) = Ok (tape_rolls t)
  /\ Py64.ceil (tw * screws_per_sqft f) = Ok (screws_qty t)
  /\ (exists q, Py64.int_truediv (screws_qty t) (screws_per_box f) = Ok q
                /\ Py64.ceil q = Ok (screws_boxes t))
  /\ Py64.ceil (tw / 1000 * corner_bead_lf_per_1000 f / corner_bead_piece_len_ft f)
     = Ok (corner_bead_pcs t).
Proof.
  intros [Hpail [Htape [Hbox Hlen]]] Hrun.
  assert (Gpail : Py64.gt (mud_pail_gal f) 0 = true)
    by (apply (leb_gt_0 1); [reflexivity | exact Hpail]).
  assert (Gtape : Py64.gt (tape_sqft_per_roll f) 0 = true)
    by (apply (leb_gt_0 600); [reflexivity | exact Htape]).
  assert (Glen : Py64.gt (corner_bead_piece_len_ft f) 0 = true)
    by (apply (leb_gt_0 4); [reflexivity | exact Hlen]).
  assert (Gbox : (screws_per_box f >? 0)%Z = true) by (apply Z.gtb_gt; lia).
  revert Hrun. unfold material_takeoff.
  rewrite !ceil_div_guarded_gt_0, Gbox by (assumption || apply sheet_area_gt_0).
  destruct (Py64.ceil (tw / sheet_area (sheet_size f))); [| discriminate].
  cbn [Py64.bind].
  destruct (Py64.ceil (tw / 1000 * mud_gal_per_1000 f / mud_pail_gal f));
    [| discriminate].
  cbn [Py64.bind].
  destruct (Py64.ceil (tw / tape_sqft_per_roll f)); [| discriminate].
  cbn [Py64.bind].
  destruct (Py64.ceil (tw * screws_per_sqft f)) as [n_screws |]; [| discriminate].
  cbn [Py64.bind].
  destruct (Py64.int_truediv n_screws (screws_per_box f)) as [q |] eqn:Ediv;
    [| discriminate].
  cbn [Py64.bind].
  destruct (Py64.ceil q) eqn:Eq; [| discriminate].
  cbn [Py64.bind].
  destruct (Py64.ceil (tw / 1000 * corner_bead_lf_per_1000 f
                       / corner_bead_piece_len_ft f)); [| discriminate].
  cbn [Py64.bind]. intro H. injection H as <-.
  cbn [sheets mud_pails tape_rolls screws_qty screws_boxes corner_bead_pcs].
  repeat split. exists q. split; [exact Ediv | exact Eq].
Qed.

Lemma takeoff_in_form_range_binary64_witness :
  rates_in_form_range factors_12_5_gal
  /\ exists t,
       material_takeoff factors_12_5_gal 2200 = Ok t
       /\ 2200 / 1000 * 12.5 = 27.500000000000004
       /\ Py64.ceil (2200 / 1000 * 12.5 / 2.5) = Ok 12%Z
       /\ mud_pails t = 12%Z.
Proof.
  assert (Hr : rates_in_form_range factors_12_5_gal).
  { unfold rates_in_form_range. cbn. repeat split; try reflexivity; lia. }
  split; [exact Hr |].
  destruct (material_takeoff factors_12_5_gal 2200) as [t |] eqn:E;
    [| vm_compute in E; discriminate].
  exists t. split; [reflexivity |].
  split; [vm_compute; reflexivity |].
  assert (Hc : Py64.ceil (2200 / 1000 * 12.5 / 2.5) = Ok 12%Z)
    by (vm_compute; reflexivity).
  split; [exact Hc |].
  destruct (takeoff_in_form_range_binary64 factors_12_5_gal 2200 t Hr E)
    as [_ [Hp _]].
  cbn [factors_12_5_gal mud_gal_per_1000 mud_pail_gal] in Hp.
  rewrite Hc in Hp. now injection Hp.
Defined.

End TakeoffRanges64.
